(** * Map QA: geometry store, fix dispatcher and dangle diagnostics

    A shallow embedding of [backend/qa/fix_engine.py] and of the topology
    rules of [backend/qa/geometry_qa.py].

    Conventions of the embedding.
    - Python [str] values are modelled by [string]; identifiers, fix-type
      names and WKT text are taken to be ASCII.
    - A finite Python [float] is modelled by its exact rational value
      ([Q]). Comparisons are exact. The arithmetic that the source itself
      performs on floats, the quotient and the product of DENSIFY, rounds
      to binary64 ([PyFloat]); the arithmetic inside the geometry library
      belongs to the library.
    - The geometry library (Shapely/GEOS) is outside the repository. Its
      data (geometry kinds, coordinate lists, emptiness) is modelled by an
      inductive type; its algorithms (WKT reading and printing, distance,
      snapping, simplification, ...) are section variables. *)

From Stdlib Require Import QArith ZArith NArith Ascii String.
From stdpp Require Import base tactics option list strings gmap.

Local Open Scope string_scope.
Local Open Scope list_scope.

(** ** Python string primitives used by the source *)

Module Py.

(** [str.isspace] on one ASCII character: TAB, LF, VT, FF, CR, FS, GS, RS,
    US and SPACE. *)
Definition is_space (c : ascii) : bool :=
  let n := N_of_ascii c in
  ((9 <=? n) && (n <=? 13) || (28 <=? n) && (n <=? 32))%N.

Fixpoint lstrip (s : string) : string :=
  match s with
  | String c r => if is_space c then lstrip r else s
  | EmptyString => EmptyString
  end.

(** [rstrip] keeps a character when it is not a space or when something
    survives to its right. *)
Fixpoint rstrip (s : string) : string :=
  match s with
  | String c r =>
      match rstrip r with
      | EmptyString => if is_space c then EmptyString else String c EmptyString
      | r' => String c r'
      end
  | EmptyString => EmptyString
  end.

(** [s.strip()] *)
Definition strip (s : string) : string := rstrip (lstrip s).

(** Line boundaries of [str.splitlines] among ASCII characters:
    LF, VT, FF, FS, GS, RS; CR is handled apart because of CR LF. *)
Definition is_linebreak (c : ascii) : bool :=
  let n := N_of_ascii c in
  ((n =? 10) || (n =? 11) || (n =? 12) || (n =? 28) || (n =? 29) || (n =? 30))%N.

Definition is_cr (c : ascii) : bool := (N_of_ascii c =? 13)%N.
Definition is_lf (c : ascii) : bool := (N_of_ascii c =? 10)%N.

(** [cur] is the line being read. A final line without a terminator is
    kept only when it is not empty, as [splitlines] does. *)
Fixpoint splitlines_from (cur : string) (s : string) : list string :=
  match s with
  | EmptyString => match cur with EmptyString => [] | _ => [cur] end
  | String c r =>
      if is_cr c then
        match r with
        | String c2 r2 =>
            if is_lf c2 then cur :: splitlines_from "" r2
            else cur :: splitlines_from "" r
        | EmptyString => [cur]
        end
      else if is_linebreak c then cur :: splitlines_from "" r
      else splitlines_from (cur +:+ String c "") r
  end.

(** [s.splitlines()] *)
Definition splitlines (s : string) : list string := splitlines_from "" s.

(** [s.split(sep)] for a one-character separator: never empty. *)
Fixpoint split_from (sep : ascii) (cur : string) (s : string) : list string :=
  match s with
  | EmptyString => [cur]
  | String c r =>
      if Ascii.eqb c sep then cur :: split_from sep "" r
      else split_from sep (cur +:+ String c "") r
  end.

Definition split (sep : ascii) (s : string) : list string := split_from sep "" s.

(** [l[-1]] on a list of strings that is never empty here. *)
Definition last_piece (l : list string) : string := List.last l "".

(** [s.endswith(c)] for a one-character suffix. *)
Fixpoint endswith (c : ascii) (s : string) : bool :=
  match s with
  | EmptyString => false
  | String a EmptyString => Ascii.eqb a c
  | String _ r => endswith c r
  end.

(** Truth value of a string: non-empty. *)
Definition truthy (s : string) : bool :=
  match s with EmptyString => false | _ => true end.

Definition is_digit_char (c : ascii) : bool :=
  let n := N_of_ascii c in ((48 <=? n) && (n <=? 57))%N.

Fixpoint all_digits (s : string) : bool :=
  match s with
  | EmptyString => true
  | String c r => is_digit_char c && all_digits r
  end.

(** [s.isdigit()]: at least one character, all of them digits. *)
Definition isdigit (s : string) : bool := truthy s && all_digits s.

Definition digit_value (c : ascii) : N := (N_of_ascii c - 48)%N.

Fixpoint int_from (acc : N) (s : string) : N :=
  match s with
  | EmptyString => acc
  | String c r => int_from (10 * acc + digit_value c)%N r
  end.

(** [int(s)] on a string for which [isdigit] holds. *)
Definition int (s : string) : Z := Z.of_N (int_from 0 s).

Definition digit_char (d : N) : ascii := ascii_of_N (48 + d).

(** Decimal digits of [n], most significant first, in front of [acc]. *)
Fixpoint digits_from (fuel : nat) (n : N) (acc : string) : string :=
  match fuel with
  | O => acc
  | S f =>
      let acc' := String (digit_char (n mod 10)) acc in
      if (n / 10 =? 0)%N then acc' else digits_from f (n / 10)%N acc'
  end.

(** [str(n)] for a natural number. *)
Definition str_N (n : N) : string :=
  digits_from (S (N.to_nat (N.log2 n))) n "".

(** [str(z)] for an integer. *)
Definition str_Z (z : Z) : string :=
  if (z <? 0)%Z then "-" +:+ str_N (Z.to_N (- z)) else str_N (Z.to_N z).

(** [s.isascii()]: every character is below 128. *)
Definition is_ascii_char (c : ascii) : bool := (N_of_ascii c <? 128)%N.

Fixpoint isascii (s : string) : bool :=
  match s with
  | EmptyString => true
  | String c r => is_ascii_char c && isascii r
  end.

Definition upper_char (c : ascii) : ascii :=
  let n := N_of_ascii c in
  if ((97 <=? n) && (n <=? 122))%N then ascii_of_N (n - 32) else c.

(** [s.upper()] on ASCII text ([s.isascii()]): the letters [a] to [z]
    change, nothing else does. Beyond ASCII [str.upper] changes other
    letters as well, some of them into ASCII letters (the long s into
    [S]); this is outside the definition, and a statement that relates a
    text to its upper case is made for ASCII text. *)
Fixpoint upper (s : string) : string :=
  match s with
  | EmptyString => EmptyString
  | String c r => String (upper_char c) (upper r)
  end.

End Py.

Example splitlines_ex :
  Py.splitlines ("a" +:+ String (ascii_of_N 10) ("" +:+ String (ascii_of_N 13) (String (ascii_of_N 10) "b ")))
  = ["a"; ""; "b "].
Proof. reflexivity. Qed.

Example strip_ex : Py.strip "  LINESTRING(0 0, 1 1)  " = "LINESTRING(0 0, 1 1)".
Proof. reflexivity. Qed.

Example split_ex : Py.split "-" "dangle-12-start" = ["dangle"; "12"; "start"].
Proof. reflexivity. Qed.

Example str_ex : Py.str_Z 120 = "120" /\ Py.str_Z (-1) = "-1" /\ Py.str_Z 0 = "0".
Proof. repeat split; reflexivity. Qed.

Example int_ex : Py.int "0120" = 120%Z /\ Py.isdigit "12" = true /\ Py.isdigit "" = false
                 /\ Py.isdigit "1a" = false /\ Py.upper "Snap" = "SNAP".
Proof. repeat split; reflexivity. Qed.

(** ** Outcomes of fallible code *)

(** A Python computation either returns a value or raises an exception, of
    which only the text ([str(e)]) is observed by the source. *)
Inductive result (A : Type) : Type :=
| Ok (a : A)
| Raise (msg : string).
Arguments Ok {A} a.
Arguments Raise {A} msg.

Definition rbind {A B} (r : result A) (k : A -> result B) : result B :=
  match r with
  | Ok a => k a
  | Raise msg => Raise msg
  end.

Notation "'try!' x := c 'in' k" := (rbind c (fun x => k))
  (at level 10, x name, c at level 100, k at level 200).

(** [[f(x) for x in l]] where [f] may raise. *)
Fixpoint rmap {A B} (f : A -> result B) (l : list A) : result (list B) :=
  match l with
  | [] => Ok []
  | x :: r => try! y := f x in try! ys := rmap f r in Ok (y :: ys)
  end.

(** [l[i]] with Python's negative indices and [IndexError]. *)
Definition getitem {A} (l : list A) (i : Z) : result A :=
  let n := Z.of_nat (length l) in
  let j := if (i <? 0)%Z then (i + n)%Z else i in
  if ((0 <=? j) && (j <? n))%Z then
    match l !! Z.to_nat j with
    | Some x => Ok x
    | None => Raise "list index out of range"
    end
  else Raise "list index out of range".

(** ** Geometry values *)

Definition coord : Type := Q * Q.

(** Equality of coordinate tuples, as [coords[0] != coords[-1]] tests it. *)
Definition coord_eqb (a b : coord) : bool :=
  Qeq_bool (fst a) (fst b) && Qeq_bool (snd a) (snd b).

(** The geometry kinds of the library, with the data the source reads from
    them. A polygon is its exterior ring followed by its interior rings. *)
#[warnings="-register-all"]
Inductive geometry : Type :=
| Point (c : option coord)
| LineString (cs : list coord)
| LinearRing (cs : list coord)
| Polygon (exterior : list coord) (interiors : list (list coord))
| MultiPoint (pts : list coord)
| MultiLineString (parts : list (list coord))
| MultiPolygon (polys : list (list coord * list (list coord)))
| GeometryCollection (members : list geometry).

Definition nil_b {A} (l : list A) : bool :=
  match l with [] => true | _ => false end.

(** [geom.is_empty] *)
Fixpoint is_empty (g : geometry) : bool :=
  match g with
  | Point c => match c with None => true | Some _ => false end
  | LineString cs => nil_b cs
  | LinearRing cs => nil_b cs
  | Polygon ext _ => nil_b ext
  | MultiPoint pts => nil_b pts
  | MultiLineString parts => forallb nil_b parts
  | MultiPolygon polys => forallb (fun p => nil_b (fst p)) polys
  | GeometryCollection ms => forallb is_empty ms
  end.

(** [geom.geom_type] *)
Definition geom_type (g : geometry) : string :=
  match g with
  | Point _ => "Point"
  | LineString _ => "LineString"
  | LinearRing _ => "LinearRing"
  | Polygon _ _ => "Polygon"
  | MultiPoint _ => "MultiPoint"
  | MultiLineString _ => "MultiLineString"
  | MultiPolygon _ => "MultiPolygon"
  | GeometryCollection _ => "GeometryCollection"
  end.

(** [list(geom.coords)]; multi-part geometries and polygons have no
    coordinate sequence of their own. *)
Definition coords (g : geometry) : result (list coord) :=
  match g with
  | Point c => Ok match c with Some p => [p] | None => [] end
  | LineString cs => Ok cs
  | LinearRing cs => Ok cs
  | _ => Raise "Component rings have coordinate sequences, but the polygon does not"
  end.

(** [LineString(coords)]: a line needs zero or at least two points. *)
Definition LineString_new (cs : list coord) : result geometry :=
  match cs with
  | [_] => Raise "LineStrings must have at least 2 coordinate tuples"
  | _ => Ok (LineString cs)
  end.

(** [(p.x, p.y)] of a point returned by the library. *)
Definition point_xy (p : geometry) : result coord :=
  match p with
  | Point (Some c) => Ok c
  | Point None => Raise "getX called on empty Point"
  | _ => Raise "object has no attribute 'x'"
  end.

Definition is_line (g : geometry) : bool :=
  match g with
  | LineString _ | LinearRing _ => true
  | _ => false
  end.

Definition line_coords (g : geometry) : list coord :=
  match g with
  | LineString cs | LinearRing cs => cs
  | _ => []
  end.

(** [MultiLineString(geoms)] on a list of geometries: every member is turned
    into a line, which only a line admits; an empty member is refused. *)
Definition MultiLineString_new (gs : list geometry) : result geometry :=
  if forallb is_line gs then
    if existsb is_empty gs
    then Raise "Can't create MultiLineString with empty component"
    else Ok (MultiLineString (map line_coords gs))
  else Raise "object is not iterable".

(** ** Distances

    The distance between two geometries with rational coordinates is the
    square root of a rational. A distance is therefore carried by its
    square, and the source's comparisons are made on squares. [NaN] is what
    the library answers for a missing or empty operand, [Infinity] is
    [float('inf')]. *)
Inductive distance_t : Type :=
| Dist (sq : Q)
| NaN
| Infinity.

Definition Qlt_bool (x y : Q) : bool := negb (Qle_bool y x).

(** [a < b] on two distances. *)
Definition dist_lt (a b : distance_t) : bool :=
  match a, b with
  | Dist x, Dist y => Qlt_bool x y
  | Dist _, Infinity => true
  | _, _ => false
  end.

(** [d < t] and [d <= t] for a distance [d] and a number [t]. *)
Definition dist_lt_num (d : distance_t) (t : Q) : bool :=
  match d with
  | Dist x => Qlt_bool 0 t && Qlt_bool x (t * t)
  | _ => false
  end.

Definition dist_le_num (d : distance_t) (t : Q) : bool :=
  match d with
  | Dist x => Qle_bool 0 t && Qle_bool x (t * t)
  | _ => false
  end.

(** [int(x)] on a float: truncation towards zero. *)
Definition Qtrunc (x : Q) : Z := Z.quot (Qnum x) (Z.pos (Qden x)).

(** ** Python float arithmetic

    [x / y] and [x * y] on floats are the IEEE 754 binary64 operations:
    the exact result rounded to the nearest double, ties to the even
    significand, and to an infinity beyond the largest double. The
    operands are finite doubles; no operation below gives a NaN. *)

Module PyFloat.

Local Open Scope Z_scope.

Inductive t : Type :=
| Finite (x : Q)
| PosInf
| NegInf.

(** [2 ** k] *)
Definition pow2 (k : Z) : Q :=
  if 0 <=? k then inject_Z (2 ^ k) else 1 # Z.to_pos (2 ^ (- k)).

(** The binary exponent of [a / b]: the [e] with [2^e <= a/b < 2^(e+1)]. *)
Definition floor_log2 (a b : positive) : Z :=
  let e := Z.log2 (Z.pos a) - Z.log2 (Z.pos b) in
  if Qle_bool (pow2 e) (Z.pos a # b) then e else e - 1.

(** The integer nearest to [num / den], ties to even ([0 < den]). *)
Definition round_half_even (num den : Z) : Z :=
  let n := num / den in
  match 2 * (num mod den) ?= den with
  | Lt => n
  | Gt => n + 1
  | Eq => if Z.even n then n else n + 1
  end.

(** The double nearest to [a / b]: a significand of 53 bits at the
    exponent of [a / b], or at the least exponent [-1022] (subnormals). *)
Definition round_pos (a b : positive) : t :=
  let e := Z.max (floor_log2 a b) (-1022) in
  let k := e - 52 in
  let n := if 0 <=? k then round_half_even (Z.pos a) (Z.pos b * 2 ^ k)
           else round_half_even (Z.pos a * 2 ^ (- k)) (Z.pos b) in
  if n =? 0 then Finite 0
  else if 1024 <=? Z.log2 n + k then PosInf
  else Finite (Qred (inject_Z n * pow2 k)).

Definition round (q : Q) : t :=
  match Qnum q with
  | Z0 => Finite 0
  | Zpos a => round_pos a (Qden q)
  | Zneg a =>
      match round_pos a (Qden q) with
      | Finite x => Finite (Qred (- x))
      | PosInf => NegInf
      | NegInf => PosInf
      end
  end.

(** [x / y] *)
Definition truediv (x y : Q) : result t :=
  if Qeq_bool y 0 then Raise "float division by zero" else Ok (round (x / y)).

(** [x * y] *)
Definition mul (x y : Q) : t := round (x * y).

(** [int(x)] *)
Definition int (x : t) : result Z :=
  match x with
  | Finite q => Ok (Qtrunc q)
  | _ => Raise "cannot convert float infinity to integer"
  end.

End PyFloat.

(** The doubles written [0.1] and [0.9], and their quotient and a
    product as Python computes them: [0.9 / 0.1 == 9.0], although the
    exact quotient of the two doubles is below 9, and
    [3 * 0.1 == 0.30000000000000004]. *)
Example float_ex :
  PyFloat.round (1 # 10) = PyFloat.Finite (3602879701896397 # 36028797018963968)
  /\ PyFloat.round (9 # 10) = PyFloat.Finite (8106479329266893 # 9007199254740992)
  /\ PyFloat.truediv (8106479329266893 # 9007199254740992)
                     (3602879701896397 # 36028797018963968)
     = Ok (PyFloat.Finite 9)
  /\ Qtrunc ((8106479329266893 # 9007199254740992)
             / (3602879701896397 # 36028797018963968)) = 8%Z
  /\ PyFloat.mul 3 (3602879701896397 # 36028797018963968)
     = PyFloat.Finite (1351079888211149 # 4503599627370496)
  /\ PyFloat.mul (inject_Z (2 ^ 1023)) 2 = PyFloat.PosInf.
Proof. vm_compute. by repeat split. Qed.

(** Optional keyword parameters of a fix: [params.get(key, default) if
    params else default]. An empty dictionary is false. *)
Definition param (params : option (gmap string Q)) (key : string) (default : Q) : Q :=
  match params with
  | Some m =>
      if decide (m = ∅) then default
      else match m !! key with Some v => v | None => default end
  | None => default
  end.

(** ** The fix engine ([fix_engine.py]) *)

(** One entry of [applied_fixes]. *)
Record fix_record : Type := FixRecord {
  fix_error_id : string;
  fix_fix_type : string;
  fix_original : string;
  fix_result : string;
  fix_timestamp : string
}.

(** The fields of [GeometryFixEngine]. A slot holds a geometry or Python's
    [None]; [None] marks a deleted or unreadable statement. *)
Record engine : Type := Engine {
  original_geometries : list (option geometry);
  current_geometries : list (option geometry);
  applied_fixes : list fix_record
}.

(** The dictionary [{"success": ..., "message": ...}]. *)
Record response : Type := Response {
  success : bool;
  message : string
}.

Definition set_current (e : engine) (idx : Z) (g : option geometry) : engine :=
  Engine (original_geometries e)
         (<[Z.to_nat idx := g]> (current_geometries e))
         (applied_fixes e).

Definition log_fix (e : engine) (r : fix_record) : engine :=
  Engine (original_geometries e) (current_geometries e) (applied_fixes e ++ [r]).

(** The scan of [error_id.split('-')]: the first all-digit part is the
    index, [-1] when there is none. *)
Fixpoint find_index (parts : list string) : Z :=
  match parts with
  | [] => (-1)%Z
  | p :: rest => if Py.isdigit p then Py.int p else find_index rest
  end.

Definition resolve_index (error_id : string) : Z :=
  find_index (Py.split "-" error_id).

(** [0 <= index < len(self.current_geometries)] *)
Definition in_bounds (e : engine) (index : Z) : bool :=
  ((0 <=? index) && (index <? Z.of_nat (length (current_geometries e))))%Z.

(** [get_geometry]: the slot, or [None] outside the list. *)
Definition get_geometry (e : engine) (index : Z) : option geometry :=
  if in_bounds e index then
    match current_geometries e !! Z.to_nat index with
    | Some slot => slot
    | None => None
    end
  else None.

Section WithLibrary.

(** *** The geometry library

    The section covers the fix engine and the diagnostics: both files
    call the same library. *)

(** [shapely.wkt.loads]: raises on malformed text. *)
Variable loads : string -> result geometry.
(** [geom.wkt] *)
Variable wkt : geometry -> string.
(** Square of the distance between two non-empty geometries. *)
Variable distance2 : geometry -> geometry -> Q.
(** [snap(g, reference, tolerance)] *)
Variable snap : geometry -> geometry -> Q -> geometry.
(** [geom.simplify(tolerance, preserve_topology=True)] *)
Variable simplify : geometry -> Q -> geometry.
(** [geom.buffer(distance)] *)
Variable buffer : geometry -> Q -> geometry.
Variable make_valid : geometry -> geometry.
(** [geom.length] *)
Variable length_of : geometry -> Q.
(** [geom.interpolate(distance)], a point *)
Variable interpolate : geometry -> PyFloat.t -> geometry.
(** [f"{d:.4f}"] on a distance and [str(x)] on a number *)
Variable format_dist4 : distance_t -> string.
Variable str_num : Q -> string.

(** [geom.distance(other)]: not a number when [other] is missing or when
    either side is empty. *)
Definition distance (g : geometry) (other : option geometry) : distance_t :=
  match other with
  | None => NaN
  | Some o => if is_empty g || is_empty o then NaN else Dist (distance2 g o)
  end.

(** *** Loading *)

(** One iteration of the line loop; the state is [buf] and the list of
    geometries read so far. *)
Definition load_line (st : string * list (option geometry)) (line_str : string)
  : string * list (option geometry) :=
  let '(buf, geoms) := st in
  let stripped := Py.strip line_str in
  if negb (Py.truthy stripped) then st
  else
    let buf := buf +:+ stripped +:+ " " in
    if Py.endswith ")" stripped then
      let clean_wkt := Py.last_piece (Py.split ";" buf) in
      match loads clean_wkt with
      | Ok geom =>
          if negb (is_empty geom) then ("", geoms ++ [Some geom]) else ("", geoms)
      | Raise _ => ("", geoms ++ [None])
      end
    else (buf, geoms).

Definition parse_geometries (wkt_content : string) : list (option geometry) :=
  snd (fold_left load_line (Py.splitlines wkt_content) ("", [])).

(** [load_wkt_content]: the working list is a deep copy of the original
    one, the log is emptied. Returns the number of slots. *)
Definition load_wkt_content (wkt_content : string) (e : engine) : nat * engine :=
  let geoms := parse_geometries wkt_content in
  (length geoms, Engine geoms geoms []).

(** *** Applying a fix *)

(** The loop of the SNAP strategy over [enumerate(self.current_geometries)],
    from position [i] on; the state is [(best_snap, min_dist)]. *)
Fixpoint snap_scan (geom : geometry) (idx : Z) (tolerance : Q) (i : Z)
    (others : list (option geometry))
    (best_snap : option geometry) (min_dist : distance_t)
  : option geometry * distance_t :=
  match others with
  | [] => (best_snap, min_dist)
  | other :: rest =>
      if (i =? idx)%Z then
        snap_scan geom idx tolerance (i + 1)%Z rest best_snap min_dist
      else
        let dist := distance geom other in
        if dist_lt dist min_dist && dist_lt_num dist tolerance then
          snap_scan geom idx tolerance (i + 1)%Z rest other dist
        else
          snap_scan geom idx tolerance (i + 1)%Z rest best_snap min_dist
  end.

(** Truth value of [best_snap]: present and not empty. *)
Definition geom_truthy (g : option geometry) : bool :=
  match g with
  | Some x => negb (is_empty x)
  | None => false
  end.

(** What a strategy does: it either returns early with a failure, or
    goes on with a (possibly changed) engine and a result text. *)
Inductive strategy_outcome : Type :=
| Return (r : response)
| Continue (e : engine) (fix_result : string).

Definition strategy_snap (e : engine) (idx : Z) (geom : geometry)
    (params : option (gmap string Q)) : result strategy_outcome :=
  let tolerance := param params "tolerance" (1 # 2) in
  let '(best_snap, min_dist) :=
    snap_scan geom idx tolerance 0 (current_geometries e) None Infinity in
  match best_snap with
  | Some best =>
      if geom_truthy best_snap then
        let snapped_geom := snap geom best tolerance in
        Ok (Continue (set_current e idx (Some snapped_geom))
              ("Snapped to nearest geometry (dist: " +:+ format_dist4 min_dist +:+ ")"))
      else Ok (Return (Response false "No geometry found within snap tolerance"))
  | None => Ok (Return (Response false "No geometry found within snap tolerance"))
  end.

Definition strategy_close (e : engine) (idx : Z) (geom : geometry)
  : result strategy_outcome :=
  if String.eqb (geom_type geom) "Polygon" || String.eqb (geom_type geom) "LinearRing" then
    Ok (Continue e "Ring already closed")
  else if String.eqb (geom_type geom) "LineString" then
    try! cs := coords geom in
    try! first := getitem cs 0 in
    try! last := getitem cs (-1) in
    if negb (coord_eqb first last) then
      try! closed_ring := LineString_new (cs ++ [first]) in
      Ok (Continue (set_current e idx (Some closed_ring))
            "Closed the ring by connecting end to start")
    else Ok (Continue e "Ring already closed")
  else Ok (Continue e "Close not applicable to this geometry type").

Definition strategy_reverse (e : engine) (idx : Z) (geom : geometry)
  : result strategy_outcome :=
  match geom with
  | Polygon ext ints =>
      let reversed_poly := Polygon (rev ext) (map (@rev coord) ints) in
      Ok (Continue (set_current e idx (Some reversed_poly)) "Reversed winding order")
  | LineString cs =>
      try! reversed_line := LineString_new (rev cs) in
      Ok (Continue (set_current e idx (Some reversed_line)) "Reversed coordinate order")
  | _ => Ok (Continue e "Reverse not applicable")
  end.

Definition strategy_densify (e : engine) (idx : Z) (geom : geometry)
    (params : option (gmap string Q)) : result strategy_outcome :=
  if String.eqb (geom_type geom) "LineString" then
    let interval := param params "interval" 1 in
    let length := length_of geom in
    try! quotient := PyFloat.truediv length interval in
    try! whole := PyFloat.int quotient in
    let num_points := Z.max whole 2 in
    try! points :=
      rmap (fun i => point_xy (interpolate geom
                                 (PyFloat.mul (inject_Z (Z.of_nat i)) interval)))
           (seq 0 (Z.to_nat (num_points + 1))) in
    try! densified := LineString_new points in
    Ok (Continue (set_current e idx (Some densified))
          ("Densified with " +:+ Py.str_Z num_points +:+ " points"))
  else Ok (Continue e "Densify not applicable to this geometry type").

(** The [if]/[elif] chain on [fix_type.upper()]. *)
Definition dispatch (e : engine) (idx : Z) (geom : geometry) (fix_type : string)
    (params : option (gmap string Q)) : result strategy_outcome :=
  let ft := Py.upper fix_type in
  if String.eqb ft "SNAP" then strategy_snap e idx geom params
  else if String.eqb ft "DELETE" then
    Ok (Continue (set_current e idx None) "Deleted geometry")
  else if String.eqb ft "SIMPLIFY" then
    let tolerance := param params "tolerance" (1 # 2) in
    let simplified := simplify geom tolerance in
    Ok (Continue (set_current e idx (Some simplified))
          ("Simplified geometry (tolerance: " +:+ str_num tolerance +:+ ")"))
  else if String.eqb ft "BUFFER" then
    let buffered := buffer geom 0 in
    Ok (Continue (set_current e idx (Some buffered))
          "Applied buffer(0) to fix self-intersection")
  else if String.eqb ft "MAKE_VALID" then
    let valid_geom := make_valid geom in
    Ok (Continue (set_current e idx (Some valid_geom))
          "Applied make_valid() to repair geometry")
  else if String.eqb ft "CLOSE" then strategy_close e idx geom
  else if String.eqb ft "REVERSE" then strategy_reverse e idx geom
  else if String.eqb ft "DENSIFY" then strategy_densify e idx geom params
  else if String.eqb ft "OTHER" then
    Ok (Continue e "Marked as reviewed (no auto-fix available)")
  else Ok (Return (Response false ("Unknown fix type: " +:+ fix_type))).

(** The body of the [try] block. [None] stands for falling off the end of
    the function (an empty [fix_result]). *)
Definition apply_fix_try (error_id fix_type : string)
    (params : option (gmap string Q)) (e : engine)
  : result (option response * engine) :=
  let parts := Py.split "-" error_id in
  let idx := find_index parts in
  if (idx =? -1)%Z || (idx >=? Z.of_nat (length (current_geometries e)))%Z then
    Ok (Some (Response false ("Invalid geometry index: " +:+ Py.str_Z idx)), e)
  else
    try! slot := getitem (current_geometries e) idx in
    try! geom := match slot with
                 | Some g => Ok g
                 | None => Raise "'NoneType' object has no attribute 'wkt'"
                 end in
    let original_wkt := wkt geom in
    try! outcome := dispatch e idx geom fix_type params in
    match outcome with
    | Return r => Ok (Some r, e)
    | Continue e' fix_result =>
        if Py.truthy fix_result then
          Ok (Some (Response true fix_result),
              log_fix e' (FixRecord error_id fix_type original_wkt fix_result "now"))
        else Ok (None, e')
    end.

(** [apply_fix]: any exception becomes a failure response. No strategy
    raises after it has changed the engine, so the engine of a failed
    call is the one it started from. *)
Definition apply_fix (error_id fix_type : string)
    (params : option (gmap string Q)) (e : engine) : option response * engine :=
  match apply_fix_try error_id fix_type params e with
  | Ok out => out
  | Raise msg => (Some (Response false msg), e)
  end.

(** *** Export *)

(** [[g for g in self.current_geometries if g is not None and not g.is_empty]] *)
Fixpoint valid_geoms (slots : list (option geometry)) : list geometry :=
  match slots with
  | [] => []
  | Some g :: rest => if negb (is_empty g) then g :: valid_geoms rest else valid_geoms rest
  | None :: rest => valid_geoms rest
  end.

(** [export_fixed_wkt]; the collection constructor may raise, and nothing
    catches it here. *)
Definition export_fixed_wkt (e : engine) : result string :=
  match valid_geoms (current_geometries e) with
  | [] => Ok ""
  | [g] => Ok (wkt g)
  | gs => try! collection := MultiLineString_new gs in Ok (wkt collection)
  end.


(** ** The diagnostics ([geometry_qa.py]) *)

(** [geom.is_simple], [geom.is_valid], [explain_validity(geom)] *)
Variable is_simple : geometry -> bool.
Variable is_valid : geometry -> bool.
Variable explain_validity : geometry -> string.
(** [(geom.centroid.x, geom.centroid.y)] *)
Variable centroid : geometry -> coord.
(** [f"{x:.Nf}"] on a number *)
Variable format_f : nat -> Q -> string.

Definition TOLERANCE : Q := 1 # 2.
Definition MIN_LINE_LENGTH : Q := 2.

(** An entry of [lines_data]: [{"id", "line_no", "geom"}]. *)
Record line_item : Type := LineItem {
  item_id : nat;
  item_line_no : nat;
  item_geom : option geometry
}.

(** An entry of [endpoints]. *)
Record endpoint : Type := Endpoint {
  ep_pt : geometry;
  ep_line_idx : nat;
  ep_line_no : nat;
  ep_loc : string;
  ep_coord : coord
}.

(** An error dictionary carrying an ["id"]. *)
Record finding : Type := Finding {
  f_id : string;
  f_type : string;
  f_geometry_index : nat;
  f_line_number : nat;
  f_location : string;
  f_severity : string;
  f_description : string;
  f_wkt : string;
  f_error_point : option coord
}.

Definition str_nat (n : nat) : string := Py.str_Z (Z.of_nat n).

(** [geoms_list], as the coordinate lists of its members: the line itself,
    or the members of a multi-line; nothing for any other kind. *)
Definition geoms_list (geom : geometry) : list (list coord) :=
  match geom with
  | LineString cs => [cs]
  | MultiLineString parts => parts
  | _ => []
  end.

(** The two endpoints of one part; a part with fewer than two coordinates
    gives none. *)
Definition part_endpoints (idx line_no : nat) (cs : list coord) : list endpoint :=
  match cs with
  | first :: _ :: _ =>
      let last := List.last cs first in
      [Endpoint (Point (Some first)) idx line_no "start" first;
       Endpoint (Point (Some last)) idx line_no "end" last]
  | _ => []
  end.

(** Step 1 of [find_dangles]: collect all endpoints. *)
Fixpoint collect_endpoints (lines_data : list line_item) (endpoints : list endpoint)
  : list endpoint :=
  match lines_data with
  | [] => endpoints
  | item :: rest =>
      match item_geom item with
      | None => collect_endpoints rest endpoints
      | Some geom =>
          if is_empty geom then collect_endpoints rest endpoints
          else
            collect_endpoints rest
              (endpoints ++
               flat_map (part_endpoints (item_id item) (item_line_no item))
                        (geoms_list geom))
      end
  end.

(** The inner loop of step 2, with its [break]. *)
Fixpoint connected_scan (pt : geometry) (my_idx : nat) (tolerance : Q)
    (others : list line_item) : bool :=
  match others with
  | [] => false
  | other_item :: rest =>
      if Nat.eqb my_idx (item_id other_item) then
        connected_scan pt my_idx tolerance rest
      else
        match item_geom other_item with
        | None => connected_scan pt my_idx tolerance rest
        | Some other_geom =>
            if is_empty other_geom then connected_scan pt my_idx tolerance rest
            else if dist_le_num (distance pt (Some other_geom)) tolerance then true
            else connected_scan pt my_idx tolerance rest
        end
  end.

(** [line.is_closed] and [line.is_ring] on a line string. *)
Definition is_closed (g : geometry) : bool :=
  match line_coords g with
  | [] => false
  | first :: rest => coord_eqb first (List.last rest first)
  end.

Definition is_ring (g : geometry) : bool := is_closed g && is_simple g.

Definition dangle_error (tolerance : Q) (ep : endpoint) : finding :=
  Finding
    ("dangle-" +:+ str_nat (ep_line_no ep) +:+ "-" +:+ ep_loc ep)
    "Dangle (Unconnected Endpoint)"
    (ep_line_idx ep)
    (ep_line_no ep)
    (format_f 6 (fst (ep_coord ep)) +:+ ", " +:+ format_f 6 (snd (ep_coord ep)))
    "HIGH"
    ("Dangle at " +:+ ep_loc ep +:+ " (Line " +:+ str_nat (ep_line_no ep)
       +:+ "). No snap within " +:+ str_num tolerance +:+ "m.")
    (wkt (ep_pt ep))
    (Some (ep_coord ep)).

(** Step 2 of [find_dangles]: the loop over the endpoints, [errors] being
    the list built so far. *)
Fixpoint check_endpoints (lines_data : list line_item) (tolerance : Q)
    (endpoints : list endpoint) (errors : list finding) : result (list finding) :=
  match endpoints with
  | [] => Ok errors
  | ep :: rest =>
      let is_connected :=
        connected_scan (ep_pt ep) (ep_line_idx ep) tolerance lines_data in
      if negb is_connected then
        try! my_item := getitem lines_data (Z.of_nat (ep_line_idx ep)) in
        try! my_geom := match item_geom my_item with
                        | Some g => Ok g
                        | None => Raise "'NoneType' object has no attribute 'geom_type'"
                        end in
        let ring := String.eqb (geom_type my_geom) "LineString" && is_ring my_geom in
        if negb ring then
          check_endpoints lines_data tolerance rest (errors ++ [dangle_error tolerance ep])
        else check_endpoints lines_data tolerance rest errors
      else check_endpoints lines_data tolerance rest errors
  end.

Definition find_dangles (lines_data : list line_item) (tolerance : Q)
  : result (list finding) :=
  check_endpoints lines_data tolerance (collect_endpoints lines_data []) [].

Definition short_error (item : line_item) (geom : geometry) : finding :=
  Finding
    ("short-" +:+ str_nat (item_line_no item))
    "Short Line Segment"
    (item_id item)
    (item_line_no item)
    (format_f 6 (fst (centroid geom)) +:+ ", " +:+ format_f 6 (snd (centroid geom)))
    "LOW"
    ("Line " +:+ str_nat (item_line_no item) +:+ " is too short ("
       +:+ format_f 4 (length_of geom) +:+ "m).")
    (wkt geom)
    None.

Fixpoint find_short_lines (lines_data : list line_item) (min_len : Q) : list finding :=
  match lines_data with
  | [] => []
  | item :: rest =>
      match item_geom item with
      | None => find_short_lines rest min_len
      | Some geom =>
          if is_empty geom then find_short_lines rest min_len
          else if Qlt_bool (length_of geom) min_len then
            short_error item geom :: find_short_lines rest min_len
          else find_short_lines rest min_len
      end
  end.

Definition invalid_error (item : line_item) (g : geometry) : finding :=
  Finding
    ("invalid-" +:+ str_nat (item_line_no item))
    "Invalid Geometry"
    (item_id item)
    (item_line_no item)
    "N/A"
    "CRITICAL"
    ("Line " +:+ str_nat (item_line_no item) +:+ ": " +:+ explain_validity g)
    (wkt g)
    None.

(** The validity loop of [run_geometry_qa]; every item holds a geometry
    there, and [g.is_valid] on [None] would raise. *)
Fixpoint validity_checks (lines_data : list line_item) : result (list finding) :=
  match lines_data with
  | [] => Ok []
  | item :: rest =>
      match item_geom item with
      | None => Raise "'NoneType' object has no attribute 'is_valid'"
      | Some g =>
          try! more := validity_checks rest in
          if negb (is_valid g) then Ok (invalid_error item g :: more) else Ok more
      end
  end.

(** The state of the reading loop of [run_geometry_qa]. *)
Record reader : Type := Reader {
  rd_buf : string;
  rd_current_statement_start : nat;
  rd_lines_data : list line_item
}.

(** One iteration, for line [i] (0-based) of the text. *)
Definition read_line (st : reader) (i : nat) (line_str : string) : reader :=
  let stripped := Py.strip line_str in
  if negb (Py.truthy stripped) then st
  else
    let start := if negb (Py.truthy (rd_buf st)) then i + 1
                 else rd_current_statement_start st in
    let buf := rd_buf st +:+ stripped +:+ " " in
    if Py.endswith ")" stripped then
      let clean_wkt := Py.last_piece (Py.split ";" buf) in
      match loads clean_wkt with
      | Ok geom =>
          if negb (is_empty geom) then
            Reader "" start
              (rd_lines_data st ++
               [LineItem (length (rd_lines_data st)) start (Some geom)])
          else Reader "" start (rd_lines_data st)
      | Raise _ => Reader "" start (rd_lines_data st)
      end
    else Reader buf start (rd_lines_data st).

Fixpoint read_lines (st : reader) (i : nat) (raw_lines : list string) : reader :=
  match raw_lines with
  | [] => st
  | line_str :: rest => read_lines (read_line st i line_str) (i + 1) rest
  end.

Definition read_lines_data (text : string) : list line_item :=
  rd_lines_data (read_lines (Reader "" 0 []) 0 (Py.splitlines text)).

(** An entry of the ["errors"] list of the answer: a finding, or a notice
    without identifier ([{"type", "description"}]). *)
Inductive error_entry : Type :=
| Found (f : finding)
| Notice (type description : string).

(** Step 4 of [run_geometry_qa]: the picture of the records and of the
    errors, drawn with the plotting library and saved in the output
    directory under a fresh name [geometry_<uuid>.png], which is the
    result. The step belongs to the plotting library and to the file
    system; it runs inside the [try] of [run_geometry_qa] and may raise
    (the unpacking of an error point, the drawing, the saving). *)
Variable plot : list line_item -> list finding -> result string.

(** The answer of [run_geometry_qa]. *)
Record qa_report : Type := QaReport {
  qa_output_url : option string;
  qa_errors : list error_entry;
  qa_collection_wkt : list string
}.

Definition collection_wkt (lines_data : list line_item) : result (list string) :=
  rmap (fun item => match item_geom item with
                    | Some g => Ok (wkt g)
                    | None => Raise "'NoneType' object has no attribute 'wkt'"
                    end) lines_data.

Definition run_geometry_qa_try (text : string) : result qa_report :=
  let lines_data := read_lines_data text in
  if (length lines_data <? 1)%nat then
    Ok (QaReport None [Notice "insufficient_data" "No valid geometries found."] [])
  else
    try! invalid := validity_checks lines_data in
    try! dangles := find_dangles lines_data TOLERANCE in
    let errors := invalid ++ dangles ++ find_short_lines lines_data MIN_LINE_LENGTH in
    try! out_name := plot lines_data errors in
    try! texts := collection_wkt lines_data in
    Ok (QaReport (Some ("/outputs/" +:+ out_name)) (map Found errors) texts).

Definition run_geometry_qa (text : string) : qa_report :=
  match run_geometry_qa_try text with
  | Ok report => report
  | Raise msg =>
      QaReport None
        [Notice "processing_error" ("Failed to process geometry: " +:+ msg)] []
  end.

End WithLibrary.

(** ** Facts about the string primitives *)

Section Digits.

Lemma N_of_ascii_digit_char d :
  (d < 10)%N -> N_of_ascii (Py.digit_char d) = (48 + d)%N.
Proof.
  intros Hd. unfold Py.digit_char. apply N_ascii_embedding. lia.
Qed.

Lemma is_digit_char_digit_char d :
  (d < 10)%N -> Py.is_digit_char (Py.digit_char d) = true.
Proof.
  intros Hd. unfold Py.is_digit_char. rewrite N_of_ascii_digit_char by done.
  apply andb_true_intro; split; apply N.leb_le; lia.
Qed.

Lemma digit_value_digit_char d :
  (d < 10)%N -> Py.digit_value (Py.digit_char d) = d.
Proof.
  intros Hd. unfold Py.digit_value. rewrite N_of_ascii_digit_char by done. lia.
Qed.

Lemma append_cons x (a b : string) : String x a +:+ b = String x (a +:+ b).
Proof. reflexivity. Qed.

Lemma append_nil_l (b : string) : "" +:+ b = b.
Proof. reflexivity. Qed.

Lemma append_assoc (a b c : string) : (a +:+ b) +:+ c = a +:+ (b +:+ c).
Proof.
  induction a as [|x a IH]; [done |].
  rewrite !append_cons. by rewrite IH.
Qed.

Lemma append_nil_r (a : string) : a +:+ "" = a.
Proof. induction a as [|x a IH]; [done |]. rewrite append_cons. by rewrite IH. Qed.

Lemma all_digits_app a b :
  Py.all_digits (a +:+ b) = Py.all_digits a && Py.all_digits b.
Proof.
  induction a as [|x a IH]; [done |].
  rewrite append_cons. simpl. rewrite IH. by rewrite andb_assoc.
Qed.

Lemma int_from_app a b acc :
  Py.int_from acc (a +:+ b) = Py.int_from (Py.int_from acc a) b.
Proof.
  revert acc. induction a as [|x a IH]; intros acc; [done |].
  rewrite append_cons. simpl. apply IH.
Qed.

Lemma length_append (a b : string) :
  String.length (a +:+ b) = String.length a + String.length b.
Proof.
  induction a as [|x a IH]; [done |].
  rewrite append_cons. simpl. by rewrite IH.
Qed.

(** The printer writes the decimal digits of [n] in front of [acc]: what
    it writes is a non-empty run of digits that reads back as [n]. *)
Lemma digits_from_spec f n acc :
  (n < 10 ^ N.of_nat (S f))%N ->
  exists s,
    Py.digits_from (S f) n acc = s +:+ acc
    /\ Py.truthy s = true
    /\ Py.all_digits s = true
    /\ forall a, Py.int_from a s = (a * 10 ^ N.of_nat (String.length s) + n)%N.
Proof.
  revert n acc. induction f as [|f IH]; intros n acc Hn.
  - assert (Hlt : (n < 10)%N) by (change (10 ^ N.of_nat 1)%N with 10%N in Hn; lia).
    exists (String (Py.digit_char n) "").
    assert (Hq : (n / 10 = 0)%N) by (apply N.div_small; lia).
    assert (Hm : (n mod 10 = n)%N) by (apply N.mod_small; lia).
    cbn [Py.digits_from]. rewrite Hq, Hm. simpl.
    rewrite is_digit_char_digit_char by done.
    repeat split; try done.
    intros a. rewrite digit_value_digit_char by done. lia.
  - cbn [Py.digits_from].
    assert (Hmod : (n mod 10 < 10)%N) by (apply N.mod_lt; lia).
    destruct (N.eqb_spec (n / 10) 0) as [Hq|Hq].
    + exists (String (Py.digit_char (n mod 10)) "").
      simpl. rewrite is_digit_char_digit_char by done.
      repeat split; try done.
      intros a. rewrite digit_value_digit_char by done.
      pose proof (N.div_mod n 10 ltac:(lia)) as Hdm. rewrite Hq in Hdm. lia.
    + assert (Hlt : (n / 10 < 10 ^ N.of_nat (S f))%N).
      { apply N.Div0.div_lt_upper_bound.
        replace (N.of_nat (S (S f))) with (N.succ (N.of_nat (S f))) in Hn by lia.
        rewrite N.pow_succ_r' in Hn. lia. }
      destruct (IH (n / 10)%N (String (Py.digit_char (n mod 10)) acc) Hlt)
        as (s & Heq & Hne & Hall & Hval).
      exists (s +:+ String (Py.digit_char (n mod 10)) "").
      split; [| split; [| split]].
      * rewrite append_assoc. exact Heq.
      * destruct s; [done | reflexivity].
      * rewrite all_digits_app, Hall. simpl.
        by rewrite is_digit_char_digit_char.
      * intros a. rewrite int_from_app, Hval. simpl.
        rewrite digit_value_digit_char by done.
        rewrite length_append. simpl.
        replace (N.of_nat (String.length s + 1)) with (N.succ (N.of_nat (String.length s))) by lia.
        rewrite N.pow_succ_r'.
        pose proof (N.div_mod n 10 ltac:(lia)) as Hdm. lia.
Qed.

Lemma str_N_fuel n : (n < 10 ^ N.of_nat (S (N.to_nat (N.log2 n))))%N.
Proof.
  replace (N.of_nat (S (N.to_nat (N.log2 n)))) with (N.succ (N.log2 n)) by lia.
  destruct (N.eq_dec n 0%N) as [->|Hn]; [reflexivity |].
  pose proof (N.log2_spec n ltac:(lia)) as [_ Hup].
  eapply N.lt_le_trans; [exact Hup |].
  apply N.pow_le_mono_l. lia.
Qed.

Lemma str_N_spec n :
  Py.isdigit (Py.str_N n) = true /\ Py.int (Py.str_N n) = Z.of_N n.
Proof.
  unfold Py.str_N, Py.isdigit, Py.int.
  destruct (digits_from_spec _ n "" (str_N_fuel n)) as (s & Heq & Hne & Hall & Hval).
  rewrite Heq, append_nil_r, Hne, Hall, Hval. split; [done | f_equal; lia].
Qed.

Lemma str_nat_spec n :
  Py.isdigit (str_nat n) = true /\ Py.int (str_nat n) = Z.of_nat n.
Proof.
  unfold str_nat, Py.str_Z.
  destruct (Z.ltb_spec (Z.of_nat n) 0) as [?|_]; [lia |].
  destruct (str_N_spec (Z.to_N (Z.of_nat n))) as [Hd Hi].
  split; [done |]. rewrite Hi. lia.
Qed.

End Digits.

Section Splitting.

(** [s] does not contain the separator. *)
Fixpoint no_sep (sep : ascii) (s : string) : bool :=
  match s with
  | EmptyString => true
  | String c r => negb (Ascii.eqb c sep) && no_sep sep r
  end.

Lemma split_from_no_sep sep cur a :
  no_sep sep a = true -> Py.split_from sep cur a = [cur +:+ a].
Proof.
  revert cur. induction a as [|c a IH]; intros cur Ha.
  - by rewrite append_nil_r.
  - simpl in Ha. apply andb_prop in Ha as [Hc Ha].
    simpl. apply negb_true_iff in Hc. rewrite Hc.
    rewrite IH by done. by rewrite append_assoc.
Qed.

Lemma split_from_sep sep cur a rest :
  no_sep sep a = true ->
  Py.split_from sep cur (a +:+ String sep rest)
  = (cur +:+ a) :: Py.split_from sep "" rest.
Proof.
  revert cur. induction a as [|c a IH]; intros cur Ha.
  - rewrite append_nil_l, append_nil_r. simpl. by rewrite Ascii.eqb_refl.
  - simpl in Ha. apply andb_prop in Ha as [Hc Ha].
    rewrite append_cons. simpl. apply negb_true_iff in Hc. rewrite Hc.
    rewrite IH by done. by rewrite append_assoc.
Qed.

Lemma all_digits_no_dash s : Py.all_digits s = true -> no_sep "-" s = true.
Proof.
  induction s as [|c s IH]; [done |]. simpl. intros H.
  apply andb_prop in H as [Hc Hs]. rewrite IH by done.
  rewrite andb_true_r. apply negb_true_iff, Ascii.eqb_neq. intros ->. done.
Qed.

Lemma isdigit_no_dash s : Py.isdigit s = true -> no_sep "-" s = true.
Proof.
  unfold Py.isdigit. intros H. apply andb_prop in H as [_ H].
  by apply all_digits_no_dash.
Qed.

(** An identifier [tag-N...] whose tag is not a number resolves to [N]. *)
Lemma resolve_index_tag_number tag n :
  no_sep "-" tag = true -> Py.isdigit tag = false ->
  resolve_index (tag +:+ "-" +:+ str_nat n) = Z.of_nat n.
Proof.
  intros Htag Hnd. destruct (str_nat_spec n) as [Hd Hi].
  unfold resolve_index, Py.split.
  change ("-" +:+ str_nat n) with (String "-" (str_nat n)).
  rewrite split_from_sep by done.
  rewrite split_from_no_sep by (by apply isdigit_no_dash).
  rewrite !append_nil_l. simpl. by rewrite Hnd, Hd.
Qed.

Lemma resolve_index_tag_number_loc tag n loc :
  no_sep "-" tag = true -> Py.isdigit tag = false ->
  resolve_index (tag +:+ "-" +:+ str_nat n +:+ "-" +:+ loc) = Z.of_nat n.
Proof.
  intros Htag Hnd. destruct (str_nat_spec n) as [Hd Hi].
  unfold resolve_index, Py.split.
  change ("-" +:+ str_nat n +:+ "-" +:+ loc)
    with (String "-" (str_nat n +:+ String "-" loc)).
  rewrite split_from_sep by done.
  rewrite split_from_sep by (by apply isdigit_no_dash).
  rewrite !append_nil_l. simpl. by rewrite Hnd, Hd.
Qed.

(** Without an all-digit part the scan ends on [-1]. *)
Lemma find_index_none parts :
  Forall (fun p => Py.isdigit p = false) parts -> find_index parts = (-1)%Z.
Proof.
  induction 1 as [|p parts Hp _ IH]; [done |]. simpl. by rewrite Hp.
Qed.

(** The index read from an identifier is never negative, apart from the
    marker [-1]. *)
Lemma find_index_range parts : (-1 <= find_index parts)%Z.
Proof.
  induction parts as [|p parts IH]; simpl; [lia |].
  destruct (Py.isdigit p); [unfold Py.int; lia | done].
Qed.

End Splitting.

Example resolve_ex :
  resolve_index "dangle-12-start" = 12%Z /\ resolve_index "short-3" = 3%Z
  /\ resolve_index "7" = 7%Z /\ resolve_index "dangle-start" = (-1)%Z.
Proof. repeat split; reflexivity. Qed.

(** ** Facts about the fix engine *)

Section EngineFacts.

Variable wkt : geometry -> string.
Variable distance2 : geometry -> geometry -> Q.
Variable snap : geometry -> geometry -> Q -> geometry.
Variable simplify : geometry -> Q -> geometry.
Variable buffer : geometry -> Q -> geometry.
Variable make_valid : geometry -> geometry.
Variable length_of : geometry -> Q.
Variable interpolate : geometry -> PyFloat.t -> geometry.
Variable format_dist4 : distance_t -> string.
Variable str_num : Q -> string.

Local Abbreviation dispatch' :=
  (dispatch distance2 snap simplify buffer make_valid length_of interpolate
            format_dist4 str_num).
Local Abbreviation apply_fix_try' :=
  (apply_fix_try wkt distance2 snap simplify buffer make_valid length_of
                 interpolate format_dist4 str_num).
Local Abbreviation apply_fix' :=
  (apply_fix wkt distance2 snap simplify buffer make_valid length_of
             interpolate format_dist4 str_num).

(** What a strategy may do to the engine: nothing, or one assignment to
    the slot [idx] of the working list. *)
Definition touches_only (idx : Z) (e e' : engine) : Prop :=
  original_geometries e' = original_geometries e
  /\ applied_fixes e' = applied_fixes e
  /\ (current_geometries e' = current_geometries e
      \/ exists g, current_geometries e' = <[Z.to_nat idx := g]> (current_geometries e)).

Lemma touches_only_refl idx e : touches_only idx e e.
Proof. repeat split; by left. Qed.

Lemma touches_only_set idx e g : touches_only idx e (set_current e idx g).
Proof. repeat split; right; by exists g. Qed.

Definition good_outcome (idx : Z) (e : engine) (o : strategy_outcome) : Prop :=
  match o with
  | Return r => success r = false
  | Continue e' fix_result => Py.truthy fix_result = true /\ touches_only idx e e'
  end.

Create HintDb engine.
Hint Resolve touches_only_refl touches_only_set : engine.

Ltac outcome_done :=
  match goal with
  | |- good_outcome _ _ (Return _) => reflexivity
  | |- good_outcome _ _ (Continue _ _) => split; [reflexivity | auto with engine]
  end.

Lemma strategy_snap_outcome e idx geom params o :
  strategy_snap distance2 snap format_dist4 e idx geom params = Ok o ->
  good_outcome idx e o.
Proof.
  unfold strategy_snap.
  destruct (snap_scan _ _ _ _ _ _ _ _) as [best min_dist].
  destruct best as [best|]; [destruct (geom_truthy _) |];
    intros [= <-]; outcome_done.
Qed.

Lemma strategy_close_outcome e idx geom o :
  strategy_close e idx geom = Ok o -> good_outcome idx e o.
Proof.
  unfold strategy_close.
  destruct (_ || _); [intros [= <-]; outcome_done |].
  destruct (String.eqb _ _); [| intros [= <-]; outcome_done].
  destruct (coords geom) as [cs|]; [simpl | done].
  destruct (getitem cs 0) as [first|]; [simpl | done].
  destruct (getitem cs (-1)) as [last|]; [simpl | done].
  destruct (negb _); [| intros [= <-]; outcome_done].
  destruct (LineString_new _); [simpl | done].
  intros [= <-]; outcome_done.
Qed.

Lemma strategy_reverse_outcome e idx geom o :
  strategy_reverse e idx geom = Ok o -> good_outcome idx e o.
Proof.
  unfold strategy_reverse. destruct geom; try (intros [= <-]; outcome_done).
  destruct (LineString_new _); [simpl | done].
  intros [= <-]; outcome_done.
Qed.

Lemma strategy_densify_outcome e idx geom params o :
  strategy_densify length_of interpolate e idx geom params = Ok o ->
  good_outcome idx e o.
Proof.
  unfold strategy_densify.
  destruct (String.eqb _ _); [| intros [= <-]; outcome_done].
  destruct (PyFloat.truediv _ _) as [quotient|]; [cbn [rbind] | done].
  destruct (PyFloat.int quotient); [cbn [rbind] | done].
  destruct (rmap _ _); [simpl | done].
  destruct (LineString_new _); [simpl | done].
  intros [= <-]; outcome_done.
Qed.

Lemma dispatch_outcome e idx geom fix_type params o :
  dispatch' e idx geom fix_type params = Ok o -> good_outcome idx e o.
Proof.
  unfold dispatch.
  repeat (destruct (String.eqb (Py.upper fix_type) _);
          [first [ apply strategy_snap_outcome | apply strategy_close_outcome
                 | apply strategy_reverse_outcome | apply strategy_densify_outcome
                 | intros [= <-]; outcome_done ] |]).
  intros [= <-]; outcome_done.
Qed.

(** The three ways a call ends. *)
Inductive call_shape (error_id fix_type : string) (e : engine)
  : option response * engine -> Prop :=
| call_failed msg :
    call_shape error_id fix_type e (Some (Response false msg), e)
| call_succeeded e1 fix_result original_wkt :
    touches_only (resolve_index error_id) e e1 ->
    (0 <= resolve_index error_id < Z.of_nat (length (current_geometries e)))%Z ->
    call_shape error_id fix_type e
      (Some (Response true fix_result),
       log_fix e1 (FixRecord error_id fix_type original_wkt fix_result "now")).

Lemma apply_fix_shape error_id fix_type params e :
  call_shape error_id fix_type e (apply_fix' error_id fix_type params e).
Proof.
  unfold apply_fix, apply_fix_try. fold (resolve_index error_id).
  destruct (_ || _) eqn:Hguard; [constructor |].
  apply orb_false_elim in Hguard as [Hm1 Hge].
  assert (Hrange : (0 <= resolve_index error_id
                    < Z.of_nat (length (current_geometries e)))%Z).
  { pose proof (find_index_range (Py.split "-" error_id)).
    apply Z.eqb_neq in Hm1. rewrite Z.geb_leb in Hge. apply Z.leb_gt in Hge.
    unfold resolve_index in *. lia. }
  destruct (getitem _ _) as [slot|]; [simpl | constructor].
  destruct slot as [geom|]; [simpl | constructor].
  destruct (dispatch' _ _ _ _ _) as [o|] eqn:Hd; [simpl | constructor].
  apply dispatch_outcome in Hd.
  destruct o as [[[] msg]|e1 fix_result]; simpl in Hd; try done; [constructor |].
  destruct Hd as [-> Htouch]. by constructor.
Qed.

(** A call always answers with a response. *)
Lemma apply_fix_answers error_id fix_type params e :
  exists r, (apply_fix' error_id fix_type params e).1 = Some r.
Proof.
  destruct (apply_fix_shape error_id fix_type params e); eauto.
Qed.

End EngineFacts.

(** ** Sequences of calls *)

(** The arguments of one [apply_fix] call. *)
Record fix_call : Type := FixCall {
  call_error_id : string;
  call_fix_type : string;
  call_params : option (gmap string Q)
}.

Section Runs.

Variable loads : string -> result geometry.
Variable wkt : geometry -> string.
Variable distance2 : geometry -> geometry -> Q.
Variable snap : geometry -> geometry -> Q -> geometry.
Variable simplify : geometry -> Q -> geometry.
Variable buffer : geometry -> Q -> geometry.
Variable make_valid : geometry -> geometry.
Variable length_of : geometry -> Q.
Variable interpolate : geometry -> PyFloat.t -> geometry.
Variable format_dist4 : distance_t -> string.
Variable str_num : Q -> string.

Local Abbreviation apply_fix' :=
  (apply_fix wkt distance2 snap simplify buffer make_valid length_of
             interpolate format_dist4 str_num).

(** The engine after a series of calls, whatever they answer. *)
Fixpoint run_fixes (calls : list fix_call) (e : engine) : engine :=
  match calls with
  | [] => e
  | c :: rest =>
      run_fixes rest
        (apply_fix' (call_error_id c) (call_fix_type c) (call_params c) e).2
  end.

(** No call of the series resolves to slot [i]. *)
Definition untouched (calls : list fix_call) (i : nat) : Prop :=
  Forall (fun c => resolve_index (call_error_id c) <> Z.of_nat i) calls.

(** One call keeps the original list, the length of the working list, and
    every working slot but the one it resolves to. *)
Lemma apply_fix_frame error_id fix_type params e :
  let e' := (apply_fix' error_id fix_type params e).2 in
  original_geometries e' = original_geometries e
  /\ length (current_geometries e') = length (current_geometries e)
  /\ forall i : nat, resolve_index error_id <> Z.of_nat i ->
       current_geometries e' !! i = current_geometries e !! i.
Proof.
  destruct (apply_fix_shape wkt distance2 snap simplify buffer make_valid
              length_of interpolate format_dist4 str_num error_id fix_type params e)
    as [msg | e1 fix_result original_wkt (Ho & _ & Hc) Hrange]; simpl; [done |].
  split; [done |]. destruct Hc as [-> | [g ->]]; [done |].
  split; [apply length_insert |].
  intros i Hi. apply list_lookup_insert_ne. lia.
Qed.

Lemma run_fixes_frame calls e :
  let e' := run_fixes calls e in
  original_geometries e' = original_geometries e
  /\ length (current_geometries e') = length (current_geometries e)
  /\ forall i : nat, untouched calls i ->
       current_geometries e' !! i = current_geometries e !! i.
Proof.
  revert e. induction calls as [|c calls IH]; intros e; simpl; [done |].
  destruct (apply_fix_frame (call_error_id c) (call_fix_type c) (call_params c) e)
    as (Ho & Hl & Hs).
  destruct (IH (apply_fix' (call_error_id c) (call_fix_type c) (call_params c) e).2)
    as (Ho' & Hl' & Hs').
  split; [congruence |]. split; [congruence |].
  intros i Hi. inversion Hi as [|? ? Hc Hrest]; subst.
  rewrite Hs' by done. by apply Hs.
Qed.

(** C1. After a load and any series of [apply_fix] calls, of any fix type
    and whether they succeed or fail, the original list is still the list
    of statements that was read, the working list has the length of the
    original list, and a slot that no call resolved to holds at index [i]
    what the original list holds at index [i]: no slot is inserted, removed
    or moved, so index [i] of both lists stands for the same statement. *)
Theorem C1_lists_stay_aligned (wkt_content : string) (e0 : engine) (calls : list fix_call) :
  let e := run_fixes calls (load_wkt_content loads wkt_content e0).2 in
  original_geometries e = parse_geometries loads wkt_content
  /\ length (current_geometries e) = length (original_geometries e)
  /\ forall i : nat, untouched calls i ->
       current_geometries e !! i = original_geometries e !! i.
Proof.
  intros e.
  destruct (run_fixes_frame calls (load_wkt_content loads wkt_content e0).2)
    as (Ho & Hl & Hs).
  fold e in Ho, Hl, Hs. simpl in Ho, Hl, Hs.
  split; [done |]. split; [congruence |].
  intros i Hi. rewrite Hs by done. by rewrite Ho.
Qed.

(** C2. A call of [apply_fix], with any finding id, fix type and
    parameters, leaves the original list as it was. *)
Theorem C2_original_unchanged (error_id fix_type : string)
    (params : option (gmap string Q)) (e : engine) :
  original_geometries (apply_fix' error_id fix_type params e).2
  = original_geometries e.
Proof. apply apply_fix_frame. Qed.

(** C3. Every call answers; a call that answers [success: true] has added
    exactly one record to the log, holding the finding id, the fix type
    and the answered message, and a call that answers [success: false]
    has added none. *)
Theorem C3_one_record_per_success (error_id fix_type : string)
    (params : option (gmap string Q)) (e : engine) :
  match apply_fix' error_id fix_type params e with
  | (Some r, e') =>
      if success r then
        exists original_wkt,
          applied_fixes e'
          = applied_fixes e ++ [FixRecord error_id fix_type original_wkt (message r) "now"]
      else applied_fixes e' = applied_fixes e
  | (None, _) => False
  end.
Proof.
  destruct (apply_fix_shape wkt distance2 snap simplify buffer make_valid
              length_of interpolate format_dist4 str_num error_id fix_type params e)
    as [msg | e1 fix_result original_wkt (_ & Ha & _) _]; simpl; [done |].
  exists original_wkt. by rewrite Ha.
Qed.

End Runs.

(** ** Exact distances from a point to a line *)

Definition sq_dist (a b : coord) : Q :=
  ((fst a - fst b) * (fst a - fst b) + (snd a - snd b) * (snd a - snd b))%Q.

Definition clamp01 (t : Q) : Q :=
  if Qle_bool t 0 then 0 else if Qle_bool 1 t then 1 else t.

(** Square of the distance from [p] to the segment [a b]: the distance to
    the orthogonal projection of [p], kept inside the segment. *)
Definition point_segment_dist2 (p a b : coord) : Q :=
  let dx := (fst b - fst a)%Q in
  let dy := (snd b - snd a)%Q in
  let len2 := (dx * dx + dy * dy)%Q in
  if Qeq_bool len2 0 then sq_dist p a
  else
    let t := clamp01 (((fst p - fst a) * dx + (snd p - snd a) * dy) / len2) in
    sq_dist p (fst a + t * dx, snd a + t * dy)%Q.

Definition Qmin_bool (x y : Q) : Q := if Qle_bool x y then x else y.

(** Square of the distance from [p] to the path through [a] and [rest]. *)
Fixpoint point_path_dist2 (p a : coord) (rest : list coord) : Q :=
  match rest with
  | [] => sq_dist p a
  | b :: rest' => Qmin_bool (point_segment_dist2 p a b) (point_path_dist2 p b rest')
  end.

(** The law of the library that the line scenarios rely on: the distance
    from a point to a line string is the exact one. *)
Definition exact_on_lines (distance2 : geometry -> geometry -> Q) : Prop :=
  forall p a rest,
    distance2 (Point (Some p)) (LineString (a :: rest)) == point_path_dist2 p a rest.

(** ** The line scenario

    Two line statements that share the endpoint (10, 0), one per line. *)
Definition line_a : geometry := LineString [(0, 0); (10, 0)]%Q.
Definition line_b : geometry := LineString [(10, 0); (10, 10)]%Q.

Definition newline : string := String (ascii_of_N 10) "".

Definition scenario_text : string :=
  "LINESTRING(0 0, 10 0)" +:+ newline +:+ "LINESTRING(10 0, 10 10)".

(** ** A small instance of the library

    Enough of the library to run the definitions on line data: exact
    distances between a point and a line string, the kind of a geometry as
    its text, and operations that give their argument back. *)
Module Sample.

(** A reader that knows the two statements of the line scenario. *)
Definition loads (s : string) : result geometry :=
  if String.eqb (Py.strip s) "LINESTRING(0 0, 10 0)" then Ok line_a
  else if String.eqb (Py.strip s) "LINESTRING(10 0, 10 10)" then Ok line_b
  else Raise "ParseException: Unknown type".

Definition wkt (g : geometry) : string := Py.upper (geom_type g).

Definition distance2 (a b : geometry) : Q :=
  match a, b with
  | Point (Some p), LineString (c :: rest) => point_path_dist2 p c rest
  | LineString (c :: rest), Point (Some p) => point_path_dist2 p c rest
  | Point (Some p), Point (Some q) => sq_dist p q
  | _, _ => 0
  end.

Definition snap (g reference : geometry) (tolerance : Q) : geometry := g.
Definition simplify (g : geometry) (tolerance : Q) : geometry := g.
Definition buffer (g : geometry) (d : Q) : geometry := g.
Definition make_valid (g : geometry) : geometry := g.
Definition length_of (g : geometry) : Q := 0.
Definition interpolate (g : geometry) (d : PyFloat.t) : geometry := Point None.
Definition format_dist4 (d : distance_t) : string := "?".
Definition str_num (x : Q) : string := "?".
Definition is_simple (g : geometry) : bool := true.
Definition is_valid (g : geometry) : bool := true.
Definition explain_validity (g : geometry) : string := "Valid Geometry".
Definition centroid (g : geometry) : coord := (0%Q, 0%Q).
Definition format_f (digits : nat) (x : Q) : string := "?".
Definition plot (lines_data : list line_item) (errors : list finding) : result string :=
  Ok "geometry_0.png".

Definition apply_fix :=
  apply_fix wkt distance2 snap simplify buffer make_valid length_of interpolate
            format_dist4 str_num.

End Sample.

Lemma sample_exact_on_lines : exact_on_lines Sample.distance2.
Proof. intros p a rest. reflexivity. Qed.

(** ** Index resolution, deletion and lookup *)

Section Dispatcher.

Variable wkt : geometry -> string.
Variable distance2 : geometry -> geometry -> Q.
Variable snap : geometry -> geometry -> Q -> geometry.
Variable simplify : geometry -> Q -> geometry.
Variable buffer : geometry -> Q -> geometry.
Variable make_valid : geometry -> geometry.
Variable length_of : geometry -> Q.
Variable interpolate : geometry -> PyFloat.t -> geometry.
Variable format_dist4 : distance_t -> string.
Variable str_num : Q -> string.

Local Abbreviation apply_fix' :=
  (apply_fix wkt distance2 snap simplify buffer make_valid length_of
             interpolate format_dist4 str_num).

(** Reading a slot inside the list never raises. *)
Lemma getitem_in_range {A} (l : list A) (i : Z) :
  (0 <= i < Z.of_nat (length l))%Z ->
  exists x, l !! Z.to_nat i = Some x /\ getitem l i = Ok x.
Proof.
  intros Hi. unfold getitem.
  destruct (Z.ltb_spec i 0) as [?|_]; [lia |].
  destruct (lookup_lt_is_Some_2 l (Z.to_nat i) ltac:(lia)) as [x Hx].
  exists x. split; [done |]. rewrite Hx.
  destruct (Z.leb_spec 0 i); [| lia]. destruct (Z.ltb_spec i (Z.of_nat (length l))); [done | lia].
Qed.

Lemma guard_in_range (e : engine) (idx : Z) :
  (0 <= idx < Z.of_nat (length (current_geometries e)))%Z ->
  (idx =? -1)%Z || (idx >=? Z.of_nat (length (current_geometries e)))%Z = false.
Proof.
  intros Hi. apply orb_false_intro; [apply Z.eqb_neq; lia |].
  rewrite Z.geb_leb. apply Z.leb_gt. lia.
Qed.

(** DELETE on a slot that holds a geometry: the call succeeds, the slot
    becomes [None], one record is logged. *)
Lemma delete_live_slot error_id fix_type params e (g : geometry) :
  Py.upper fix_type = "DELETE" ->
  (0 <= resolve_index error_id)%Z ->
  current_geometries e !! Z.to_nat (resolve_index error_id) = Some (Some g) ->
  apply_fix' error_id fix_type params e
  = (Some (Response true "Deleted geometry"),
     log_fix (set_current e (resolve_index error_id) None)
       (FixRecord error_id fix_type (wkt g) "Deleted geometry" "now")).
Proof.
  intros Hft Hpos Hslot.
  assert (Hrange : (0 <= resolve_index error_id
                    < Z.of_nat (length (current_geometries e)))%Z).
  { apply lookup_lt_Some in Hslot. lia. }
  unfold apply_fix, apply_fix_try. fold (resolve_index error_id).
  rewrite guard_in_range by done.
  destruct (getitem_in_range _ _ Hrange) as (slot & Hl & ->).
  rewrite Hslot in Hl. injection Hl as <-. simpl.
  unfold dispatch. rewrite Hft. reflexivity.
Qed.

(** Any fix on a slot that holds [None]: reading [geom.wkt] raises before
    the strategy is chosen, and the call answers with a failure. *)
Lemma tombstone_slot_fails error_id fix_type params e :
  (0 <= resolve_index error_id)%Z ->
  current_geometries e !! Z.to_nat (resolve_index error_id) = Some None ->
  apply_fix' error_id fix_type params e
  = (Some (Response false "'NoneType' object has no attribute 'wkt'"), e).
Proof.
  intros Hpos Hslot.
  assert (Hrange : (0 <= resolve_index error_id
                    < Z.of_nat (length (current_geometries e)))%Z).
  { apply lookup_lt_Some in Hslot. lia. }
  unfold apply_fix, apply_fix_try. fold (resolve_index error_id).
  rewrite guard_in_range by done.
  destruct (getitem_in_range _ _ Hrange) as (slot & Hl & ->).
  rewrite Hslot in Hl. by injection Hl as <-.
Qed.

(** C6. One geometry, deleted twice through the identifier ["0"], a valid
    index both times. The first call succeeds: the slot reads [None], the
    export leaves the record out and the log has one record. The second
    call fails on the emptied slot and logs nothing. *)
Theorem C6_second_delete_fails (g : geometry) :
  is_empty g = false ->
  let e0 := Engine [Some g] [Some g] [] in
  let e1 := (apply_fix' "0" "DELETE" None e0).2 in
  in_bounds e0 (resolve_index "0") = true
  /\ (apply_fix' "0" "DELETE" None e0).1 = Some (Response true "Deleted geometry")
  /\ get_geometry e1 0 = None
  /\ export_fixed_wkt wkt e0 = Ok (wkt g)
  /\ export_fixed_wkt wkt e1 = Ok ""
  /\ length (applied_fixes e1) = 1
  /\ in_bounds e1 (resolve_index "0") = true
  /\ apply_fix' "0" "DELETE" None e1
     = (Some (Response false "'NoneType' object has no attribute 'wkt'"), e1).
Proof.
  intros Hg e0 e1.
  assert (H1 : apply_fix' "0" "DELETE" None e0
               = (Some (Response true "Deleted geometry"),
                  log_fix (set_current e0 0 None)
                    (FixRecord "0" "DELETE" (wkt g) "Deleted geometry" "now"))).
  { by apply delete_live_slot. }
  subst e1. rewrite H1. simpl.
  repeat split; try reflexivity.
  unfold export_fixed_wkt. simpl. by rewrite Hg.
Qed.

(** C7. Outside the bounds of the working list, [get_geometry] gives
    [None]; nothing is raised, and [None] is also what a deleted or
    unreadable slot gives. *)
Theorem C7_get_outside_bounds_is_none (e : engine) (index : Z) :
  in_bounds e index = false ->
  get_geometry e index = None
  /\ forall j : nat, current_geometries e !! j = Some None ->
       get_geometry e (Z.of_nat j) = get_geometry e index.
Proof.
  intros Hout. unfold get_geometry. rewrite Hout. split; [done |].
  intros j Hj. destruct (in_bounds e (Z.of_nat j)); [| done].
  by rewrite Nat2Z.id, Hj.
Qed.

(** C8. An identifier none of whose parts is all digits: the call answers
    [success: false] with the message ["Invalid geometry index: -1"], and
    the engine (working list and log) is the one before the call. *)
Theorem C8_no_numeric_token (error_id fix_type : string)
    (params : option (gmap string Q)) (e : engine) :
  Forall (fun p => Py.isdigit p = false) (Py.split "-" error_id) ->
  apply_fix' error_id fix_type params e
  = (Some (Response false "Invalid geometry index: -1"), e).
Proof.
  intros Hparts. unfold apply_fix, apply_fix_try.
  rewrite find_index_none by done. reflexivity.
Qed.

End Dispatcher.

Lemma C6_second_delete_fails_witness :
  let g := LineString [(0, 0); (1, 1)]%Q in
  let e1 := Engine [Some g] [None] [FixRecord "0" "DELETE" "LINESTRING" "Deleted geometry" "now"] in
  Sample.apply_fix "0" "DELETE" None e1
  = (Some (Response false "'NoneType' object has no attribute 'wkt'"), e1).
Proof.
  intros g e1.
  exact (proj2 (proj2 (proj2 (proj2 (proj2 (proj2 (proj2
    (C6_second_delete_fails Sample.wkt Sample.distance2 Sample.snap Sample.simplify
       Sample.buffer Sample.make_valid Sample.length_of Sample.interpolate
       Sample.format_dist4 Sample.str_num g eq_refl)))))))).
Defined.

Lemma C7_get_outside_bounds_is_none_witness :
  let e := Engine [None] [None] [] in
  in_bounds e 5 = false /\ get_geometry e 5 = None /\ get_geometry e 0 = get_geometry e 5.
Proof.
  intros e. split; [reflexivity |].
  destruct (C7_get_outside_bounds_is_none e 5 eq_refl) as [Hnone Htomb].
  split; [exact Hnone | exact (Htomb 0%nat eq_refl)].
Defined.

(** The claim of C7 as it is written: outside the bounds, the answer can be
    told apart from the answer for any slot of the list. It fails on a list
    whose only slot is [None]. *)
Lemma C7_counterexample :
  ~ (forall (e : engine) (index : Z) (j : nat),
       in_bounds e index = false ->
       is_Some (current_geometries e !! j) ->
       get_geometry e index <> get_geometry e (Z.of_nat j)).
Proof.
  intros H. by apply (H (Engine [None] [None] []) 5%Z 0%nat).
Qed.

Lemma C8_no_numeric_token_witness :
  Sample.apply_fix "dangle-start" "DELETE" None (Engine [] [] [])
  = (Some (Response false "Invalid geometry index: -1"), Engine [] [] []).
Proof.
  apply (C8_no_numeric_token Sample.wkt Sample.distance2 Sample.snap Sample.simplify
           Sample.buffer Sample.make_valid Sample.length_of Sample.interpolate
           Sample.format_dist4 Sample.str_num "dangle-start" "DELETE" None (Engine [] [] [])).
  repeat constructor.
Defined.

(** The claim of C8 as it is written gives the message
    ["Invalid geometry index"]; the call answers with the index appended. *)
Lemma C8_counterexample :
  Forall (fun p => Py.isdigit p = false) (Py.split "-" "dangle-start")
  /\ (Sample.apply_fix "dangle-start" "DELETE" None (Engine [] [] [])).1
     = Some (Response false "Invalid geometry index: -1")
  /\ (Sample.apply_fix "dangle-start" "DELETE" None (Engine [] [] [])).1
     <> Some (Response false "Invalid geometry index").
Proof.
  split; [repeat constructor |]. split; [reflexivity | discriminate].
Qed.

(** ** Export *)

Section ExportFacts.

Variable wkt : geometry -> string.

(** The records that remain: the geometries of the working list that are
    neither [None] nor empty, in order. *)
Definition remaining (e : engine) : list geometry :=
  List.filter (fun g => negb (is_empty g)) (omap id (current_geometries e)).

Lemma valid_geoms_remaining (e : engine) :
  valid_geoms (current_geometries e) = remaining e.
Proof.
  unfold remaining. induction (current_geometries e) as [|slot slots IH]; [done |].
  destruct slot as [g|]; simpl; [| done].
  destruct (is_empty g); simpl; by rewrite IH.
Qed.

Lemma remaining_not_line_raises (gs : list geometry) :
  forallb is_line gs = false -> exists msg, MultiLineString_new gs = Raise msg.
Proof. intros H. unfold MultiLineString_new. rewrite H. eauto. Qed.

Lemma remaining_lines_collect (gs : list geometry) :
  Forall (fun g => is_empty g = false) gs ->
  forallb is_line gs = true ->
  MultiLineString_new gs = Ok (MultiLineString (map line_coords gs)).
Proof.
  intros Hne Hl. unfold MultiLineString_new. rewrite Hl.
  replace (existsb is_empty gs) with false; [done |].
  symmetry. apply not_true_is_false. intros Hex.
  apply existsb_exists in Hex as (g & Hin & Hg).
  rewrite Forall_forall in Hne. apply list_elem_of_In in Hin.
  specialize (Hne g Hin). congruence.
Qed.

(** C9. [export_fixed_wkt] by the number of records that remain: none, the
    empty string (so also when every slot is [None]); exactly one, the text
    of that record; more than one, all of them lines, the text of the one
    multi-line collection whose parts are these records in order; more than
    one, not all of them lines, the collection cannot be built and the
    call raises. *)
Theorem C9_export_by_count (e : engine) :
  (remaining e = [] -> export_fixed_wkt wkt e = Ok "")
  /\ (Forall (fun slot => slot = None) (current_geometries e) ->
      export_fixed_wkt wkt e = Ok "")
  /\ (forall g, remaining e = [g] -> export_fixed_wkt wkt e = Ok (wkt g))
  /\ (1 < length (remaining e) -> forallb is_line (remaining e) = true ->
      export_fixed_wkt wkt e
      = Ok (wkt (MultiLineString (map line_coords (remaining e)))))
  /\ (1 < length (remaining e) -> forallb is_line (remaining e) = false ->
      exists msg, export_fixed_wkt wkt e = Raise msg).
Proof.
  unfold export_fixed_wkt. rewrite valid_geoms_remaining.
  assert (Hne : Forall (fun g => is_empty g = false) (remaining e)).
  { unfold remaining. apply Forall_forall. intros g Hg.
    apply list_elem_of_In, filter_In in Hg as [_ Hg]. by apply negb_true_iff. }
  split; [by intros -> |].
  split.
  { intros Hall. replace (remaining e) with (@nil geometry); [done |].
    unfold remaining. induction Hall as [|slot slots -> _ IH]; [done | exact IH]. }
  split; [by intros g -> |].
  split.
  - intros Hlen Hl.
    destruct (remaining e) as [|g1 [|g2 gs]] eqn:Hr; simpl in Hlen; [lia | lia |].
    by rewrite (remaining_lines_collect _ Hne Hl).
  - intros Hlen Hl.
    destruct (remaining e) as [|g1 [|g2 gs]] eqn:Hr; simpl in Hlen; [lia | lia |].
    destruct (remaining_not_line_raises _ Hl) as [msg ->]. by exists msg.
Qed.

End ExportFacts.

Definition unit_square : list coord := [(0, 0); (1, 0); (1, 1); (0, 1); (0, 0)]%Q.

Lemma C9_export_by_count_witness :
  let l1 := LineString [(0, 0); (10, 0)]%Q in
  let l2 := LineString [(10, 0); (10, 10)]%Q in
  export_fixed_wkt Sample.wkt (Engine [Some l1; Some l2] [None; None] []) = Ok ""
  /\ export_fixed_wkt Sample.wkt (Engine [Some l1; Some l2] [None; Some l2] [])
     = Ok (Sample.wkt l2)
  /\ export_fixed_wkt Sample.wkt (Engine [Some l1; Some l2] [Some l1; Some l2] [])
     = Ok (Sample.wkt (MultiLineString [[(0, 0); (10, 0)]; [(10, 0); (10, 10)]]%Q)).
Proof.
  intros l1 l2. split; [| split].
  - destruct (C9_export_by_count Sample.wkt (Engine [Some l1; Some l2] [None; None] []))
      as (H0 & _). apply H0. reflexivity.
  - destruct (C9_export_by_count Sample.wkt (Engine [Some l1; Some l2] [None; Some l2] []))
      as (_ & _ & H1 & _). apply H1. reflexivity.
  - destruct (C9_export_by_count Sample.wkt (Engine [Some l1; Some l2] [Some l1; Some l2] []))
      as (_ & _ & _ & Hn & _). apply Hn; [simpl; lia | reflexivity].
Defined.

(** The claim of C9 as it is written: with more than one record remaining,
    the export is the text of a collection. With two polygons remaining the
    multi-line collection cannot be built and the export raises. *)
Lemma C9_counterexample :
  let p := Polygon unit_square [] in
  let e := Engine [Some p; Some p] [Some p; Some p] [] in
  length (remaining e) = 2
  /\ ~ (exists collection, export_fixed_wkt Sample.wkt e = Ok (Sample.wkt collection)).
Proof.
  intros p e. split; [reflexivity |]. intros [c Hc]. discriminate Hc.
Qed.

(** ** Facts about the dangle check *)

(** The identifiers of [lines_data] are the positions, as the reading loop
    assigns them. *)
Definition well_indexed (lines_data : list line_item) : Prop :=
  forall (k : nat) item, lines_data !! k = Some item -> item_id item = k.

(** The endpoints that one record contributes. *)
Definition endpoints_of_item (item : line_item) : list endpoint :=
  match item_geom item with
  | Some geom =>
      if is_empty geom then []
      else flat_map (part_endpoints (item_id item) (item_line_no item)) (geoms_list geom)
  | None => []
  end.

Section DangleFacts.

Variable wkt : geometry -> string.
Variable distance2 : geometry -> geometry -> Q.
Variable str_num : Q -> string.
Variable is_simple : geometry -> bool.
Variable format_f : nat -> Q -> string.

Local Abbreviation connected_scan' := (connected_scan distance2).
Local Abbreviation dangle_error' := (dangle_error wkt str_num format_f).
Local Abbreviation check_endpoints' :=
  (check_endpoints wkt distance2 str_num is_simple format_f).
Local Abbreviation find_dangles' :=
  (find_dangles wkt distance2 str_num is_simple format_f).

(** Some other record, neither [None] nor empty, has its geometry within
    the tolerance of the endpoint. *)
Definition connected (lines_data : list line_item) (tolerance : Q) (ep : endpoint) : Prop :=
  exists other g,
    In other lines_data
    /\ item_id other <> ep_line_idx ep
    /\ item_geom other = Some g
    /\ is_empty g = false
    /\ dist_le_num (distance distance2 (ep_pt ep) (Some g)) tolerance = true.

(** The record that owns the endpoint is a line string and a ring. *)
Definition owner_is_ring (lines_data : list line_item) (ep : endpoint) : Prop :=
  exists item g,
    lines_data !! ep_line_idx ep = Some item
    /\ item_geom item = Some g
    /\ geom_type g = "LineString"
    /\ is_ring is_simple g = true.

Definition owner_is_ring_b (lines_data : list line_item) (ep : endpoint) : bool :=
  match lines_data !! ep_line_idx ep with
  | Some item =>
      match item_geom item with
      | Some g => String.eqb (geom_type g) "LineString" && is_ring is_simple g
      | None => false
      end
  | None => false
  end.

(** The endpoints that the check reports. *)
Definition reported (lines_data : list line_item) (tolerance : Q) (ep : endpoint) : bool :=
  negb (connected_scan' (ep_pt ep) (ep_line_idx ep) tolerance lines_data)
  && negb (owner_is_ring_b lines_data ep).

(** A record that the inner loop passes over does not decide the result. *)
Ltac skip_head IH :=
  rewrite IH; split;
  [ intros (other & g & Hin & H); exists other, g; split; [by right | exact H]
  | intros (other & g & [<-|Hin] & Hid & Hg & He & Hd);
    [congruence | exists other, g; repeat split; assumption] ].

Lemma connected_scan_true pt my_idx tolerance others :
  connected_scan' pt my_idx tolerance others = true <->
  exists other g,
    In other others
    /\ item_id other <> my_idx
    /\ item_geom other = Some g
    /\ is_empty g = false
    /\ dist_le_num (distance distance2 pt (Some g)) tolerance = true.
Proof.
  induction others as [|o others IH]; cbn [connected_scan In].
  - split; [done | intros (? & ? & [] & _)].
  - destruct (Nat.eqb_spec my_idx (item_id o)) as [Heq|Hne]; [skip_head IH |].
    destruct (item_geom o) as [og|] eqn:Hog; [| skip_head IH].
    destruct (is_empty og) eqn:Hemp; [skip_head IH |].
    destruct (dist_le_num _ _) eqn:Hd0; [| skip_head IH].
    split; [| done]. intros _. exists o, og.
    repeat split; try done; first [by left | congruence].
Qed.

Lemma owner_is_ring_b_true lines_data ep :
  owner_is_ring_b lines_data ep = true <-> owner_is_ring lines_data ep.
Proof.
  unfold owner_is_ring_b, owner_is_ring. split.
  - destruct (lines_data !! ep_line_idx ep) as [item|]; [| done].
    destruct (item_geom item) as [g|] eqn:Hg; [| done].
    intros H. apply andb_prop in H as [Ht Hr]. apply String.eqb_eq in Ht.
    by exists item, g.
  - intros (item & g & -> & -> & Ht & Hr). rewrite Ht, Hr. reflexivity.
Qed.

Lemma reported_true lines_data tolerance ep :
  reported lines_data tolerance ep = true <->
  ~ connected lines_data tolerance ep /\ ~ owner_is_ring lines_data ep.
Proof.
  unfold reported. rewrite andb_true_iff, !negb_true_iff.
  rewrite <- !not_true_iff_false, connected_scan_true, owner_is_ring_b_true.
  reflexivity.
Qed.

Lemma collect_endpoints_flat lines_data endpoints :
  collect_endpoints lines_data endpoints
  = endpoints ++ flat_map endpoints_of_item lines_data.
Proof.
  revert endpoints. induction lines_data as [|item rest IH]; intros endpoints; simpl.
  - by rewrite app_nil_r.
  - unfold endpoints_of_item at 1. destruct (item_geom item) as [geom|]; [| apply IH].
    destruct (is_empty geom); [apply IH |]. rewrite IH. by rewrite app_assoc.
Qed.

(** Every endpoint carries the identifier and the line number of a record
    that holds a geometry, and is a start or an end. *)
Lemma endpoint_origin lines_data ep :
  In ep (collect_endpoints lines_data []) ->
  exists item g,
    In item lines_data
    /\ item_geom item = Some g
    /\ ep_line_idx ep = item_id item
    /\ ep_line_no ep = item_line_no item
    /\ (ep_loc ep = "start" \/ ep_loc ep = "end").
Proof.
  rewrite collect_endpoints_flat. simpl. rewrite in_flat_map.
  intros (item & Hin & Hep). unfold endpoints_of_item in Hep.
  destruct (item_geom item) as [g|] eqn:Hg; [| done].
  destruct (is_empty g); [done |].
  apply in_flat_map in Hep as (cs & _ & Hep).
  exists item, g. split; [done |]. split; [done |].
  destruct cs as [|c1 [|c2 cs]]; simpl in Hep; try done.
  destruct Hep as [<-|[<-|[]]]; simpl; auto.
Qed.

Lemma well_indexed_lookup lines_data item :
  well_indexed lines_data -> In item lines_data ->
  lines_data !! item_id item = Some item.
Proof.
  intros Hwi Hin. apply list_elem_of_In, list_elem_of_lookup in Hin as [k Hk].
  by rewrite (Hwi k item Hk).
Qed.

(** The loop over the endpoints appends, in order, one finding for each
    reported endpoint, as long as every endpoint points at a record that
    holds a geometry. *)
Lemma check_endpoints_reported lines_data tolerance endpoints errors :
  (forall ep, In ep endpoints ->
     exists item g, lines_data !! ep_line_idx ep = Some item /\ item_geom item = Some g) ->
  check_endpoints' lines_data tolerance endpoints errors
  = Ok (errors ++ map (dangle_error' tolerance)
                      (List.filter (reported lines_data tolerance) endpoints)).
Proof.
  revert errors. induction endpoints as [|ep rest IH]; intros errors Hown.
  - simpl. by rewrite app_nil_r.
  - assert (Hrest : forall ep', In ep' rest ->
              exists item g, lines_data !! ep_line_idx ep' = Some item
                             /\ item_geom item = Some g)
      by (intros ep' Hin; apply Hown; by right).
    destruct (Hown ep (or_introl eq_refl)) as (item & g & Hitem & Hg).
    cbn [check_endpoints List.filter]. unfold reported at 1, owner_is_ring_b.
    rewrite Hitem, Hg.
    destruct (connected_scan' _ _ _ _); cbn [negb andb]; [by apply IH |].
    destruct (getitem_in_range lines_data (Z.of_nat (ep_line_idx ep))) as (x & Hx & ->).
    { apply lookup_lt_Some in Hitem. lia. }
    rewrite Nat2Z.id, Hitem in Hx. injection Hx as <-. cbn [rbind]. rewrite Hg.
    cbn [rbind].
    destruct (String.eqb _ _ && is_ring _ _); cbn [negb map]; [by apply IH |].
    rewrite IH by done. by rewrite <- app_assoc.
Qed.

Lemma find_dangles_reported lines_data tolerance :
  well_indexed lines_data ->
  find_dangles' lines_data tolerance
  = Ok (map (dangle_error' tolerance)
            (List.filter (reported lines_data tolerance)
                         (collect_endpoints lines_data []))).
Proof.
  intros Hwi. unfold find_dangles. rewrite check_endpoints_reported; [done |].
  intros ep Hep. apply endpoint_origin in Hep as (item & g & Hin & Hg & Hidx & _).
  exists item, g. split; [| done]. rewrite Hidx. by apply well_indexed_lookup.
Qed.

End DangleFacts.

(** ** Facts about the reading loop of the diagnostics *)

Section ReaderFacts.

Variable loads : string -> result geometry.

Local Abbreviation read_line' := (read_line loads).
Local Abbreviation read_lines' := (read_lines loads).

(** Line [n], counted from 1, exists in the text and is not blank. *)
Definition starts_statement (all_lines : list string) (n : nat) : Prop :=
  exists line_str,
    all_lines !! (n - 1) = Some line_str /\ Py.truthy (Py.strip line_str) = true.

(** With [n] lines read: a record sits at the position that is its
    identifier, and starts on a line, counted from 1, beyond its
    identifier, within the lines read, and not blank. *)
Definition items_ok (all_lines : list string) (n : nat) (lines_data : list line_item)
  : Prop :=
  forall (k : nat) item,
    lines_data !! k = Some item ->
    item_id item = k
    /\ k < item_line_no item <= n
    /\ starts_statement all_lines (item_line_no item).

Definition reader_ok (all_lines : list string) (n : nat) (st : reader) : Prop :=
  items_ok all_lines n (rd_lines_data st)
  /\ length (rd_lines_data st) <= n
  /\ (Py.truthy (rd_buf st) = true ->
      length (rd_lines_data st) < rd_current_statement_start st <= n
      /\ starts_statement all_lines (rd_current_statement_start st)).

Lemma items_ok_mono all_lines n m lines_data :
  n <= m -> items_ok all_lines n lines_data -> items_ok all_lines m lines_data.
Proof.
  intros Hnm H k item Hk. destruct (H k item Hk) as (? & ? & ?).
  repeat split; [done | lia | lia | done].
Qed.

Lemma items_ok_snoc all_lines n lines_data start g :
  items_ok all_lines n lines_data ->
  length lines_data < start <= n ->
  starts_statement all_lines start ->
  items_ok all_lines n (lines_data ++ [LineItem (length lines_data) start g]).
Proof.
  intros H Hs Hst k item Hk.
  destruct (Nat.lt_ge_cases k (length lines_data)) as [Hlt|Hge].
  - rewrite lookup_app_l in Hk by done. by apply H.
  - rewrite lookup_app_r in Hk by done.
    destruct (k - length lines_data) as [|d] eqn:Hd; [| by destruct d].
    injection Hk as <-. simpl. repeat split; [lia | lia | lia | done].
Qed.

Lemma truthy_append_space (a b : string) : Py.truthy (a +:+ b +:+ " ") = true.
Proof.
  destruct a as [|c a]; [| done]. rewrite append_nil_l.
  destruct b as [|c b]; done.
Qed.

Lemma read_line_ok all_lines i st line_str :
  all_lines !! i = Some line_str ->
  reader_ok all_lines i st -> reader_ok all_lines (S i) (read_line' st i line_str).
Proof.
  intros Hline (Hitems & Hlen & Hbuf). unfold read_line.
  destruct (Py.truthy (Py.strip line_str)) eqn:Hblank; cbn [negb].
  2:{ split; [apply (items_ok_mono all_lines i); [lia | done] |]. split; [lia |].
      intros Hb. destruct (Hbuf Hb). split; [lia | done]. }
  set (start := if negb (Py.truthy (rd_buf st)) then i + 1
                else rd_current_statement_start st).
  assert (Hstart : length (rd_lines_data st) < start <= S i
                   /\ starts_statement all_lines start).
  { subst start. destruct (Py.truthy (rd_buf st)); simpl.
    - destruct (Hbuf eq_refl). split; [lia | done].
    - split; [lia |]. exists line_str.
      replace (i + 1 - 1) with i by lia. done. }
  destruct Hstart as [Hstart Hfirst].
  assert (Hmono : items_ok all_lines (S i) (rd_lines_data st))
    by (apply (items_ok_mono all_lines i); [lia | done]).
  assert (Hkeep : reader_ok all_lines (S i) (Reader "" start (rd_lines_data st))).
  { split; [done |]. split; [simpl; lia | done]. }
  destruct (Py.endswith _ _).
  - destruct (loads _) as [geom|]; [| done].
    destruct (negb (is_empty geom)); [| done].
    split; [by apply items_ok_snoc |]. split; [| done].
    simpl. rewrite length_app. simpl. lia.
  - split; [done |]. split; [simpl; lia | done].
Qed.

Lemma read_lines_ok raw_lines :
  forall read i st,
    i = length read ->
    reader_ok (read ++ raw_lines) i st ->
    reader_ok (read ++ raw_lines) (i + length raw_lines) (read_lines' st i raw_lines).
Proof.
  induction raw_lines as [|l raw_lines IH]; intros read i st Hi Hst; simpl.
  - by rewrite Nat.add_0_r.
  - replace (i + S (length raw_lines)) with (S i + length raw_lines) by lia.
    replace (i + 1) with (S i) by lia.
    replace (read ++ l :: raw_lines) with ((read ++ [l]) ++ raw_lines) in *
      by (by rewrite <- app_assoc).
    apply IH; [rewrite length_app; simpl; lia |].
    apply read_line_ok; [| done].
    rewrite lookup_app_l by (rewrite length_app; simpl; lia).
    rewrite lookup_app_r by lia. subst i. by rewrite Nat.sub_diag.
Qed.

Lemma read_lines_data_ok text :
  items_ok (Py.splitlines text) (length (Py.splitlines text))
           (read_lines_data loads text).
Proof.
  unfold read_lines_data.
  apply (read_lines_ok (Py.splitlines text) [] 0 (Reader "" 0 []) eq_refl).
  split; [by intros k item Hk |]. split; [simpl; lia | done].
Qed.

Lemma read_lines_data_well_indexed text :
  well_indexed (read_lines_data loads text).
Proof. intros k item Hk. by destruct (read_lines_data_ok text k item Hk). Qed.

End ReaderFacts.

(** ** The dangle check: what is reported, and the line scenario *)

Lemma Qle_bool_Qeq_l (x y z : Q) : x == y -> Qle_bool x z = Qle_bool y z.
Proof.
  intros Hxy. apply eq_true_iff_eq. rewrite !Qle_bool_iff. by rewrite Hxy.
Qed.

Section DangleClaim.

Variable loads : string -> result geometry.
Variable wkt : geometry -> string.
Variable distance2 : geometry -> geometry -> Q.
Variable str_num : Q -> string.
Variable is_simple : geometry -> bool.
Variable format_f : nat -> Q -> string.

Local Abbreviation dangle_error' := (dangle_error wkt str_num format_f).
Local Abbreviation find_dangles' :=
  (find_dangles wkt distance2 str_num is_simple format_f).
Local Abbreviation reported' := (reported distance2 is_simple).

Hypothesis loads_a : loads "LINESTRING(0 0, 10 0) " = Ok line_a.
Hypothesis loads_b : loads "LINESTRING(10 0, 10 10) " = Ok line_b.
Hypothesis distance2_exact : exact_on_lines distance2.

Lemma dist_le_num_exact p a rest t :
  dist_le_num (distance distance2 (Point (Some p)) (Some (LineString (a :: rest)))) t
  = dist_le_num (Dist (point_path_dist2 p a rest)) t.
Proof.
  unfold distance. simpl. f_equal. apply Qle_bool_Qeq_l, distance2_exact.
Qed.

Definition scenario_lines : list line_item :=
  [LineItem 0 1 (Some line_a); LineItem 1 2 (Some line_b)].

Lemma scenario_read : read_lines_data loads scenario_text = scenario_lines.
Proof.
  unfold read_lines_data. vm_compute. rewrite loads_a. vm_compute.
  rewrite loads_b. reflexivity.
Qed.

Lemma scenario_well_indexed : well_indexed scenario_lines.
Proof. intros [|[|k]] item; simpl; intros [= <-]; done. Qed.

(** The four endpoints of the scenario, in the order of collection. *)
Definition a_start : endpoint := Endpoint (Point (Some (0, 0)%Q)) 0 1 "start" (0, 0)%Q.
Definition a_end : endpoint := Endpoint (Point (Some (10, 0)%Q)) 0 1 "end" (10, 0)%Q.
Definition b_start : endpoint := Endpoint (Point (Some (10, 0)%Q)) 1 2 "start" (10, 0)%Q.
Definition b_end : endpoint := Endpoint (Point (Some (10, 10)%Q)) 1 2 "end" (10, 10)%Q.

Lemma scenario_endpoints :
  collect_endpoints scenario_lines [] = [a_start; a_end; b_start; b_end].
Proof. reflexivity. Qed.

Ltac scenario_endpoint :=
  unfold reported, owner_is_ring_b, is_ring;
  cbn [connected_scan scenario_lines a_start a_end b_start b_end
       ep_pt ep_line_idx item_id item_geom Nat.eqb is_empty nil_b];
  unfold line_a, line_b;
  rewrite ?dist_le_num_exact; vm_compute; reflexivity.

Lemma scenario_reported :
  reported' scenario_lines TOLERANCE a_start = true
  /\ reported' scenario_lines TOLERANCE a_end = false
  /\ reported' scenario_lines TOLERANCE b_start = false
  /\ reported' scenario_lines TOLERANCE b_end = true.
Proof. repeat split; scenario_endpoint. Qed.

(** C4. What the dangle check reports, for records numbered by position:
    one finding, in order, for each endpoint such that no other record that
    holds a non-empty geometry is within the tolerance (distance at most
    the tolerance) of it, and such that the record that owns it is not a
    line string that is a ring (closed and simple). The part of a
    multi-line gets no exemption for being closed. With the default
    tolerance 0.5, the two lines of the scenario give exactly two findings,
    for the start (0, 0) of the first and the end (10, 10) of the second;
    the shared endpoint (10, 0) is not reported. *)
Theorem C4_dangles_reported :
  (forall lines_data tolerance,
     well_indexed lines_data ->
     find_dangles' lines_data tolerance
     = Ok (map (dangle_error' tolerance)
               (List.filter (reported' lines_data tolerance)
                            (collect_endpoints lines_data [])))
     /\ forall ep,
          reported' lines_data tolerance ep = true <->
          ~ connected distance2 lines_data tolerance ep
          /\ ~ owner_is_ring is_simple lines_data ep)
  /\ TOLERANCE = 1 # 2
  /\ find_dangles' (read_lines_data loads scenario_text) TOLERANCE
     = Ok [dangle_error' TOLERANCE a_start; dangle_error' TOLERANCE b_end].
Proof.
  split; [| split; [reflexivity |]].
  - intros lines_data tolerance Hwi. split.
    + by apply find_dangles_reported.
    + intros ep. apply reported_true.
  - rewrite scenario_read.
    rewrite find_dangles_reported by apply scenario_well_indexed.
    rewrite scenario_endpoints. cbn [List.filter].
    destruct scenario_reported as (-> & -> & -> & ->). reflexivity.
Qed.

End DangleClaim.

Lemma C4_dangles_reported_witness :
  find_dangles Sample.wkt Sample.distance2 Sample.str_num Sample.is_simple Sample.format_f
    (read_lines_data Sample.loads scenario_text) (1 # 2)
  = Ok [dangle_error Sample.wkt Sample.str_num Sample.format_f (1 # 2) a_start;
        dangle_error Sample.wkt Sample.str_num Sample.format_f (1 # 2) b_end].
Proof.
  exact (proj2 (proj2
    (C4_dangles_reported Sample.loads Sample.wkt Sample.distance2 Sample.str_num
       Sample.is_simple Sample.format_f eq_refl eq_refl sample_exact_on_lines))).
Defined.

(** The claim of C4 as it is written exempts an endpoint whose part is
    closed on itself. A multi-line whose only part is a closed triangle,
    alone in the data: the part starts and ends at (0, 0), and both its
    endpoints are reported. *)
Lemma C4_counterexample :
  let triangle := [(0, 0); (1, 0); (1, 1); (0, 0)]%Q in
  let lines_data := [LineItem 0 1 (Some (MultiLineString [triangle]))] in
  is_closed (LineString triangle) = true
  /\ find_dangles Sample.wkt Sample.distance2 Sample.str_num Sample.is_simple
       Sample.format_f lines_data TOLERANCE
     = Ok [dangle_error Sample.wkt Sample.str_num Sample.format_f TOLERANCE
             (Endpoint (Point (Some (0, 0)%Q)) 0 1 "start" (0, 0)%Q);
           dangle_error Sample.wkt Sample.str_num Sample.format_f TOLERANCE
             (Endpoint (Point (Some (0, 0)%Q)) 0 1 "end" (0, 0)%Q)].
Proof. split; reflexivity. Qed.

(** ** Finding identifiers and the index they resolve to *)

(** The finding was built from a record of [lines_data]: it carries the
    identifier of the record as its geometry index, the line number of the
    record as its line number, and its own identifier resolves to that
    line number. *)
Definition from_item (lines_data : list line_item) (f : finding) : Prop :=
  exists item,
    In item lines_data
    /\ f_geometry_index f = item_id item
    /\ f_line_number f = item_line_no item
    /\ resolve_index (f_id f) = Z.of_nat (item_line_no item).

Lemma from_item_cons item lines_data f :
  from_item lines_data f -> from_item (item :: lines_data) f.
Proof. intros (it & Hin & H). exists it. split; [by right | done]. Qed.

Section FindingIds.

Variable loads : string -> result geometry.
Variable wkt : geometry -> string.
Variable distance2 : geometry -> geometry -> Q.
Variable snap : geometry -> geometry -> Q -> geometry.
Variable simplify : geometry -> Q -> geometry.
Variable buffer : geometry -> Q -> geometry.
Variable make_valid : geometry -> geometry.
Variable length_of : geometry -> Q.
Variable interpolate : geometry -> PyFloat.t -> geometry.
Variable format_dist4 : distance_t -> string.
Variable str_num : Q -> string.
Variable is_simple : geometry -> bool.
Variable is_valid : geometry -> bool.
Variable explain_validity : geometry -> string.
Variable centroid : geometry -> coord.
Variable format_f : nat -> Q -> string.
Variable plot : list line_item -> list finding -> result string.

Local Abbreviation apply_fix' :=
  (apply_fix wkt distance2 snap simplify buffer make_valid length_of
             interpolate format_dist4 str_num).
Local Abbreviation run_geometry_qa' :=
  (run_geometry_qa loads wkt distance2 length_of str_num is_simple is_valid
                   explain_validity centroid format_f plot).

Lemma validity_checks_from_item lines_data fs :
  validity_checks wkt is_valid explain_validity lines_data = Ok fs ->
  Forall (from_item lines_data) fs.
Proof.
  revert fs. induction lines_data as [|item rest IH]; intros fs; simpl.
  - by intros [= <-].
  - destruct (item_geom item) as [g|]; [| done].
    destruct (validity_checks _ _ _ rest) as [more|]; [simpl | done].
    specialize (IH more eq_refl).
    assert (Hmore : Forall (from_item (item :: rest)) more).
    { eapply Forall_impl; [exact IH |]. intros f. apply from_item_cons. }
    destruct (negb (is_valid g)); intros [= <-]; [| done].
    constructor; [| done]. exists item. split; [by left |]. repeat split.
    apply (resolve_index_tag_number "invalid"); reflexivity.
Qed.

Lemma find_short_lines_from_item lines_data min_len :
  Forall (from_item lines_data)
         (find_short_lines wkt length_of centroid format_f lines_data min_len).
Proof.
  induction lines_data as [|item rest IH]; simpl; [done |].
  assert (Hrest : Forall (from_item (item :: rest))
                         (find_short_lines wkt length_of centroid format_f rest min_len)).
  { eapply Forall_impl; [exact IH |]. intros f. apply from_item_cons. }
  destruct (item_geom item) as [g|]; [| done].
  destruct (is_empty g); [done |].
  destruct (Qlt_bool _ _); [| done].
  constructor; [| done]. exists item. split; [by left |]. repeat split.
  apply (resolve_index_tag_number "short"); reflexivity.
Qed.

Lemma dangle_error_from_item lines_data tolerance ep :
  In ep (collect_endpoints lines_data []) ->
  from_item lines_data (dangle_error wkt str_num format_f tolerance ep).
Proof.
  intros Hep. apply endpoint_origin in Hep as (item & g & Hin & _ & Hidx & Hno & _).
  exists item. split; [done |]. simpl. split; [done |]. split; [done |].
  rewrite <- Hno. apply (resolve_index_tag_number_loc "dangle"); reflexivity.
Qed.

Lemma find_dangles_from_item lines_data tolerance fs :
  well_indexed lines_data ->
  find_dangles wkt distance2 str_num is_simple format_f lines_data tolerance = Ok fs ->
  Forall (from_item lines_data) fs.
Proof.
  intros Hwi. rewrite find_dangles_reported by done. intros [= <-].
  apply Forall_forall. intros f Hf. apply list_elem_of_In, in_map_iff in Hf as (ep & <- & Hep).
  apply filter_In in Hep as [Hep _]. by apply dangle_error_from_item.
Qed.



End FindingIds.


(** ** The SNAP strategy *)

Lemma Qlt_bool_true (x y : Q) : Qlt_bool x y = true <-> (x < y)%Q.
Proof.
  unfold Qlt_bool. rewrite negb_true_iff, <- not_true_iff_false, Qle_bool_iff.
  split; [apply Qnot_le_lt | apply Qlt_not_le].
Qed.

Lemma Qlt_bool_false (x y : Q) : Qlt_bool x y = false <-> (y <= x)%Q.
Proof.
  unfold Qlt_bool. rewrite negb_false_iff. apply Qle_bool_iff.
Qed.

Lemma dist_lt_irrefl (a : distance_t) : dist_lt a a = false.
Proof.
  destruct a as [x| |]; simpl; try done. apply Qlt_bool_false, Qle_refl.
Qed.

Lemma dist_lt_trans (a b c : distance_t) :
  dist_lt a b = true -> dist_lt b c = true -> dist_lt a c = true.
Proof.
  destruct a as [x| |], b as [y| |], c as [z| |]; simpl; try done.
  rewrite !Qlt_bool_true. apply Qlt_trans.
Qed.

(** [a < c] and not [b < c], for a number [b], give [a < b]. *)
Lemma dist_lt_below (a b c : distance_t) :
  b <> NaN -> dist_lt a c = true -> dist_lt b c = false -> dist_lt a b = true.
Proof.
  destruct a as [x| |], b as [y| |], c as [z| |]; simpl; try done.
  rewrite !Qlt_bool_true, Qlt_bool_false. intros _ Hxz Hzy.
  eapply Qlt_le_trans; eauto.
Qed.

Lemma dist_lt_left_number (a b : distance_t) :
  dist_lt a b = true -> exists x, a = Dist x.
Proof. destruct a as [x| |]; simpl; [eauto | done | done]. Qed.

Lemma dist_lt_num_number (d : distance_t) (t : Q) :
  dist_lt_num d t = true -> exists x, d = Dist x.
Proof. destruct d as [x| |]; simpl; [eauto | done | done]. Qed.

Section SnapFacts.

Variable wkt : geometry -> string.
Variable distance2 : geometry -> geometry -> Q.
Variable snap : geometry -> geometry -> Q -> geometry.
Variable simplify : geometry -> Q -> geometry.
Variable buffer : geometry -> Q -> geometry.
Variable make_valid : geometry -> geometry.
Variable length_of : geometry -> Q.
Variable interpolate : geometry -> PyFloat.t -> geometry.
Variable format_dist4 : distance_t -> string.
Variable str_num : Q -> string.

Local Abbreviation distance' := (distance distance2).
Local Abbreviation snap_scan' := (snap_scan distance2).
Local Abbreviation apply_fix' :=
  (apply_fix wkt distance2 snap simplify buffer make_valid length_of
             interpolate format_dist4 str_num).

(** A distance that is a number is a distance to a geometry that is
    present and not empty. *)
Lemma distance_number geom other x :
  distance' geom other = Dist x ->
  exists o, other = Some o /\ is_empty o = false.
Proof.
  unfold distance. destruct other as [o|]; [| done].
  destruct (is_empty geom); simpl; [done |].
  destruct (is_empty o) eqn:He; [done |]. intros _. by exists o.
Qed.

(** The record in slot [k], other than the target, is within the
    tolerance of [geom]: its distance to [geom] is below the tolerance. *)
Definition within_snap (slots : list (option geometry)) (idx : Z) (tolerance : Q)
    (geom : geometry) (k : nat) (o : geometry) : Prop :=
  Z.of_nat k <> idx
  /\ slots !! k = Some (Some o)
  /\ dist_lt_num (distance' geom (Some o)) tolerance = true.

(** The scan from position [i], started with a minimum [m] that is a
    number or infinite: the minimum never grows, ends below or at every
    scanned record within the tolerance, and the chosen record is either
    the one the scan started with or a scanned record within tolerance
    whose distance is the final minimum. *)
Lemma snap_scan_spec geom idx tolerance others :
  forall (i : Z) best m,
    m <> NaN ->
    let '(best', m') := snap_scan' geom idx tolerance i others best m in
    m' <> NaN
    /\ dist_lt m m' = false
    /\ (forall (k : nat) o,
          (i + Z.of_nat k)%Z <> idx ->
          others !! k = Some (Some o) ->
          dist_lt_num (distance' geom (Some o)) tolerance = true ->
          dist_lt (distance' geom (Some o)) m' = false)
    /\ ((best' = best /\ m' = m)
        \/ exists (k : nat) o,
             (i + Z.of_nat k)%Z <> idx
             /\ others !! k = Some (Some o)
             /\ dist_lt_num (distance' geom (Some o)) tolerance = true
             /\ best' = Some o
             /\ m' = distance' geom (Some o)).
Proof.
  induction others as [|other rest IH]; intros i best m Hm; cbn [snap_scan].
  - split; [done |]. split; [apply dist_lt_irrefl |]. split; [| by left].
    intros k o _ Hk. done.
  - destruct (Z.eqb_spec i idx) as [Heq|Hne].
    { specialize (IH (i + 1)%Z best m Hm).
      destruct (snap_scan' geom idx tolerance (i + 1) rest best m) as [best' m'].
      destruct IH as (Hnan & Hle & Hmin & Hshape).
      split; [done |]. split; [done |]. split.
      - intros [|k] o Hk Hlook Hin; [lia |].
        apply (Hmin k o); [lia | done | done].
      - destruct Hshape as [?|(k & o & Hk & Hlook & Hin & Hb & Hd)]; [by left | right].
        exists (S k), o. repeat split; try done. lia. }
    destruct (dist_lt (distance' geom other) m && dist_lt_num (distance' geom other) tolerance)
      eqn:Hcond.
    + apply andb_prop in Hcond as [Hlt Hin0].
      destruct (dist_lt_left_number _ _ Hlt) as [x Hx].
      destruct (distance_number _ _ _ Hx) as (o0 & -> & Hne0).
      assert (Hd : distance' geom (Some o0) <> NaN) by (rewrite Hx; done).
      specialize (IH (i + 1)%Z (Some o0) (distance' geom (Some o0)) Hd).
      destruct (snap_scan' geom idx tolerance (i + 1) rest (Some o0)
                  (distance' geom (Some o0))) as [best' m'].
      destruct IH as (Hnan & Hle & Hmin & Hshape).
      split; [done |]. split.
      { apply not_true_is_false. intros Hmm.
        pose proof (dist_lt_trans _ _ _ Hlt Hmm). congruence. }
      split.
      * intros [|k] o Hk Hlook Hin.
        -- simpl in Hlook. injection Hlook as <-. exact Hle.
        -- apply (Hmin k o); [lia | done | done].
      * right. destruct Hshape as [[-> ->]|(k & o & Hk & Hlook & Hin & Hb & Hd')].
        -- exists 0%nat, o0. repeat split; try done. lia.
        -- exists (S k), o. repeat split; try done. lia.
    + specialize (IH (i + 1)%Z best m Hm).
      destruct (snap_scan' geom idx tolerance (i + 1) rest best m) as [best' m'].
      destruct IH as (Hnan & Hle & Hmin & Hshape).
      split; [done |]. split; [done |]. split.
      * intros [|k] o Hk Hlook Hin.
        -- simpl in Hlook. injection Hlook as ->.
           rewrite Hin, andb_true_r in Hcond.
           apply not_true_is_false. intros Hlt.
           pose proof (dist_lt_below _ _ _ Hm Hlt Hle). congruence.
        -- apply (Hmin k o); [lia | done | done].
      * destruct Hshape as [?|(k & o & Hk & Hlook & Hin & Hb & Hd)]; [by left | right].
        exists (S k), o. repeat split; try done. lia.
Qed.

Lemma in_bounds_range e idx :
  in_bounds e idx = true ->
  (0 <= idx < Z.of_nat (length (current_geometries e)))%Z.
Proof.
  unfold in_bounds. intros H. apply andb_prop in H as [H1 H2].
  apply Z.leb_le in H1. apply Z.ltb_lt in H2. lia.
Qed.

(** C5. SNAP on an in-bounds index, with the tolerance read from the
    parameters (0.5 without one). "Within the tolerance" is the test of
    the code: a distance below the tolerance; a record at the tolerance
    exactly is not within it, although the dangle check counts it as
    connected. When some other slot holds a
    record within the tolerance of the target, the call succeeds: the
    target slot receives [snap(target, best, tolerance)], where [best] is
    such a record and no such record is nearer to the target, and one
    record is logged. When no slot does (or the target slot itself holds no
    geometry), the call fails and the engine is unchanged. *)
Theorem C5_snap_nearest_within_tolerance (error_id fix_type : string)
    (params : option (gmap string Q)) (e : engine) :
  Py.upper fix_type = "SNAP" ->
  in_bounds e (resolve_index error_id) = true ->
  let idx := resolve_index error_id in
  let slots := current_geometries e in
  let tolerance := param params "tolerance" (1 # 2) in
  let found :=
    exists geom k o,
      slots !! Z.to_nat idx = Some (Some geom) /\ within_snap slots idx tolerance geom k o in
  (params = None -> tolerance = 1 # 2)
  /\ (forall m t, params = Some m -> m !! "tolerance" = Some t -> tolerance = t)
  /\ (found ->
      exists geom k best,
        slots !! Z.to_nat idx = Some (Some geom)
        /\ within_snap slots idx tolerance geom k best
        /\ (forall k' o', within_snap slots idx tolerance geom k' o' ->
              dist_lt (distance' geom (Some o')) (distance' geom (Some best)) = false)
        /\ exists fix_result,
             apply_fix' error_id fix_type params e
             = (Some (Response true fix_result),
                log_fix (set_current e idx (Some (snap geom best tolerance)))
                  (FixRecord error_id fix_type (wkt geom) fix_result "now")))
  /\ (~ found ->
      exists msg, apply_fix' error_id fix_type params e = (Some (Response false msg), e)).
Proof.
  intros Hft Hin idx slots tolerance found.
  split; [by intros -> |].
  split.
  { intros m t -> Ht. subst tolerance. unfold param.
    destruct (decide (m = ∅)) as [->|_]; [by rewrite lookup_empty in Ht | by rewrite Ht]. }
  apply in_bounds_range in Hin. fold idx in Hin.
  assert (Hrun : forall geom,
            slots !! Z.to_nat idx = Some (Some geom) ->
            apply_fix' error_id fix_type params e
            = match strategy_snap distance2 snap format_dist4 e idx geom params with
              | Ok (Return r) => (Some r, e)
              | Ok (Continue e' fix_result) =>
                  if Py.truthy fix_result then
                    (Some (Response true fix_result),
                     log_fix e' (FixRecord error_id fix_type (wkt geom) fix_result "now"))
                  else (None, e')
              | Raise msg => (Some (Response false msg), e)
              end).
  { intros geom Hslot. unfold apply_fix, apply_fix_try. fold (resolve_index error_id).
    fold idx. rewrite guard_in_range by done.
    destruct (getitem_in_range _ _ Hin) as (slot & Hl & ->).
    fold slots in Hl. rewrite Hslot in Hl. injection Hl as <-. cbn [rbind].
    unfold dispatch. rewrite Hft. cbn [String.eqb Ascii.eqb Bool.eqb].
    destruct (strategy_snap _ _ _ _ _ _ _) as [[r|e' fix_result]|msg]; cbn [rbind]; try done.
    by destruct (Py.truthy fix_result). }
  split.
  - intros (geom & k0 & o0 & Hslot & Hk0 & Hlook0 & Hin0).
    rewrite (Hrun geom Hslot). unfold strategy_snap. fold tolerance.
    pose proof (snap_scan_spec geom idx tolerance slots 0 None Infinity ltac:(done)) as Hspec.
    fold slots.
    destruct (snap_scan' geom idx tolerance 0 slots None Infinity) as [best' m'].
    destruct Hspec as (_ & _ & Hmin & Hshape).
    destruct Hshape as [[-> ->]|(k & best & Hk & Hlook & Hinb & -> & ->)].
    { specialize (Hmin k0 o0 ltac:(lia) Hlook0 Hin0).
      destruct (dist_lt_num_number _ _ Hin0) as [x Hx]. rewrite Hx in Hmin. done. }
    destruct (dist_lt_num_number _ _ Hinb) as [x Hx].
    destruct (distance_number _ _ _ Hx) as (o & [= <-] & Hne).
    cbn [geom_truthy]. rewrite Hne. cbn [negb].
    exists geom, k, best. split; [done |].
    split; [repeat split; [lia | done | done] |].
    split.
    + intros k' o' (Hk' & Hlook' & Hin'). apply (Hmin k' o'); [lia | done | done].
    + eexists. reflexivity.
  - intros Hnone.
    destruct (getitem_in_range slots idx Hin) as (slot & Hl & _).
    destruct slot as [geom|].
    2:{ exists "'NoneType' object has no attribute 'wkt'".
        apply tombstone_slot_fails; [lia | done]. }
    rewrite (Hrun geom Hl). unfold strategy_snap. fold tolerance.
    pose proof (snap_scan_spec geom idx tolerance slots 0 None Infinity ltac:(done)) as Hspec.
    fold slots.
    destruct (snap_scan' geom idx tolerance 0 slots None Infinity) as [best' m'].
    destruct Hspec as (_ & _ & _ & Hshape).
    destruct Hshape as [[-> ->]|(k & best & Hk & Hlook & Hinb & -> & ->)].
    { eexists. reflexivity. }
    exfalso. apply Hnone. exists geom, k, best. split; [done |].
    repeat split; [lia | done | done].
Qed.

End SnapFacts.

Lemma C5_snap_nearest_within_tolerance_witness :
  let e := Engine [Some line_a; Some line_b] [Some line_a; Some line_b] [] in
  exists fix_result,
    Sample.apply_fix "0" "SNAP" None e
    = (Some (Response true fix_result),
       log_fix (set_current e 0 (Some line_a))
         (FixRecord "0" "SNAP" (Sample.wkt line_a) fix_result "now")).
Proof.
  intros e.
  destruct (C5_snap_nearest_within_tolerance Sample.wkt Sample.distance2 Sample.snap
              Sample.simplify Sample.buffer Sample.make_valid Sample.length_of
              Sample.interpolate Sample.format_dist4 Sample.str_num
              "0" "SNAP" None e eq_refl eq_refl)
    as (_ & _ & Hfound & _).
  destruct Hfound as (geom & k & best & Hgeom & _ & _ & fix_result & Hcall).
  { exists line_a, 1%nat, line_b. repeat split. vm_compute. lia. }
  simpl in Hgeom. injection Hgeom as <-.
  exists fix_result. exact Hcall.
Defined.

(** The claim of C5 as it is written, with "within the tolerance" as the
    specification uses it for the dangle check (a distance of at most the
    tolerance): whenever another slot holds a record within the tolerance
    of the target, SNAP succeeds. A point at (10.5, 0) and the line from
    (0, 0) to (10, 0) are at distance 0.5 exactly, the default tolerance:
    the test [dist < tolerance] of the code rejects the line, and the call
    fails. *)
Lemma C5_counterexample :
  ~ (forall (e : engine) (error_id : string) (params : option (gmap string Q))
            (geom o : geometry) (k : nat),
       in_bounds e (resolve_index error_id) = true ->
       current_geometries e !! Z.to_nat (resolve_index error_id) = Some (Some geom) ->
       Z.of_nat k <> resolve_index error_id ->
       current_geometries e !! k = Some (Some o) ->
       dist_le_num (distance Sample.distance2 geom (Some o))
                   (param params "tolerance" (1 # 2)) = true ->
       exists fix_result e',
         Sample.apply_fix error_id "SNAP" params e
         = (Some (Response true fix_result), e')).
Proof.
  intros H.
  pose (target := Point (Some (21 # 2, 0))%Q).
  destruct (H (Engine [Some target; Some line_a] [Some target; Some line_a] [])
              "0" None target line_a 1%nat)
    as (fix_result & e' & Hcall); try reflexivity.
  - vm_compute. discriminate.
  - vm_compute in Hcall. discriminate Hcall.
Qed.

Lemma C1_lists_stay_aligned_witness :
  let calls := [FixCall "dangle-1-start" "DELETE" None; FixCall "short" "SNAP" None] in
  let e :=
    run_fixes Sample.wkt Sample.distance2 Sample.snap Sample.simplify Sample.buffer
      Sample.make_valid Sample.length_of Sample.interpolate Sample.format_dist4
      Sample.str_num calls
      (load_wkt_content Sample.loads scenario_text (Engine [] [] [])).2 in
  original_geometries e = [Some line_a; Some line_b]
  /\ current_geometries e = [Some line_a; None]
  /\ length (current_geometries e) = length (original_geometries e)
  /\ current_geometries e !! 0 = original_geometries e !! 0.
Proof.
  intros calls e.
  destruct (C1_lists_stay_aligned Sample.loads Sample.wkt Sample.distance2 Sample.snap
              Sample.simplify Sample.buffer Sample.make_valid Sample.length_of
              Sample.interpolate Sample.format_dist4 Sample.str_num
              scenario_text (Engine [] [] []) calls)
    as (_ & Hlen & Hslots).
  split; [reflexivity |]. split; [reflexivity |]. split; [exact Hlen |].
  apply (Hslots 0%nat). repeat constructor; vm_compute; discriminate.
Defined.

(** * Further properties of the fix engine *)

(** The fix types that the dispatcher knows, in upper case. *)
Definition fix_types : list string :=
  ["SNAP"; "DELETE"; "SIMPLIFY"; "BUFFER"; "MAKE_VALID"; "CLOSE"; "REVERSE";
   "DENSIFY"; "OTHER"].

Section EngineMore.

Variable wkt : geometry -> string.
Variable distance2 : geometry -> geometry -> Q.
Variable snap : geometry -> geometry -> Q -> geometry.
Variable simplify : geometry -> Q -> geometry.
Variable buffer : geometry -> Q -> geometry.
Variable make_valid : geometry -> geometry.
Variable length_of : geometry -> Q.
Variable interpolate : geometry -> PyFloat.t -> geometry.
Variable format_dist4 : distance_t -> string.
Variable str_num : Q -> string.

Local Abbreviation dispatch' :=
  (dispatch distance2 snap simplify buffer make_valid length_of interpolate
            format_dist4 str_num).
Local Abbreviation apply_fix' :=
  (apply_fix wkt distance2 snap simplify buffer make_valid length_of
             interpolate format_dist4 str_num).
Local Abbreviation run_fixes' :=
  (run_fixes wkt distance2 snap simplify buffer make_valid length_of
             interpolate format_dist4 str_num).

(** A call on a slot that holds a geometry is the dispatch on that
    geometry, followed by the logging. *)
Lemma apply_fix_live error_id fix_type params e (geom : geometry) :
  (0 <= resolve_index error_id)%Z ->
  current_geometries e !! Z.to_nat (resolve_index error_id) = Some (Some geom) ->
  apply_fix' error_id fix_type params e
  = match dispatch' e (resolve_index error_id) geom fix_type params with
    | Ok (Return r) => (Some r, e)
    | Ok (Continue e' fix_result) =>
        if Py.truthy fix_result then
          (Some (Response true fix_result),
           log_fix e' (FixRecord error_id fix_type (wkt geom) fix_result "now"))
        else (None, e')
    | Raise msg => (Some (Response false msg), e)
    end.
Proof.
  intros Hpos Hslot.
  assert (Hrange : (0 <= resolve_index error_id
                    < Z.of_nat (length (current_geometries e)))%Z).
  { apply lookup_lt_Some in Hslot. lia. }
  unfold apply_fix, apply_fix_try. fold (resolve_index error_id).
  rewrite guard_in_range by done.
  destruct (getitem_in_range _ _ Hrange) as (slot & Hl & ->).
  rewrite Hslot in Hl. injection Hl as <-. cbn [rbind].
  destruct (dispatch' _ _ _ _ _) as [[r|e' fix_result]|msg]; cbn [rbind]; try done.
  by destruct (Py.truthy fix_result).
Qed.

(** The index resolved from the identifier is beyond the working list. *)
Lemma apply_fix_beyond error_id fix_type params e :
  (Z.of_nat (length (current_geometries e)) <= resolve_index error_id)%Z ->
  apply_fix' error_id fix_type params e
  = (Some (Response false
             ("Invalid geometry index: " +:+ Py.str_Z (resolve_index error_id))), e).
Proof.
  intros Hge. unfold apply_fix, apply_fix_try. fold (resolve_index error_id).
  replace ((resolve_index error_id =? -1)%Z
           || (resolve_index error_id >=? Z.of_nat (length (current_geometries e)))%Z)
    with true; [reflexivity |].
  symmetry. apply orb_true_intro. right. rewrite Z.geb_leb. by apply Z.leb_le.
Qed.

(** What a call does not resolve, it cannot reach: the three cases of the
    index resolved from an identifier. *)
Lemma resolved_slot_cases error_id e :
  resolve_index error_id = (-1)%Z
  \/ (Z.of_nat (length (current_geometries e)) <= resolve_index error_id)%Z
  \/ exists slot,
       (0 <= resolve_index error_id)%Z
       /\ current_geometries e !! Z.to_nat (resolve_index error_id) = Some slot.
Proof.
  pose proof (find_index_range (Py.split "-" error_id)) as Hr.
  fold (resolve_index error_id) in Hr.
  destruct (Z.eq_dec (resolve_index error_id) (-1)%Z) as [?|Hne]; [by left |].
  destruct (Z.le_gt_cases (Z.of_nat (length (current_geometries e)))
                          (resolve_index error_id)) as [?|Hlt]; [by right; left |].
  right. right.
  destruct (lookup_lt_is_Some_2 (current_geometries e)
              (Z.to_nat (resolve_index error_id)) ltac:(lia)) as [slot Hslot].
  exists slot. split; [lia | done].
Qed.

Lemma apply_fix_no_index error_id fix_type params e :
  resolve_index error_id = (-1)%Z ->
  apply_fix' error_id fix_type params e
  = (Some (Response false "Invalid geometry index: -1"), e).
Proof.
  intros Hm. unfold apply_fix, apply_fix_try. fold (resolve_index error_id).
  rewrite Hm. reflexivity.
Qed.

(** X1. A call that answers [success: false] has changed nothing: the
    engine after it, working list and log included, is the engine before
    it. *)
Theorem X1_failure_changes_nothing (error_id fix_type : string)
    (params : option (gmap string Q)) (e e' : engine) (r : response) :
  apply_fix' error_id fix_type params e = (Some r, e') ->
  success r = false ->
  e' = e.
Proof.
  intros Hcall Hfail.
  destruct (apply_fix_shape wkt distance2 snap simplify buffer make_valid
              length_of interpolate format_dist4 str_num error_id fix_type params e)
    as [msg | e1 fix_result original_wkt _ _].
  - by injection Hcall as _ <-.
  - injection Hcall as <- _. discriminate Hfail.
Qed.

(** One call leaves a slot that holds [None] as it is. *)
Lemma apply_fix_keeps_none error_id fix_type params e (i : nat) :
  current_geometries e !! i = Some None ->
  current_geometries (apply_fix' error_id fix_type params e).2 !! i = Some None.
Proof.
  intros Hi.
  destruct (Z.eq_dec (resolve_index error_id) (Z.of_nat i)) as [Heq|Hne].
  - rewrite tombstone_slot_fails; [done | lia |].
    by rewrite Heq, Nat2Z.id.
  - destruct (apply_fix_frame wkt distance2 snap simplify buffer make_valid length_of
                interpolate format_dist4 str_num error_id fix_type params e)
      as (_ & _ & Hs).
    by rewrite Hs.
Qed.

(** X2. A slot of the working list that holds [None] holds [None] after
    any series of calls: no fix, of any type, brings a deleted or
    unreadable record back. *)
Theorem X2_none_slot_stays_none (calls : list fix_call) (e : engine) (i : nat) :
  current_geometries e !! i = Some None ->
  current_geometries (run_fixes' calls e) !! i = Some None.
Proof.
  revert e. induction calls as [|c calls IH]; intros e Hi; simpl; [done |].
  apply IH. by apply apply_fix_keeps_none.
Qed.

(** X3. The log only grows: the log before a series of calls is a prefix
    of the log after it, and the series adds at most one record per call. *)
Theorem X3_log_only_grows (calls : list fix_call) (e : engine) :
  applied_fixes e `prefix_of` applied_fixes (run_fixes' calls e)
  /\ length (applied_fixes (run_fixes' calls e))
     <= length (applied_fixes e) + length calls.
Proof.
  revert e. induction calls as [|c calls IH]; intros e; simpl.
  - split; [done | lia].
  - destruct (IH (apply_fix' (call_error_id c) (call_fix_type c) (call_params c) e).2)
      as [Hpre Hlen].
    destruct (apply_fix_shape wkt distance2 snap simplify buffer make_valid
                length_of interpolate format_dist4 str_num
                (call_error_id c) (call_fix_type c) (call_params c) e)
      as [msg | e1 fix_result original_wkt (_ & Ha & _) _]; simpl in *.
    + split; [done | lia].
    + rewrite Ha in Hpre, Hlen. rewrite length_app in Hlen. simpl in Hlen.
      split; [| lia]. etrans; [| exact Hpre]. by apply prefix_app_r.
Qed.

(** X4. An identifier that resolves to an index at or beyond the end of
    the working list: the call answers [success: false] with the message
    ["Invalid geometry index: N"], [N] being the resolved index, and
    changes nothing. *)
Theorem X4_index_beyond_the_list (error_id fix_type : string)
    (params : option (gmap string Q)) (e : engine) :
  (Z.of_nat (length (current_geometries e)) <= resolve_index error_id)%Z ->
  apply_fix' error_id fix_type params e
  = (Some (Response false
             ("Invalid geometry index: " +:+ Py.str_Z (resolve_index error_id))), e).
Proof. apply apply_fix_beyond. Qed.

Lemma dispatch_unknown e idx geom fix_type params :
  ~ In (Py.upper fix_type) fix_types ->
  dispatch' e idx geom fix_type params
  = Ok (Return (Response false ("Unknown fix type: " +:+ fix_type))).
Proof.
  intros Hnot. unfold dispatch.
  repeat match goal with
         | |- context [String.eqb (Py.upper fix_type) ?s] =>
             destruct (String.eqb_spec (Py.upper fix_type) s) as [Heq|_];
             [exfalso; apply Hnot; rewrite Heq; unfold fix_types; simpl; tauto |]
         end.
  reflexivity.
Qed.

(** X5. A fix type that, in upper case, is none of the nine known names,
    on a slot that holds a geometry: the call answers [success: false]
    with ["Unknown fix type: "] followed by the name as it was given, and
    changes nothing. *)
Theorem X5_unknown_fix_type (error_id fix_type : string)
    (params : option (gmap string Q)) (e : engine) (geom : geometry) :
  ~ In (Py.upper fix_type) fix_types ->
  (0 <= resolve_index error_id)%Z ->
  current_geometries e !! Z.to_nat (resolve_index error_id) = Some (Some geom) ->
  apply_fix' error_id fix_type params e
  = (Some (Response false ("Unknown fix type: " +:+ fix_type)), e).
Proof.
  intros Hnot Hpos Hslot. rewrite (apply_fix_live _ _ _ _ geom) by done.
  by rewrite dispatch_unknown.
Qed.

End EngineMore.

(** ** Strategies that rewrite one slot: CLOSE and REVERSE *)

Lemma getitem_first {A} (c : A) (rest : list A) : getitem (c :: rest) 0 = Ok c.
Proof.
  destruct (getitem_in_range (c :: rest) 0%Z) as (x & Hx & ->); [simpl; lia |].
  simpl in Hx. by injection Hx as ->.
Qed.

Lemma lookup_last {A} (c d : A) (rest : list A) :
  (c :: rest) !! length rest = Some (List.last (c :: rest) d).
Proof.
  revert c. induction rest as [|c2 rest IH]; intros c; [done |].
  change ((c2 :: rest) !! length rest = Some (List.last (c2 :: rest) d)). apply IH.
Qed.

Lemma getitem_last {A} (c : A) (rest : list A) :
  getitem (c :: rest) (-1) = Ok (List.last rest c).
Proof.
  unfold getitem.
  replace (-1 + Z.of_nat (length (c :: rest)))%Z with (Z.of_nat (length rest))
    by (simpl; lia).
  cbn [Z.ltb Z.compare].
  destruct (Z.leb_spec 0 (Z.of_nat (length rest))); [| lia].
  destruct (Z.ltb_spec (Z.of_nat (length rest)) (Z.of_nat (length (c :: rest))));
    [| simpl in *; lia].
  cbn [andb]. rewrite Nat2Z.id, (lookup_last c c rest).
  destruct rest; reflexivity.
Qed.

Lemma coord_eqb_refl (c : coord) : coord_eqb c c = true.
Proof.
  unfold coord_eqb. apply andb_true_intro. split; apply Qeq_bool_iff; reflexivity.
Qed.

(** What CLOSE writes into the slot, if anything: an open line of at least
    two points with its first point added at the end. *)
Definition closed_form (geom : geometry) : option geometry :=
  match geom with
  | LineString (first :: rest) =>
      if coord_eqb first (List.last rest first) then None
      else Some (LineString (first :: rest ++ [first]))
  | _ => None
  end.

(** What REVERSE writes into the slot, if anything. *)
Definition reversed_form (geom : geometry) : option geometry :=
  match geom with
  | LineString [_] => None
  | LineString cs => Some (LineString (rev cs))
  | Polygon ext ints => Some (Polygon (rev ext) (map (@rev coord) ints))
  | _ => None
  end.

(** The working list after a strategy that writes [f geom] into the slot
    of the resolved index when that slot holds [geom]. *)
Definition slot_rewrite (f : geometry -> option geometry) (error_id : string)
    (slots : list (option geometry)) : list (option geometry) :=
  if (0 <=? resolve_index error_id)%Z then
    match slots !! Z.to_nat (resolve_index error_id) with
    | Some (Some geom) =>
        match f geom with
        | Some g => <[Z.to_nat (resolve_index error_id) := Some g]> slots
        | None => slots
        end
    | _ => slots
    end
  else slots.

(** A strategy follows [f]: it writes [f geom] or nothing, and raises only
    where [f] writes nothing. *)
Definition follows (f : geometry -> option geometry)
    (run : engine -> Z -> geometry -> result strategy_outcome) : Prop :=
  forall e idx geom,
    match run e idx geom with
    | Ok (Continue e' _) =>
        e' = match f geom with
             | Some g => set_current e idx (Some g)
             | None => e
             end
    | Ok (Return _) => f geom = None
    | Raise _ => f geom = None
    end.

Lemma strategy_close_follows : follows closed_form strategy_close.
Proof.
  intros e idx geom. unfold strategy_close.
  destruct geom as [c|cs|cs|ext ints|pts|parts|polys|ms]; try reflexivity.
  cbn [geom_type String.eqb Ascii.eqb Bool.eqb orb coords rbind].
  destruct cs as [|first rest]; [reflexivity |].
  rewrite getitem_first, getitem_last. cbn [rbind closed_form].
  destruct (coord_eqb first (List.last rest first)) eqn:Hc; cbn [negb]; [reflexivity |].
  destruct rest as [|c2 rest]; [| reflexivity].
  simpl in Hc. by rewrite coord_eqb_refl in Hc.
Qed.

Lemma strategy_reverse_follows : follows reversed_form strategy_reverse.
Proof.
  intros e idx geom. unfold strategy_reverse.
  destruct geom as [c|cs|cs|ext ints|pts|parts|polys|ms]; try reflexivity.
  destruct cs as [|c1 [|c2 cs]]; try reflexivity.
  cbn [reversed_form]. unfold LineString_new.
  destruct (rev (c1 :: c2 :: cs)) as [|r1 [|r2 rs]] eqn:Hrev; try reflexivity.
  apply (f_equal (@length coord)) in Hrev. rewrite length_rev in Hrev. simpl in Hrev. lia.
Qed.

Section Rewrites.

Variable wkt : geometry -> string.
Variable distance2 : geometry -> geometry -> Q.
Variable snap : geometry -> geometry -> Q -> geometry.
Variable simplify : geometry -> Q -> geometry.
Variable buffer : geometry -> Q -> geometry.
Variable make_valid : geometry -> geometry.
Variable length_of : geometry -> Q.
Variable interpolate : geometry -> PyFloat.t -> geometry.
Variable format_dist4 : distance_t -> string.
Variable str_num : Q -> string.

Local Abbreviation dispatch' :=
  (dispatch distance2 snap simplify buffer make_valid length_of interpolate
            format_dist4 str_num).
Local Abbreviation apply_fix' :=
  (apply_fix wkt distance2 snap simplify buffer make_valid length_of
             interpolate format_dist4 str_num).

Lemma dispatch_close e idx geom fix_type params :
  Py.upper fix_type = "CLOSE" ->
  dispatch' e idx geom fix_type params = strategy_close e idx geom.
Proof. intros Hft. unfold dispatch. rewrite Hft. reflexivity. Qed.

Lemma dispatch_reverse e idx geom fix_type params :
  Py.upper fix_type = "REVERSE" ->
  dispatch' e idx geom fix_type params = strategy_reverse e idx geom.
Proof. intros Hft. unfold dispatch. rewrite Hft. reflexivity. Qed.

(** The working list after a call whose strategy follows [f]. *)
Lemma apply_fix_rewrites f run error_id fix_type params e :
  follows f run ->
  (forall idx geom, dispatch' e idx geom fix_type params = run e idx geom) ->
  current_geometries (apply_fix' error_id fix_type params e).2
  = slot_rewrite f error_id (current_geometries e).
Proof.
  intros Hf Hd. unfold slot_rewrite.
  destruct (resolved_slot_cases error_id e) as [Hm1 | [Hbeyond | (slot & Hpos & Hslot)]].
  - rewrite (apply_fix_no_index wkt distance2 snap simplify buffer make_valid length_of
               interpolate format_dist4 str_num) by done.
    by rewrite Hm1.
  - rewrite (apply_fix_beyond wkt distance2 snap simplify buffer make_valid length_of
               interpolate format_dist4 str_num) by done.
    rewrite (lookup_ge_None_2 (current_geometries e)) by lia.
    by destruct (0 <=? resolve_index error_id)%Z.
  - destruct (Z.leb_spec 0 (resolve_index error_id)); [| lia]. rewrite Hslot.
    destruct slot as [geom|].
    2:{ by rewrite tombstone_slot_fails. }
    rewrite (apply_fix_live wkt distance2 snap simplify buffer make_valid length_of
               interpolate format_dist4 str_num _ _ _ _ geom) by done.
    pose proof (dispatch_outcome distance2 snap simplify buffer make_valid length_of
                  interpolate format_dist4 str_num e (resolve_index error_id) geom
                  fix_type params) as Hout.
    rewrite Hd in *. specialize (Hf e (resolve_index error_id) geom).
    destruct (run e (resolve_index error_id) geom) as [[r|e' fix_result]|msg].
    + by rewrite Hf.
    + destruct (Hout _ eq_refl) as [-> _]. subst e'. by destruct (f geom).
    + by rewrite Hf.
Qed.

Lemma slot_rewrite_twice f error_id slots :
  (forall geom g, f geom = Some g -> f g = None) ->
  slot_rewrite f error_id (slot_rewrite f error_id slots)
  = slot_rewrite f error_id slots.
Proof.
  intros Hff. unfold slot_rewrite.
  destruct (0 <=? resolve_index error_id)%Z; [| done].
  destruct (slots !! Z.to_nat (resolve_index error_id)) as [[geom|]|] eqn:Hslot;
    rewrite ?Hslot; try done.
  destruct (f geom) as [g|] eqn:Hg; [| by rewrite Hslot, Hg].
  rewrite list_lookup_insert_eq by (by apply lookup_lt_Some in Hslot).
  by rewrite (Hff _ _ Hg).
Qed.

Lemma slot_rewrite_back f error_id slots :
  (forall geom g, f geom = Some g -> f g = Some geom) ->
  slot_rewrite f error_id (slot_rewrite f error_id slots) = slots.
Proof.
  intros Hff. unfold slot_rewrite.
  destruct (0 <=? resolve_index error_id)%Z; [| done].
  destruct (slots !! Z.to_nat (resolve_index error_id)) as [[geom|]|] eqn:Hslot;
    rewrite ?Hslot; try done.
  destruct (f geom) as [g|] eqn:Hg; [| by rewrite Hslot, Hg].
  rewrite list_lookup_insert_eq by (by apply lookup_lt_Some in Hslot).
  rewrite (Hff _ _ Hg), list_insert_insert_eq. by apply list_insert_id.
Qed.

Lemma closed_form_closed geom g :
  closed_form geom = Some g -> closed_form g = None /\ is_closed g = true.
Proof.
  destruct geom as [c|cs|cs|ext ints|pts|parts|polys|ms]; try done.
  destruct cs as [|first rest]; [done |]. simpl.
  destruct (coord_eqb first (List.last rest first)); [done |]. intros [= <-].
  unfold is_closed. simpl. by rewrite last_last, coord_eqb_refl.
Qed.

Lemma reversed_form_line (cs : list coord) :
  length cs <> 1 -> reversed_form (LineString cs) = Some (LineString (rev cs)).
Proof. destruct cs as [|c1 [|c2 cs]]; done. Qed.

Lemma reversed_form_back geom g :
  reversed_form geom = Some g -> reversed_form g = Some geom.
Proof.
  destruct geom as [c|cs|cs|ext ints|pts|parts|polys|ms]; try done.
  - intros Hg.
    assert (Hlen : length cs <> 1) by (by destruct cs as [|c1 [|c2 cs]]).
    rewrite reversed_form_line in Hg by done. injection Hg as <-.
    rewrite reversed_form_line by (by rewrite length_rev).
    by rewrite rev_involutive.
  - intros [= <-]. cbn [reversed_form]. rewrite rev_involutive.
    assert (Hm : map (@rev coord) (map (@rev coord) ints) = ints).
    { induction ints as [|r ints IH]; simpl; [done |].
      by rewrite rev_involutive, IH. }
    by rewrite Hm.
Qed.

(** X6. CLOSE on a slot that holds an open line string of at least two
    points: the call succeeds, the slot receives the line with its first
    point added at the end, which is closed, every other slot is as
    before, and one record is logged. *)
Theorem X6_close_open_line (error_id fix_type : string)
    (params : option (gmap string Q)) (e : engine) (first : coord) (rest : list coord) :
  Py.upper fix_type = "CLOSE" ->
  (0 <= resolve_index error_id)%Z ->
  current_geometries e !! Z.to_nat (resolve_index error_id)
  = Some (Some (LineString (first :: rest))) ->
  rest <> [] ->
  coord_eqb first (List.last rest first) = false ->
  let closed := LineString (first :: rest ++ [first]) in
  apply_fix' error_id fix_type params e
  = (Some (Response true "Closed the ring by connecting end to start"),
     log_fix (set_current e (resolve_index error_id) (Some closed))
       (FixRecord error_id fix_type (wkt (LineString (first :: rest)))
          "Closed the ring by connecting end to start" "now"))
  /\ is_closed closed = true.
Proof.
  intros Hft Hpos Hslot Hrest Hopen closed. split.
  - rewrite (apply_fix_live wkt distance2 snap simplify buffer make_valid length_of
               interpolate format_dist4 str_num _ _ _ _ _ Hpos Hslot).
    rewrite dispatch_close by done. unfold strategy_close.
    cbn [geom_type String.eqb Ascii.eqb Bool.eqb orb coords rbind].
    rewrite getitem_first, getitem_last. cbn [rbind]. rewrite Hopen. cbn [negb].
    destruct rest as [|c2 rest]; [done |]. reflexivity.
  - subst closed. unfold is_closed. simpl. by rewrite last_last, coord_eqb_refl.
Qed.

(** X7. CLOSE is idempotent on the working list: whatever the identifier
    and the engine, a second CLOSE call with the same identifier leaves the
    working list as the first call made it. *)
Theorem X7_close_twice (error_id fix_type : string)
    (params : option (gmap string Q)) (e : engine) :
  Py.upper fix_type = "CLOSE" ->
  let e1 := (apply_fix' error_id fix_type params e).2 in
  current_geometries (apply_fix' error_id fix_type params e1).2
  = current_geometries e1.
Proof.
  intros Hft e1. subst e1.
  rewrite !(apply_fix_rewrites closed_form strategy_close)
    by (try apply strategy_close_follows; intros; by apply dispatch_close).
  apply slot_rewrite_twice. intros geom g Hg. by apply closed_form_closed in Hg as [? _].
Qed.

(** X8. REVERSE is its own inverse on the working list: whatever the
    identifier and the engine, two REVERSE calls with the same identifier
    give back the working list they started from. *)
Theorem X8_reverse_twice (error_id fix_type : string)
    (params : option (gmap string Q)) (e : engine) :
  Py.upper fix_type = "REVERSE" ->
  let e1 := (apply_fix' error_id fix_type params e).2 in
  current_geometries (apply_fix' error_id fix_type params e1).2
  = current_geometries e.
Proof.
  intros Hft e1. subst e1.
  rewrite !(apply_fix_rewrites reversed_form strategy_reverse)
    by (try apply strategy_reverse_follows; intros; by apply dispatch_reverse).
  apply slot_rewrite_back, reversed_form_back.
Qed.

End Rewrites.

(** ** Strategies that do not apply, DENSIFY, and the case of the name *)


Lemma upper_char_idem (c : ascii) : Py.upper_char (Py.upper_char c) = Py.upper_char c.
Proof.
  assert (Hfix : forall d, ((97 <=? N_of_ascii d) && (N_of_ascii d <=? 122))%N = false ->
                           Py.upper_char d = d).
  { intros d Hd. unfold Py.upper_char. by rewrite Hd. }
  destruct ((97 <=? N_of_ascii c) && (N_of_ascii c <=? 122))%N eqn:Hc.
  - apply andb_prop in Hc as [H1 H2]. apply N.leb_le in H1, H2.
    apply Hfix. unfold Py.upper_char.
    replace ((97 <=? N_of_ascii c) && (N_of_ascii c <=? 122))%N with true
      by (symmetry; apply andb_true_intro; split; by apply N.leb_le).
    rewrite N_ascii_embedding by (pose proof (N_ascii_bounded c); lia).
    apply andb_false_intro1, N.leb_gt. lia.
  - rewrite (Hfix c Hc). exact (Hfix c Hc).
Qed.

Lemma upper_idem (s : string) : Py.upper (Py.upper s) = Py.upper s.
Proof.
  induction s as [|c s IH]; [done |]. simpl. by rewrite upper_char_idem, IH.
Qed.

Section Names.

Variable wkt : geometry -> string.
Variable distance2 : geometry -> geometry -> Q.
Variable snap : geometry -> geometry -> Q -> geometry.
Variable simplify : geometry -> Q -> geometry.
Variable buffer : geometry -> Q -> geometry.
Variable make_valid : geometry -> geometry.
Variable length_of : geometry -> Q.
Variable interpolate : geometry -> PyFloat.t -> geometry.
Variable format_dist4 : distance_t -> string.
Variable str_num : Q -> string.

Local Abbreviation dispatch' :=
  (dispatch distance2 snap simplify buffer make_valid length_of interpolate
            format_dist4 str_num).
Local Abbreviation apply_fix' :=
  (apply_fix wkt distance2 snap simplify buffer make_valid length_of
             interpolate format_dist4 str_num).

(** X9. On a slot that holds a point, CLOSE, REVERSE, DENSIFY and OTHER
    do not apply, and yet the call answers [success: true]: the working
    list is unchanged and one record is logged, with the original text of
    the point and the message of the answer. *)
Theorem X9_not_applicable_is_a_success (error_id fix_type : string)
    (params : option (gmap string Q)) (e : engine) (c : option coord) :
  In (Py.upper fix_type) ["CLOSE"; "REVERSE"; "DENSIFY"; "OTHER"] ->
  (0 <= resolve_index error_id)%Z ->
  current_geometries e !! Z.to_nat (resolve_index error_id) = Some (Some (Point c)) ->
  exists fix_result,
    apply_fix' error_id fix_type params e
    = (Some (Response true fix_result),
       log_fix e (FixRecord error_id fix_type (wkt (Point c)) fix_result "now")).
Proof.
  intros Hft Hpos Hslot.
  rewrite (apply_fix_live wkt distance2 snap simplify buffer make_valid length_of
             interpolate format_dist4 str_num _ _ _ _ _ Hpos Hslot).
  unfold dispatch. simpl in Hft.
  destruct Hft as [<-|[<-|[<-|[<-|[]]]]]; eexists; reflexivity.
Qed.

(** X10. DENSIFY with an interval of zero on a slot that holds a line
    string: the division raises, the call answers [success: false] and
    changes nothing. *)
Theorem X10_densify_zero_interval (error_id fix_type : string)
    (params : option (gmap string Q)) (e : engine) (cs : list coord) :
  Py.upper fix_type = "DENSIFY" ->
  (0 <= resolve_index error_id)%Z ->
  current_geometries e !! Z.to_nat (resolve_index error_id)
  = Some (Some (LineString cs)) ->
  param params "interval" 1 == 0 ->
  exists msg, apply_fix' error_id fix_type params e = (Some (Response false msg), e).
Proof.
  intros Hft Hpos Hslot Hzero.
  rewrite (apply_fix_live wkt distance2 snap simplify buffer make_valid length_of
             interpolate format_dist4 str_num _ _ _ _ _ Hpos Hslot).
  unfold dispatch. rewrite Hft. cbn [String.eqb Ascii.eqb Bool.eqb].
  unfold strategy_densify. cbn [geom_type String.eqb Ascii.eqb Bool.eqb].
  unfold PyFloat.truediv. apply Qeq_bool_iff in Hzero. rewrite Hzero.
  eexists. reflexivity.
Qed.


Lemma dispatch_upper e idx geom fix_type params :
  dispatch' e idx geom (Py.upper fix_type) params = dispatch' e idx geom fix_type params
  \/ exists m1 m2,
       dispatch' e idx geom (Py.upper fix_type) params = Ok (Return (Response false m1))
       /\ dispatch' e idx geom fix_type params = Ok (Return (Response false m2)).
Proof.
  unfold dispatch. rewrite upper_idem.
  repeat (destruct (String.eqb (Py.upper fix_type) _); [by left |]).
  right. eauto.
Qed.

(** X12. The name of the fix type counts in upper case only: a call with
    a name and the call with the same name in upper case give the same
    verdict ([success]) and the same working list. *)
Theorem X12_fix_type_case_insensitive (error_id fix_type : string)
    (params : option (gmap string Q)) (e : engine) :
  let out := apply_fix' error_id fix_type params e in
  let out_upper := apply_fix' error_id (Py.upper fix_type) params e in
  success <$> out.1 = success <$> out_upper.1
  /\ current_geometries out.2 = current_geometries out_upper.2.
Proof.
  intros out out_upper. subst out out_upper.
  destruct (resolved_slot_cases error_id e) as [Hm1 | [Hbeyond | (slot & Hpos & Hslot)]].
  - by rewrite !(apply_fix_no_index wkt distance2 snap simplify buffer make_valid
                   length_of interpolate format_dist4 str_num) by done.
  - by rewrite !(apply_fix_beyond wkt distance2 snap simplify buffer make_valid
                   length_of interpolate format_dist4 str_num) by done.
  - destruct slot as [geom|].
    2:{ by rewrite !tombstone_slot_fails. }
    rewrite !(apply_fix_live wkt distance2 snap simplify buffer make_valid length_of
                interpolate format_dist4 str_num _ _ _ _ geom) by done.
    destruct (dispatch_upper e (resolve_index error_id) geom fix_type params)
      as [-> | (m1 & m2 & -> & ->)]; [| done].
    destruct (dispatch' _ _ _ _ _) as [[r|e' fix_result]|msg]; try done.
    by destruct (Py.truthy fix_result).
Qed.

End Names.

(** * Further properties of the two readers and of the diagnostics *)

(** The record holds a geometry that is not empty. *)
Definition holds_geometry (item : line_item) : Prop :=
  exists g, item_geom item = Some g /\ is_empty g = false.

Lemma omap_length_le {A B} (f : A -> option B) (l : list A) :
  length (omap f l) <= length l.
Proof.
  induction l as [|x l IH]; [done |]. cbn [omap list_omap].
  destruct (f x); simpl; lia.
Qed.

Section Readers.

Variable loads : string -> result geometry.

(** The loader of the engine and the reader of the diagnostics, run side
    by side: same buffer, and the geometries of the slots that are not
    [None] are the geometries of the records. *)
Definition readers_agree (st : string * list (option geometry)) (rd : reader) : Prop :=
  st.1 = rd_buf rd
  /\ omap id st.2 = omap item_geom (rd_lines_data rd)
  /\ Forall holds_geometry (rd_lines_data rd).

Lemma read_step_agrees st rd i line_str :
  readers_agree st rd ->
  readers_agree (load_line loads st line_str) (read_line loads rd i line_str).
Proof.
  destruct st as [buf geoms]. intros (Hbuf & Hgeoms & Hgood). simpl in Hbuf, Hgeoms.
  unfold load_line, read_line. rewrite <- Hbuf.
  destruct (negb (Py.truthy (Py.strip line_str))); [done |].
  destruct (Py.endswith _ _); [| done].
  unfold readers_agree.
  destruct (loads _) as [geom|].
  - destruct (is_empty geom) eqn:He; cbn [negb fst snd rd_buf rd_lines_data]; [done |].
    split; [done |]. split.
    + by rewrite !omap_app, Hgeoms.
    + apply Forall_app. split; [done |]. constructor; [| done]. by exists geom.
  - cbn [fst snd rd_buf rd_lines_data]. split; [done |]. split; [| done].
    rewrite omap_app, Hgeoms. simpl. by rewrite app_nil_r.
Qed.

Lemma read_loop_agrees raw_lines :
  forall st rd i,
    readers_agree st rd ->
    readers_agree (fold_left (load_line loads) raw_lines st)
                  (read_lines loads rd i raw_lines).
Proof.
  induction raw_lines as [|l raw_lines IH]; intros st rd i H; simpl; [done |].
  apply IH. by apply read_step_agrees.
Qed.

(** X13. The loader of the engine and the reader of the diagnostics read
    the same text into the same geometries in the same order: the slots of
    the engine that are not [None] hold the geometries of the records of
    the diagnostics. The engine keeps one more slot, [None], for every
    statement that the library rejects, which the diagnostics skip; every
    record of the diagnostics holds a geometry that is not empty. *)
Theorem X13_readers_agree (text : string) :
  omap id (parse_geometries loads text) = omap item_geom (read_lines_data loads text)
  /\ Forall holds_geometry (read_lines_data loads text)
  /\ length (read_lines_data loads text) <= length (parse_geometries loads text)
  /\ (Forall is_Some (parse_geometries loads text) ->
      parse_geometries loads text = map item_geom (read_lines_data loads text)).
Proof.
  destruct (read_loop_agrees (Py.splitlines text) ("", []) (Reader "" 0 []) 0)
    as (_ & Hgeoms & Hgood); [by repeat split |].
  fold (parse_geometries loads text) in Hgeoms.
  fold (read_lines_data loads text) in Hgeoms, Hgood.
  assert (Hall : forall lines_data, Forall holds_geometry lines_data ->
                   Some <$> omap item_geom lines_data = map item_geom lines_data).
  { induction 1 as [|item lines_data (g & Hg & _) _ IH]; [done |].
    cbn [omap list_omap map]. rewrite Hg. cbn. f_equal. exact IH. }
  assert (Hsome : forall slots : list (option geometry),
                    Forall is_Some slots -> Some <$> omap id slots = slots).
  { induction 1 as [|slot slots [g ->] _ IH]; [done |]. cbn. f_equal. exact IH. }
  split; [done |]. split; [done |]. split.
  - rewrite <- (length_map item_geom), <- (Hall _ Hgood), length_fmap, <- Hgeoms.
    apply omap_length_le.
  - intros Hs. by rewrite <- (Hsome _ Hs), Hgeoms, Hall.
Qed.

Lemma records_hold_geometry (text : string) :
  Forall holds_geometry (read_lines_data loads text)
  /\ well_indexed (read_lines_data loads text).
Proof.
  split; [| apply read_lines_data_well_indexed].
  destruct (read_loop_agrees (Py.splitlines text) ("", []) (Reader "" 0 []) 0)
    as (_ & _ & Hgood); [by repeat split | done].
Qed.

End Readers.

Section Runs2.

Variable loads : string -> result geometry.
Variable wkt : geometry -> string.
Variable distance2 : geometry -> geometry -> Q.
Variable length_of : geometry -> Q.
Variable str_num : Q -> string.
Variable is_simple : geometry -> bool.
Variable is_valid : geometry -> bool.
Variable explain_validity : geometry -> string.
Variable centroid : geometry -> coord.
Variable format_f : nat -> Q -> string.
Variable plot : list line_item -> list finding -> result string.

Local Abbreviation run_geometry_qa' :=
  (run_geometry_qa loads wkt distance2 length_of str_num is_simple is_valid
                   explain_validity centroid format_f plot).

Lemma validity_checks_answer lines_data :
  Forall holds_geometry lines_data ->
  exists fs, validity_checks wkt is_valid explain_validity lines_data = Ok fs.
Proof.
  induction 1 as [|item lines_data (g & Hg & _) _ [fs IH]]; simpl; [eauto |].
  rewrite Hg, IH. simpl. destruct (negb (is_valid g)); eauto.
Qed.

Lemma collection_wkt_answer lines_data :
  Forall holds_geometry lines_data ->
  collection_wkt wkt lines_data = Ok (map wkt (omap item_geom lines_data)).
Proof.
  unfold collection_wkt.
  induction 1 as [|item lines_data (g & Hg & _) _ IH]; simpl; [done |].
  rewrite Hg. simpl. by rewrite IH.
Qed.

(** X14. The diagnostics fall back on their error notice only when the
    plot raises: the reading and the three checks never do. For a text
    without any record the answer is the one notice [insufficient_data],
    no URL and no text, and nothing is plotted. For any other text the
    checks give findings, each with a geometry index that is a position of
    the list of records. When the plot of these findings returns a file
    name, the answer holds the URL of that file, the findings and one text
    per record, in order; when it raises, the answer is the one notice
    [processing_error] with the message of the plot, no URL and no
    text. *)
Theorem X14_run_answers (text : string) :
  let lines_data := read_lines_data loads text in
  let report := run_geometry_qa' text in
  (lines_data = [] ->
   report
   = QaReport None [Notice "insufficient_data" "No valid geometries found."] [])
  /\ (lines_data <> [] ->
      exists findings,
        Forall (fun f => f_geometry_index f < length lines_data) findings
        /\ match plot lines_data findings with
           | Ok out_name =>
               report
               = QaReport (Some ("/outputs/" +:+ out_name)) (map Found findings)
                   (map wkt (omap item_geom lines_data))
               /\ length (qa_collection_wkt report) = length lines_data
           | Raise msg =>
               report
               = QaReport None
                   [Notice "processing_error" ("Failed to process geometry: " +:+ msg)]
                   []
           end).
Proof.
  intros lines_data report. subst report.
  unfold run_geometry_qa, run_geometry_qa_try. fold lines_data.
  destruct (records_hold_geometry loads text) as (Hgood & Hwi).
  fold lines_data in Hgood, Hwi.
  split; [intros ->; reflexivity |].
  intros Hne. destruct lines_data as [|item0 rest] eqn:Hl; [done |].
  rewrite <- Hl in *. replace (length lines_data <? 1)%nat with false
    by (rewrite Hl; reflexivity).
  destruct (validity_checks_answer _ Hgood) as [invalid Hv]. rewrite Hv. cbn [rbind].
  rewrite (find_dangles_reported wkt distance2 str_num is_simple format_f) by done.
  cbn [rbind].
  match goal with |- context [plot lines_data ?errors] => exists errors end.
  split; [| destruct (plot _ _) as [out_name|]; cbn [rbind]].
  2:{ rewrite (collection_wkt_answer _ Hgood). cbn [rbind qa_collection_wkt].
      split; [reflexivity |].
      rewrite length_map.
      clear -Hgood. induction Hgood as [|item l (g & Hg & _) _ IH]; [done |].
      cbn [omap list_omap]. rewrite Hg. cbn [length]. f_equal. exact IH. }
  2: reflexivity.
  assert (Hfrom : forall f, from_item lines_data f -> f_geometry_index f < length lines_data).
  { intros f (item & Hin & Hgi & _). rewrite Hgi.
    apply (lookup_lt_Some lines_data _ item). by apply well_indexed_lookup. }
  apply Forall_app. split; [| apply Forall_app; split].
  - eapply Forall_impl; [by apply (validity_checks_from_item wkt is_valid explain_validity) |].
    exact Hfrom.
  - eapply Forall_impl; [| exact Hfrom].
    apply (find_dangles_from_item wkt distance2 str_num is_simple format_f _ TOLERANCE);
      [done |].
    by apply find_dangles_reported.
  - eapply Forall_impl; [apply find_short_lines_from_item | exact Hfrom].
Qed.

End Runs2.

(** ** The dangle check and the tolerance *)

Lemma dist_le_num_mono (d : distance_t) (t t' : Q) :
  (t <= t')%Q -> dist_le_num d t = true -> dist_le_num d t' = true.
Proof.
  intros Htt. destruct d as [x| |]; simpl; try done.
  intros H. apply andb_prop in H as [H0 Hx].
  apply Qle_bool_iff in H0, Hx.
  apply andb_true_intro. split; apply Qle_bool_iff.
  - by eapply Qle_trans.
  - eapply Qle_trans; [exact Hx |].
    apply Qmult_le_compat_nonneg; split; done.
Qed.

Lemma filter_length_impl {A} (p q : A -> bool) (l : list A) :
  (forall x, p x = true -> q x = true) ->
  length (List.filter p l) <= length (List.filter q l).
Proof.
  intros Hpq. induction l as [|x l IH]; [done |]. simpl.
  destruct (p x) eqn:Hp.
  - rewrite (Hpq x Hp). simpl. lia.
  - destruct (q x); simpl; lia.
Qed.

Section Tolerance.

Variable wkt : geometry -> string.
Variable distance2 : geometry -> geometry -> Q.
Variable str_num : Q -> string.
Variable is_simple : geometry -> bool.
Variable format_f : nat -> Q -> string.

Local Abbreviation dangle_error' := (dangle_error wkt str_num format_f).
Local Abbreviation find_dangles' :=
  (find_dangles wkt distance2 str_num is_simple format_f).
Local Abbreviation reported' := (reported distance2 is_simple).

Lemma reported_antitone lines_data (t t' : Q) ep :
  (t <= t')%Q ->
  reported' lines_data t' ep = true -> reported' lines_data t ep = true.
Proof.
  intros Htt. rewrite !reported_true. intros [Hnc Hnr]. split; [| done].
  intros (other & g & Hin & Hid & Hg & He & Hd). apply Hnc.
  exists other, g. repeat split; try done. by eapply dist_le_num_mono.
Qed.

(** X15. Widening the tolerance never adds a dangle: for records numbered
    by position and two tolerances [t <= t'], every endpoint reported at
    [t'] is reported at [t], and the check answers at most as many
    findings at [t'] as at [t]. *)
Theorem X15_wider_tolerance_fewer_dangles (lines_data : list line_item) (t t' : Q) :
  well_indexed lines_data ->
  (t <= t')%Q ->
  exists fs fs',
    find_dangles' lines_data t = Ok fs
    /\ find_dangles' lines_data t' = Ok fs'
    /\ length fs' <= length fs
    /\ forall ep, reported' lines_data t' ep = true -> reported' lines_data t ep = true.
Proof.
  intros Hwi Htt. rewrite !find_dangles_reported by done.
  eexists. eexists. split; [reflexivity |]. split; [reflexivity |]. split.
  - rewrite !length_map. apply filter_length_impl. intros ep. by apply reported_antitone.
  - intros ep. by apply reported_antitone.
Qed.

(** X16. A line string of at least two points, alone in the data: when it
    is a ring (closed and simple) the check reports nothing; otherwise it
    reports exactly its two endpoints, the start and then the end,
    whatever the tolerance. *)
Theorem X16_line_alone (line_no : nat) (first : coord) (rest : list coord) (t : Q) :
  rest <> [] ->
  let line := LineString (first :: rest) in
  let lines_data := [LineItem 0 line_no (Some line)] in
  find_dangles' lines_data t
  = Ok (if is_ring is_simple line then []
        else [dangle_error' t (Endpoint (Point (Some first)) 0 line_no "start" first);
              dangle_error' t (Endpoint (Point (Some (List.last rest first))) 0 line_no
                                 "end" (List.last rest first))]).
Proof.
  intros Hrest line lines_data.
  destruct rest as [|c2 rest]; [done |].
  unfold find_dangles. subst lines_data line.
  cbn [collect_endpoints item_geom is_empty nil_b geoms_list flat_map part_endpoints
       item_id item_line_no app].
  cbn [check_endpoints connected_scan ep_line_idx ep_pt item_id Nat.eqb negb Z.of_nat].
  change (Z.of_nat 0) with 0%Z.
  rewrite !(getitem_first (LineItem 0 line_no (Some (LineString (first :: c2 :: rest)))) []).
  cbn [rbind item_geom geom_type String.eqb Ascii.eqb Bool.eqb andb].
  destruct (is_ring is_simple (LineString (first :: c2 :: rest))); reflexivity.
Qed.

End Tolerance.

(** X17. The index of an identifier is its first all-digit part, not a
    later one: an identifier [tag-N-rest], with a tag that is not all
    digits and holds no dash, resolves to [N] whatever follows, and an
    identifier that is just [N] resolves to [N]. *)
Theorem X17_first_numeric_part (tag rest : string) (n : nat) :
  no_sep "-" tag = true ->
  Py.isdigit tag = false ->
  resolve_index (tag +:+ "-" +:+ str_nat n +:+ "-" +:+ rest) = Z.of_nat n
  /\ resolve_index (tag +:+ "-" +:+ str_nat n) = Z.of_nat n
  /\ resolve_index (str_nat n) = Z.of_nat n.
Proof.
  intros Htag Hnd. split; [by apply resolve_index_tag_number_loc |].
  split; [by apply resolve_index_tag_number |].
  destruct (str_nat_spec n) as [Hd Hi].
  unfold resolve_index, Py.split.
  rewrite split_from_no_sep by (by apply isdigit_no_dash).
  rewrite append_nil_l. simpl. by rewrite Hd.
Qed.

(** * The fix suggestions ([rag_agent.py]) *)

(** ** More string primitives *)

Module PyText.

Definition lower_char (c : ascii) : ascii :=
  let n := N_of_ascii c in
  if ((65 <=? n) && (n <=? 90))%N then ascii_of_N (n + 32) else c.

(** [s.lower()] on ASCII text ([s.isascii()]): the letters [A] to [Z]
    change, nothing else does. Beyond ASCII [str.lower] changes other
    letters as well, some of them into ASCII letters (the Kelvin sign into
    [k]); this is outside the definition. *)
Fixpoint lower (s : string) : string :=
  match s with
  | EmptyString => EmptyString
  | String c r => String (lower_char c) (lower r)
  end.

(** [s.startswith(p)] *)
Fixpoint startswith (p s : string) : bool :=
  match p, s with
  | EmptyString, _ => true
  | String a p', String b s' => Ascii.eqb a b && startswith p' s'
  | String _ _, EmptyString => false
  end.

(** [p in s] on strings: [p] occurs somewhere in [s]. *)
Fixpoint contains (p s : string) : bool :=
  startswith p s
  || match s with
     | EmptyString => false
     | String _ r => contains p r
     end.

End PyText.

Example contains_ex :
  PyText.contains "ring" (PyText.lower "LineString") = true
  /\ PyText.contains "" "x" = true
  /\ PyText.contains "abc" "ab" = false.
Proof. repeat split; reflexivity. Qed.

(** ** The safety check on generated code *)

Definition DANGEROUS_IMPORTS : list string :=
  ["os"; "subprocess"; "sys"; "shutil"; "socket"; "http"].
Definition DANGEROUS_CALLS : list string :=
  ["exec"; "eval"; "open"; "import"; "__import__"].

(** The dictionary [{"is_safe": ..., "reason": ...}]. *)
Record verdict : Type := Verdict {
  is_safe : bool;
  reason : string
}.

(** The first loop of [sanitize_code]; [None] when it ends without
    returning. *)
Fixpoint scan_imports (code_lower : string) (imports : list string) : option verdict :=
  match imports with
  | [] => None
  | imp :: rest =>
      if PyText.contains ("import " +:+ imp) code_lower
         || PyText.contains ("from " +:+ imp) code_lower
      then Some (Verdict false ("Dangerous import detected: " +:+ imp))
      else scan_imports code_lower rest
  end.

(** The second loop. *)
Fixpoint scan_calls (code_lower : string) (calls : list string) : option verdict :=
  match calls with
  | [] => None
  | call :: rest =>
      if PyText.contains (call +:+ "(") code_lower
      then Some (Verdict false ("Dangerous function call detected: " +:+ call))
      else scan_calls code_lower rest
  end.

Definition sanitize_code (code : string) : verdict :=
  let code_lower := PyText.lower code in
  match scan_imports code_lower DANGEROUS_IMPORTS with
  | Some v => v
  | None =>
      match scan_calls code_lower DANGEROUS_CALLS with
      | Some v => v
      | None => Verdict true "Code passed safety checks"
      end
  end.

(** ** The fix type read off generated code

    The chain of tests that [_call_llm] makes on the code it received,
    once cleaned. *)
Definition suggest_fix_type (code : string) : string :=
  let code_lower := PyText.lower code in
  let has := fun word => PyText.contains word code_lower in
  if has "snap" || has "nearest" then "SNAP"
  else if has "delete" || has "remove" || has "drop" then "DELETE"
  else if has "simplify" || has "curvature" || has "douglas" then "SIMPLIFY"
  else if has "buffer" && (has "0" || has "self" || has "intersect") then "BUFFER"
  else if has "make_valid" || has "is_valid" || has "repair" then "MAKE_VALID"
  else if has "close" || has "ring" || has "polygon" then "CLOSE"
  else if has "reverse" || has "winding" || has "orient" then "REVERSE"
  else if has "densify" || has "interpolate" then "DENSIFY"
  else if has "split" then "SPLIT"
  else "OTHER".

(** ** The examples of past fixes *)

(** [item.get(key, default)] on an example, a dictionary of texts. *)
Definition get_text (item : gmap string string) (key default : string) : string :=
  match item !! key with
  | Some v => v
  | None => default
  end.

Definition matches_type (error_type : string) (item : gmap string string) : bool :=
  PyText.contains (PyText.lower error_type)
                  (PyText.lower (get_text item "error_type" "")).

(** The loop of [retrieve_fix_examples]. *)
Fixpoint collect_relevant (error_type : string) (training_data : list (gmap string string))
    (relevant : list (gmap string string)) : list (gmap string string) :=
  match training_data with
  | [] => relevant
  | item :: rest =>
      if matches_type error_type item
      then collect_relevant error_type rest (relevant ++ [item])
      else collect_relevant error_type rest relevant
  end.

(** [retrieve_fix_examples]: [relevant[:3]]. *)
Definition retrieve_fix_examples (training_data : list (gmap string string))
    (error_type : string) : list (gmap string string) :=
  take 3 (collect_relevant error_type training_data []).

(** [save_fix], without the writing of the file: the examples after the
    call and the count that the call answers. *)
Definition save_fix (training_data : list (gmap string string))
    (error_type context fix_description fix_code : string)
  : list (gmap string string) * nat :=
  let new_example : gmap string string :=
    <["fix_code_template" := fix_code]>
      (<["user_fix_description" := fix_description]>
         (<["context" := context]> (<["error_type" := error_type]> ∅))) in
  let training_data' := training_data ++ [new_example] in
  (training_data', length training_data').

(** The dictionary [{"suggestion", "code", "source"}]. *)
Record suggestion : Type := Suggestion {
  sg_suggestion : string;
  sg_code : string;
  sg_source : string
}.

(** [_mock_response] *)
Definition mock_response (error_type : string) (past_fixes : list (gmap string string))
  : suggestion :=
  match past_fixes with
  | past :: _ =>
      Suggestion (get_text past "user_fix_description" "Apply standard fix")
                 (get_text past "fix_code_template" "# No code available")
                 "rag_local"
  | [] =>
      if PyText.contains "dangle" (PyText.lower error_type) then
        Suggestion "Snap the endpoint to the nearest vertex"
                   "# geometry.coords[-1] = (nearest_x, nearest_y)" "mock"
      else if PyText.contains "short" (PyText.lower error_type) then
        Suggestion "Remove the short segment" "# del lines_data[geometry_index]" "mock"
      else
        Suggestion "Manual review recommended" "# No automatic fix available" "mock"
  end.

(** [generate_fix_suggestion] of an agent without a client, on an error
    of the given type. *)
Definition generate_fix_suggestion_offline (training_data : list (gmap string string))
    (error_type : string) : suggestion :=
  mock_response error_type (retrieve_fix_examples training_data error_type).

(** ** Facts about substrings and letter case *)

Lemma startswith_app (p x : string) : PyText.startswith p (p +:+ x) = true.
Proof.
  induction p as [|c p IH]; [done |]. rewrite append_cons. simpl.
  by rewrite Ascii.eqb_refl, IH.
Qed.

Lemma startswith_split (p s : string) :
  PyText.startswith p s = true -> exists b, s = p +:+ b.
Proof.
  revert s. induction p as [|c p IH]; intros s; simpl.
  - intros _. by exists s.
  - destruct s as [|d s]; [done |]. intros H. apply andb_prop in H as [Hc Hs].
    apply Ascii.eqb_eq in Hc as ->. destruct (IH s Hs) as [b ->].
    exists b. by rewrite append_cons.
Qed.

(** [p in s] holds exactly when [s] is some text, then [p], then some
    text. *)
Lemma contains_iff (p s : string) :
  PyText.contains p s = true <-> exists a b, s = a +:+ p +:+ b.
Proof.
  split.
  - induction s as [|c s IH]; simpl.
    + rewrite orb_false_r. intros H. destruct (startswith_split _ _ H) as [b Hb].
      exists "", b. by rewrite append_nil_l.
    + intros H. apply orb_prop in H as [H|H].
      * destruct (startswith_split _ _ H) as [b Hb]. exists "", b. by rewrite append_nil_l.
      * destruct (IH H) as (a & b & ->). exists (String c a), b. by rewrite append_cons.
  - intros (a & b & ->). induction a as [|c a IH].
    + rewrite append_nil_l. destruct (p +:+ b) eqn:Hpb; simpl.
      * rewrite orb_false_r, <- Hpb. apply startswith_app.
      * rewrite <- Hpb, startswith_app. reflexivity.
    + rewrite append_cons. simpl. rewrite IH. apply orb_true_r.
Qed.

Lemma contains_padded (p s before after : string) :
  PyText.contains p s = true ->
  PyText.contains p (before +:+ s +:+ after) = true.
Proof.
  rewrite !contains_iff. intros (a & b & ->).
  exists (before +:+ a), (b +:+ after). by rewrite !append_assoc.
Qed.

Lemma contains_refl (s : string) : PyText.contains s s = true.
Proof. apply contains_iff. exists "", "". by rewrite append_nil_l, append_nil_r. Qed.

Lemma contains_empty (s : string) : PyText.contains "" s = true.
Proof. by destruct s. Qed.

Lemma lower_app (a b : string) :
  PyText.lower (a +:+ b) = PyText.lower a +:+ PyText.lower b.
Proof.
  induction a as [|c a IH]; [done |]. rewrite append_cons. simpl.
  by rewrite IH, append_cons.
Qed.

Lemma lower_upper_char (c : ascii) :
  Py.is_ascii_char c = true ->
  PyText.lower_char (Py.upper_char c) = PyText.lower_char c.
Proof. destruct c as [[] [] [] [] [] [] [] []]; (discriminate || reflexivity). Qed.

Lemma lower_upper (s : string) :
  Py.isascii s = true -> PyText.lower (Py.upper s) = PyText.lower s.
Proof.
  induction s as [|c s IH]; [done |]. cbn [Py.isascii Py.upper PyText.lower].
  intros H. apply andb_prop in H as [Hc Hs]. by rewrite lower_upper_char, IH.
Qed.

(** ** Facts about the safety check *)

(** Some import or call pattern occurs in the lowered code. *)
Definition flagged (code_lower : string) : bool :=
  existsb (fun imp => PyText.contains ("import " +:+ imp) code_lower
                      || PyText.contains ("from " +:+ imp) code_lower)
          DANGEROUS_IMPORTS
  || existsb (fun call => PyText.contains (call +:+ "(") code_lower) DANGEROUS_CALLS.

Lemma scan_imports_none code_lower imports :
  scan_imports code_lower imports = None
  <-> existsb (fun imp => PyText.contains ("import " +:+ imp) code_lower
                          || PyText.contains ("from " +:+ imp) code_lower) imports
      = false.
Proof.
  induction imports as [|imp rest IH]; simpl; [done |].
  destruct (_ || _); simpl; [split; done | exact IH].
Qed.

Lemma scan_imports_unsafe code_lower imports v :
  scan_imports code_lower imports = Some v -> is_safe v = false.
Proof.
  induction imports as [|imp rest IH]; simpl; [done |].
  destruct (_ || _); [by intros [= <-] | exact IH].
Qed.

Lemma scan_calls_none code_lower calls :
  scan_calls code_lower calls = None
  <-> existsb (fun call => PyText.contains (call +:+ "(") code_lower) calls = false.
Proof.
  induction calls as [|call rest IH]; simpl; [done |].
  destruct (PyText.contains _ _); simpl; [split; done | exact IH].
Qed.

Lemma scan_calls_unsafe code_lower calls v :
  scan_calls code_lower calls = Some v -> is_safe v = false.
Proof.
  induction calls as [|call rest IH]; simpl; [done |].
  destruct (PyText.contains _ _); [by intros [= <-] | exact IH].
Qed.

Lemma sanitize_code_flagged (code : string) :
  is_safe (sanitize_code code) = negb (flagged (PyText.lower code)).
Proof.
  unfold sanitize_code, flagged.
  destruct (scan_imports _ _) as [v|] eqn:Hi.
  - rewrite (scan_imports_unsafe _ _ _ Hi).
    destruct (existsb _ DANGEROUS_IMPORTS) eqn:He; [done |].
    apply scan_imports_none in He. congruence.
  - apply scan_imports_none in Hi. rewrite Hi. cbn [orb].
    destruct (scan_calls _ _) as [v|] eqn:Hc.
    + rewrite (scan_calls_unsafe _ _ _ Hc).
      destruct (existsb _ DANGEROUS_CALLS) eqn:He; [done |].
      apply scan_calls_none in He. congruence.
    + apply scan_calls_none in Hc. by rewrite Hc.
Qed.

Lemma existsb_impl {A} (p q : A -> bool) (l : list A) :
  (forall x, p x = true -> q x = true) -> existsb p l = true -> existsb q l = true.
Proof.
  intros Hpq. rewrite !existsb_exists. intros (x & Hin & Hp). exists x. auto.
Qed.

(** X18. Code that the safety check refuses stays refused inside any
    surrounding text: the check cannot be passed by adding text before or
    after a refused fragment. *)
Theorem X18_sanitize_padding (code before after : string) :
  is_safe (sanitize_code code) = false ->
  is_safe (sanitize_code (before +:+ code +:+ after)) = false.
Proof.
  rewrite !sanitize_code_flagged, !negb_false_iff, !lower_app.
  unfold flagged. intros H. apply orb_prop in H as [H|H].
  - apply orb_true_intro. left. revert H. apply existsb_impl. intros imp Himp.
    apply orb_prop in Himp as [Hc|Hc]; apply orb_true_intro; [left | right];
      by apply contains_padded.
  - apply orb_true_intro. right. revert H. apply existsb_impl. intros call Hc.
    by apply contains_padded.
Qed.

(** X19. On code of ASCII characters the safety check does not depend on
    letter case: the code in upper case gets the verdict, reason included,
    of the code as given. *)
Theorem X19_sanitize_case (code : string) :
  Py.isascii code = true ->
  sanitize_code (Py.upper code) = sanitize_code code.
Proof. intros Hascii. unfold sanitize_code. by rewrite lower_upper. Qed.

(** X20. What a verdict [is_safe: true] guarantees, and nothing less: in
    the lowered code there is no ["import m"] and no ["from m"] for any of
    the six listed modules, and no ["f("] for any of the five listed
    calls. The tests are on substrings, so a longer name that starts with
    a listed one is refused as well. *)
Theorem X20_sanitize_safe_meaning (code : string) :
  is_safe (sanitize_code code) = true <->
  (forall imp, In imp DANGEROUS_IMPORTS ->
     PyText.contains ("import " +:+ imp) (PyText.lower code) = false
     /\ PyText.contains ("from " +:+ imp) (PyText.lower code) = false)
  /\ (forall call, In call DANGEROUS_CALLS ->
        PyText.contains (call +:+ "(") (PyText.lower code) = false).
Proof.
  rewrite sanitize_code_flagged, negb_true_iff. unfold flagged.
  rewrite orb_false_iff, <- !not_true_iff_false, !existsb_exists. split.
  - intros [Hi Hc]. split.
    + intros imp Hin. apply orb_false_iff, not_true_is_false. intros H.
      apply Hi. by exists imp.
    + intros call Hin. apply not_true_is_false. intros H. apply Hc. by exists call.
  - intros [Hi Hc]. split.
    + intros (imp & Hin & H). destruct (Hi imp Hin) as [H1 H2]. by rewrite H1, H2 in H.
    + intros (call & Hin & H). by rewrite (Hc call Hin) in H.
Qed.

(** ** Facts about the examples *)

Lemma collect_relevant_filter error_type training_data relevant :
  collect_relevant error_type training_data relevant
  = relevant ++ List.filter (matches_type error_type) training_data.
Proof.
  revert relevant. induction training_data as [|item rest IH]; intros relevant; simpl.
  - by rewrite app_nil_r.
  - destruct (matches_type error_type item); [| apply IH].
    rewrite IH. by rewrite <- app_assoc.
Qed.

(** X21. [retrieve_fix_examples] answers at most three examples, all of
    them matching the error type (the lowered type occurs in the lowered
    type of the example), and they are the first three matching examples
    in the order they were saved. An empty error type matches everything:
    the answer is then the first three examples, whatever their type. *)
Theorem X21_retrieve_first_three (training_data : list (gmap string string))
    (error_type : string) :
  retrieve_fix_examples training_data error_type
  = take 3 (List.filter (matches_type error_type) training_data)
  /\ length (retrieve_fix_examples training_data error_type) <= 3
  /\ Forall (fun item => matches_type error_type item = true)
            (retrieve_fix_examples training_data error_type)
  /\ retrieve_fix_examples training_data "" = take 3 training_data.
Proof.
  unfold retrieve_fix_examples. rewrite !collect_relevant_filter. simpl.
  split; [done |]. split; [rewrite length_take; lia |]. split.
  - apply Forall_forall. intros item Hin. apply list_elem_of_In in Hin.
    assert (Hin' : In item (List.filter (matches_type error_type) training_data)).
    { apply list_elem_of_In. eapply (subseteq_take 3), list_elem_of_In. exact Hin. }
    by apply filter_In in Hin' as [_ ?].
  - f_equal. induction training_data as [|item rest IH]; [done |]. simpl.
    unfold matches_type at 1. simpl. rewrite contains_empty. by rewrite IH.
Qed.

(** X22. [save_fix] adds one example and answers the new count. The
    example is retrieved for its own error type when fewer than three
    earlier examples match that type; when three or more do, the retrieval
    is what it was before the save: the three oldest matching examples. *)
Theorem X22_save_then_retrieve (training_data : list (gmap string string))
    (error_type context fix_description fix_code : string) :
  let '(training_data', total) :=
    save_fix training_data error_type context fix_description fix_code in
  let earlier := List.filter (matches_type error_type) training_data in
  total = S (length training_data)
  /\ (exists example,
        training_data' = training_data ++ [example]
        /\ get_text example "error_type" "" = error_type
        /\ get_text example "fix_code_template" "" = fix_code
        /\ (length earlier < 3 ->
            In example (retrieve_fix_examples training_data' error_type)))
  /\ (3 <= length earlier ->
      retrieve_fix_examples training_data' error_type
      = retrieve_fix_examples training_data error_type).
Proof.
  unfold save_fix. cbv zeta.
  set (example := <["fix_code_template" := fix_code]> _).
  assert (Htype : get_text example "error_type" "" = error_type).
  { unfold get_text. subst example. by simplify_map_eq. }
  assert (Hcode : get_text example "fix_code_template" "" = fix_code).
  { unfold get_text. subst example. by simplify_map_eq. }
  assert (Hmatch : matches_type error_type example = true).
  { unfold matches_type. rewrite Htype. apply contains_refl. }
  assert (Hfilter : List.filter (matches_type error_type) (training_data ++ [example])
                    = List.filter (matches_type error_type) training_data ++ [example]).
  { rewrite List.filter_app. simpl. by rewrite Hmatch. }
  split; [rewrite length_app; simpl; lia |].
  unfold retrieve_fix_examples. rewrite !collect_relevant_filter. simpl.
  rewrite Hfilter. split.
  - exists example. repeat split; try done.
    intros Hlt. apply list_elem_of_In, list_elem_of_lookup.
    exists (length (List.filter (matches_type error_type) training_data)).
    rewrite lookup_take_lt by done.
    rewrite lookup_app_r by done. by rewrite Nat.sub_diag.
  - intros Hge. by rewrite take_app_le.
Qed.

(** X23. Without a client and without a matching example, the suggested
    code passes the safety check, whatever the error type. *)
Theorem X23_offline_suggestion_is_safe (training_data : list (gmap string string))
    (error_type : string) :
  retrieve_fix_examples training_data error_type = [] ->
  let s := generate_fix_suggestion_offline training_data error_type in
  sg_source s = "mock" /\ is_safe (sanitize_code (sg_code s)) = true.
Proof.
  intros Hnone s. subst s. unfold generate_fix_suggestion_offline. rewrite Hnone.
  unfold mock_response.
  destruct (PyText.contains "dangle" _); [by vm_compute |].
  destruct (PyText.contains "short" _); by vm_compute.
Qed.

(** ** The fix type suggested for generated code, and the dispatcher *)

Section Suggested.

Variable wkt : geometry -> string.
Variable distance2 : geometry -> geometry -> Q.
Variable snap : geometry -> geometry -> Q -> geometry.
Variable simplify : geometry -> Q -> geometry.
Variable buffer : geometry -> Q -> geometry.
Variable make_valid : geometry -> geometry.
Variable length_of : geometry -> Q.
Variable interpolate : geometry -> PyFloat.t -> geometry.
Variable format_dist4 : distance_t -> string.
Variable str_num : Q -> string.

Local Abbreviation apply_fix' :=
  (apply_fix wkt distance2 snap simplify buffer make_valid length_of
             interpolate format_dist4 str_num).

Lemma suggest_fix_type_range (code : string) :
  In (suggest_fix_type code) (fix_types ++ ["SPLIT"]).
Proof.
  unfold suggest_fix_type. cbv zeta beta.
  repeat match goal with
         | |- context [if ?b then _ else _] => destruct b
         end; simpl; tauto.
Qed.

(** X24. The fix type read off generated code is one of the nine names
    of the dispatcher or ["SPLIT"]. Every one but ["SPLIT"] is a name the
    dispatcher knows; ["SPLIT"] it does not know: on a slot that holds a
    geometry, applying it answers [success: false] with
    ["Unknown fix type: SPLIT"] and changes nothing. *)
Theorem X24_suggested_fix_type (code : string) :
  In (suggest_fix_type code) (fix_types ++ ["SPLIT"])
  /\ (suggest_fix_type code <> "SPLIT" ->
      In (Py.upper (suggest_fix_type code)) fix_types)
  /\ (suggest_fix_type code = "SPLIT" ->
      forall error_id params e geom,
        (0 <= resolve_index error_id)%Z ->
        current_geometries e !! Z.to_nat (resolve_index error_id) = Some (Some geom) ->
        apply_fix' error_id (suggest_fix_type code) params e
        = (Some (Response false "Unknown fix type: SPLIT"), e)).
Proof.
  pose proof (suggest_fix_type_range code) as Hin.
  split; [done |]. split.
  - intros Hne. simpl in Hin.
    repeat (destruct Hin as [<-|Hin]; [simpl; tauto |]).
    destruct Hin as [Heq|[]]. exfalso. by apply Hne.
  - intros -> error_id params e geom Hpos Hslot.
    rewrite (apply_fix_live wkt distance2 snap simplify buffer make_valid length_of
               interpolate format_dist4 str_num _ _ _ _ geom) by done.
    reflexivity.
Qed.

End Suggested.

(** * The report of the fix engine ([export_report]) *)

(** [s * n] on a string. *)
Fixpoint py_repeat (s : string) (n : nat) : string :=
  match n with
  | O => ""
  | S n' => s +:+ py_repeat s n'
  end.

(** The text before the loop. *)
Definition report_header (objects fixes : nat) : string :=
  "AXES SYSTEMS - AI FIX REPORT" +:+ newline
  +:+ "============================" +:+ newline +:+ newline
  +:+ "Total Objects processed: " +:+ str_nat objects +:+ newline
  +:+ "Total Fixes Applied: " +:+ str_nat fixes +:+ newline +:+ newline.

(** What one iteration of the loop adds, for the record numbered [i]. *)
Definition report_block (i : nat) (r : fix_record) : string :=
  "FIX #" +:+ str_nat i +:+ newline
  +:+ "Error ID: " +:+ fix_error_id r +:+ newline
  +:+ "Type: " +:+ fix_fix_type r +:+ newline
  +:+ "Action: " +:+ fix_result r +:+ newline
  +:+ py_repeat "-" 30 +:+ newline.

(** The loop over [enumerate(self.applied_fixes, i)]. *)
Fixpoint report_loop (report : string) (i : nat) (fixes : list fix_record) : string :=
  match fixes with
  | [] => report
  | r :: rest => report_loop (report +:+ report_block i r) (i + 1) rest
  end.

Definition export_report (e : engine) : string :=
  report_loop
    (report_header (length (original_geometries e)) (length (applied_fixes e)))
    1 (applied_fixes e).

(** The blocks of a log, numbered from 1. *)
Definition report_body (fixes : list fix_record) : string := report_loop "" 1 fixes.

Lemma report_loop_from report i fixes :
  report_loop report i fixes = report +:+ report_loop "" i fixes.
Proof.
  revert report i. induction fixes as [|r rest IH]; intros report i; simpl.
  - by rewrite append_nil_r.
  - rewrite (IH (report +:+ report_block i r)), (IH ("" +:+ report_block i r)).
    by rewrite append_nil_l, append_assoc.
Qed.

Lemma report_loop_snoc i fixes r :
  report_loop "" i (fixes ++ [r])
  = report_loop "" i fixes +:+ report_block (i + length fixes) r.
Proof.
  revert i. induction fixes as [|r0 rest IH]; intros i; simpl.
  - by rewrite Nat.add_0_r.
  - rewrite !append_nil_l.
    rewrite (report_loop_from (report_block i r0)),
            (report_loop_from (report_block i r0) (i + 1) rest).
    rewrite IH, append_assoc. by replace (i + 1 + length rest) with (i + S (length rest)) by lia.
Qed.

Section Reports.

Variable wkt : geometry -> string.
Variable distance2 : geometry -> geometry -> Q.
Variable snap : geometry -> geometry -> Q -> geometry.
Variable simplify : geometry -> Q -> geometry.
Variable buffer : geometry -> Q -> geometry.
Variable make_valid : geometry -> geometry.
Variable length_of : geometry -> Q.
Variable interpolate : geometry -> PyFloat.t -> geometry.
Variable format_dist4 : distance_t -> string.
Variable str_num : Q -> string.

Local Abbreviation apply_fix' :=
  (apply_fix wkt distance2 snap simplify buffer make_valid length_of
             interpolate format_dist4 str_num).

(** X25. The report and the calls. After a call that fails the report is
    the report before it. After a call that succeeds, the report counts
    the same number of objects and one more fix, keeps the blocks of the
    earlier fixes, and ends with one new block, numbered with the new
    count, that shows the identifier, the fix type as it was given and
    the message that the call answered. *)
Theorem X25_report_after_a_call (error_id fix_type : string)
    (params : option (gmap string Q)) (e : engine) :
  match apply_fix' error_id fix_type params e with
  | (Some r, e') =>
      if success r then
        exists original_wkt,
          export_report e'
          = report_header (length (original_geometries e))
                          (S (length (applied_fixes e)))
            +:+ report_body (applied_fixes e)
            +:+ report_block (S (length (applied_fixes e)))
                  (FixRecord error_id fix_type original_wkt (message r) "now")
      else export_report e' = export_report e
  | (None, _) => False
  end.
Proof.
  destruct (apply_fix_shape wkt distance2 snap simplify buffer make_valid
              length_of interpolate format_dist4 str_num error_id fix_type params e)
    as [msg | e1 fix_result original_wkt (Ho & Ha & _) _]; simpl; [done |].
  exists original_wkt. unfold export_report, report_body. simpl.
  rewrite Ho, Ha, length_app. simpl.
  replace (length (applied_fixes e) + 1) with (S (length (applied_fixes e))) by lia.
  rewrite report_loop_from, report_loop_snoc. reflexivity.
Qed.

End Reports.

(** * The properties above on concrete data *)

Lemma X1_failure_changes_nothing_witness :
  let e := Engine [Some line_a] [Some line_a] [] in
  (Sample.apply_fix "0" "SNAP" None e).2 = e.
Proof.
  intros e.
  apply (X1_failure_changes_nothing Sample.wkt Sample.distance2 Sample.snap
           Sample.simplify Sample.buffer Sample.make_valid Sample.length_of
           Sample.interpolate Sample.format_dist4 Sample.str_num
           "0" "SNAP" None e (Sample.apply_fix "0" "SNAP" None e).2
           (Response false "No geometry found within snap tolerance"));
    reflexivity.
Defined.

Lemma X2_none_slot_stays_none_witness :
  let e := Engine [Some line_a; Some line_b] [None; Some line_b] [] in
  let calls := [FixCall "0" "MAKE_VALID" None; FixCall "1" "REVERSE" None;
                FixCall "0" "DELETE" None] in
  current_geometries
    (run_fixes Sample.wkt Sample.distance2 Sample.snap Sample.simplify Sample.buffer
       Sample.make_valid Sample.length_of Sample.interpolate Sample.format_dist4
       Sample.str_num calls e) !! 0
  = Some None.
Proof.
  intros e calls.
  apply (X2_none_slot_stays_none Sample.wkt Sample.distance2 Sample.snap Sample.simplify
           Sample.buffer Sample.make_valid Sample.length_of Sample.interpolate
           Sample.format_dist4 Sample.str_num calls e 0).
  reflexivity.
Defined.

Lemma X4_index_beyond_the_list_witness :
  let e := Engine [Some line_a; Some line_b] [Some line_a; Some line_b] [] in
  Sample.apply_fix "short-7" "DELETE" None e
  = (Some (Response false "Invalid geometry index: 7"), e).
Proof.
  intros e.
  apply (X4_index_beyond_the_list Sample.wkt Sample.distance2 Sample.snap Sample.simplify
           Sample.buffer Sample.make_valid Sample.length_of Sample.interpolate
           Sample.format_dist4 Sample.str_num "short-7" "DELETE" None e).
  vm_compute. discriminate.
Defined.

Lemma X5_unknown_fix_type_witness :
  let e := Engine [Some line_a] [Some line_a] [] in
  Sample.apply_fix "0" "Split" None e
  = (Some (Response false "Unknown fix type: Split"), e).
Proof.
  intros e.
  apply (X5_unknown_fix_type Sample.wkt Sample.distance2 Sample.snap Sample.simplify
           Sample.buffer Sample.make_valid Sample.length_of Sample.interpolate
           Sample.format_dist4 Sample.str_num "0" "Split" None e line_a).
  - simpl. intuition discriminate.
  - vm_compute. discriminate.
  - reflexivity.
Defined.

Lemma X6_close_open_line_witness :
  let open := LineString [(0, 0); (5, 0); (5, 5)]%Q in
  let e := Engine [Some open] [Some open] [] in
  current_geometries (Sample.apply_fix "0" "close" None e).2
  = [Some (LineString [(0, 0); (5, 0); (5, 5); (0, 0)]%Q)].
Proof.
  intros open e.
  destruct (X6_close_open_line Sample.wkt Sample.distance2 Sample.snap Sample.simplify
              Sample.buffer Sample.make_valid Sample.length_of Sample.interpolate
              Sample.format_dist4 Sample.str_num "0" "close" None e
              (0, 0)%Q [(5, 0); (5, 5)]%Q) as [Hcall _].
  - reflexivity.
  - vm_compute. discriminate.
  - reflexivity.
  - discriminate.
  - reflexivity.
  - unfold Sample.apply_fix. rewrite Hcall. reflexivity.
Defined.

Lemma X7_close_twice_witness :
  let open := LineString [(0, 0); (5, 0); (5, 5)]%Q in
  let e := Engine [Some open] [Some open] [] in
  current_geometries
    (Sample.apply_fix "0" "CLOSE" None (Sample.apply_fix "0" "CLOSE" None e).2).2
  = current_geometries (Sample.apply_fix "0" "CLOSE" None e).2.
Proof.
  intros open e.
  apply (X7_close_twice Sample.wkt Sample.distance2 Sample.snap Sample.simplify
           Sample.buffer Sample.make_valid Sample.length_of Sample.interpolate
           Sample.format_dist4 Sample.str_num "0" "CLOSE" None e).
  reflexivity.
Defined.

Lemma X8_reverse_twice_witness :
  let e := Engine [Some line_a; Some (Polygon unit_square [])]
                  [Some line_a; Some (Polygon unit_square [])] [] in
  current_geometries
    (Sample.apply_fix "1" "reverse" None (Sample.apply_fix "1" "reverse" None e).2).2
  = current_geometries e.
Proof.
  intros e.
  apply (X8_reverse_twice Sample.wkt Sample.distance2 Sample.snap Sample.simplify
           Sample.buffer Sample.make_valid Sample.length_of Sample.interpolate
           Sample.format_dist4 Sample.str_num "1" "reverse" None e).
  reflexivity.
Defined.

Lemma X9_not_applicable_is_a_success_witness :
  let p := Point (Some (1, 2)%Q) in
  let e := Engine [Some p] [Some p] [] in
  exists fix_result,
    Sample.apply_fix "0" "Densify" None e
    = (Some (Response true fix_result),
       log_fix e (FixRecord "0" "Densify" (Sample.wkt p) fix_result "now")).
Proof.
  intros p e.
  apply (X9_not_applicable_is_a_success Sample.wkt Sample.distance2 Sample.snap
           Sample.simplify Sample.buffer Sample.make_valid Sample.length_of
           Sample.interpolate Sample.format_dist4 Sample.str_num
           "0" "Densify" None e (Some (1, 2)%Q)).
  - simpl. tauto.
  - vm_compute. discriminate.
  - reflexivity.
Defined.

Lemma X10_densify_zero_interval_witness :
  let e := Engine [Some line_a] [Some line_a] [] in
  exists msg,
    Sample.apply_fix "0" "DENSIFY" (Some {["interval" := 0%Q]}) e
    = (Some (Response false msg), e).
Proof.
  intros e.
  apply (X10_densify_zero_interval Sample.wkt Sample.distance2 Sample.snap
           Sample.simplify Sample.buffer Sample.make_valid Sample.length_of
           Sample.interpolate Sample.format_dist4 Sample.str_num
           "0" "DENSIFY" (Some {["interval" := 0%Q]}) e [(0, 0); (10, 0)]%Q).
  - reflexivity.
  - vm_compute. discriminate.
  - reflexivity.
  - vm_compute. reflexivity.
Defined.





Lemma X15_wider_tolerance_fewer_dangles_witness :
  exists fs fs',
    find_dangles Sample.wkt Sample.distance2 Sample.str_num Sample.is_simple
      Sample.format_f scenario_lines (1 # 2) = Ok fs
    /\ find_dangles Sample.wkt Sample.distance2 Sample.str_num Sample.is_simple
         Sample.format_f scenario_lines 20 = Ok fs'
    /\ length fs' <= length fs.
Proof.
  destruct (X15_wider_tolerance_fewer_dangles Sample.wkt Sample.distance2 Sample.str_num
              Sample.is_simple Sample.format_f scenario_lines (1 # 2) 20
              scenario_well_indexed ltac:(vm_compute; discriminate))
    as (fs & fs' & H1 & H2 & Hlen & _).
  exists fs, fs'. by repeat split.
Defined.

Lemma X16_line_alone_witness :
  find_dangles Sample.wkt Sample.distance2 Sample.str_num (fun _ => false)
    Sample.format_f [LineItem 0 1 (Some line_a)] (1 # 2)
  = Ok [dangle_error Sample.wkt Sample.str_num Sample.format_f (1 # 2) a_start;
        dangle_error Sample.wkt Sample.str_num Sample.format_f (1 # 2) a_end].
Proof.
  apply (X16_line_alone Sample.wkt Sample.distance2 Sample.str_num (fun _ => false)
           Sample.format_f 1 (0, 0)%Q [(10, 0)%Q] (1 # 2)).
  discriminate.
Defined.

Lemma X17_first_numeric_part_witness :
  resolve_index ("dangle" +:+ "-" +:+ str_nat 12 +:+ "-" +:+ "7-end") = 12%Z.
Proof.
  apply (X17_first_numeric_part "dangle" "7-end" 12); reflexivity.
Defined.

Lemma X18_sanitize_padding_witness :
  is_safe (sanitize_code ("x = 1; " +:+ "Import OS" +:+ " # harmless")) = false.
Proof. apply (X18_sanitize_padding "Import OS" "x = 1; " " # harmless"). reflexivity. Defined.

Lemma X19_sanitize_case_witness :
  sanitize_code "IMPORT OS" = sanitize_code "Import os"
  /\ is_safe (sanitize_code "Import os") = false.
Proof.
  split; [| reflexivity].
  apply (X19_sanitize_case "Import os"). reflexivity.
Defined.

Lemma X23_offline_suggestion_is_safe_witness :
  is_safe (sanitize_code (sg_code (generate_fix_suggestion_offline []
                                     "Dangle (Unconnected Endpoint)"))) = true.
Proof.
  apply (X23_offline_suggestion_is_safe [] "Dangle (Unconnected Endpoint)"). reflexivity.
Defined.

Lemma X24_suggested_fix_type_witness :
  let e := Engine [Some line_a] [Some line_a] [] in
  suggest_fix_type "parts = split(line, point)" = "SPLIT"
  /\ Sample.apply_fix "0" (suggest_fix_type "parts = split(line, point)") None e
     = (Some (Response false "Unknown fix type: SPLIT"), e).
Proof.
  intros e. split; [reflexivity |].
  destruct (X24_suggested_fix_type Sample.wkt Sample.distance2 Sample.snap Sample.simplify
              Sample.buffer Sample.make_valid Sample.length_of Sample.interpolate
              Sample.format_dist4 Sample.str_num "parts = split(line, point)")
    as (_ & _ & Hsplit).
  apply (Hsplit eq_refl "0" None e line_a); [vm_compute; discriminate | reflexivity].
Defined.

(** A statement that the sample reader rejects, between the two lines of
    the scenario. *)
Definition broken_text : string :=
  "LINESTRING(0 0, 10 0)" +:+ newline +:+ "LINESTRING(oops)" +:+ newline
  +:+ "LINESTRING(10 0, 10 10)".

Lemma X13_readers_agree_witness :
  parse_geometries Sample.loads broken_text = [Some line_a; None; Some line_b]
  /\ map item_geom (read_lines_data Sample.loads broken_text)
     = [Some line_a; Some line_b]
  /\ parse_geometries Sample.loads scenario_text
     = map item_geom (read_lines_data Sample.loads scenario_text).
Proof.
  split; [reflexivity |]. split; [reflexivity |].
  destruct (X13_readers_agree Sample.loads scenario_text) as (_ & _ & _ & Hsame).
  apply Hsame. repeat constructor; by eexists.
Defined.

(** A plot that fails, as when the output directory cannot be written. *)
Definition failing_plot (lines_data : list line_item) (errors : list finding)
  : result string :=
  Raise "[Errno 13] Permission denied".

Lemma X14_run_answers_witness :
  let run := run_geometry_qa Sample.loads Sample.wkt Sample.distance2 Sample.length_of
               Sample.str_num Sample.is_simple Sample.is_valid Sample.explain_validity
               Sample.centroid Sample.format_f in
  run Sample.plot "LINESTRING(oops)"
  = QaReport None [Notice "insufficient_data" "No valid geometries found."] []
  /\ qa_output_url (run Sample.plot scenario_text) = Some "/outputs/geometry_0.png"
  /\ length (qa_collection_wkt (run Sample.plot scenario_text)) = 2
  /\ run failing_plot scenario_text
     = QaReport None
         [Notice "processing_error"
            "Failed to process geometry: [Errno 13] Permission denied"] [].
Proof.
  intros run. subst run. split; [| split; [| split]].
  - destruct (X14_run_answers Sample.loads Sample.wkt Sample.distance2 Sample.length_of
                Sample.str_num Sample.is_simple Sample.is_valid Sample.explain_validity
                Sample.centroid Sample.format_f Sample.plot "LINESTRING(oops)")
      as [Hnone _].
    apply Hnone. reflexivity.
  - destruct (X14_run_answers Sample.loads Sample.wkt Sample.distance2 Sample.length_of
                Sample.str_num Sample.is_simple Sample.is_valid Sample.explain_validity
                Sample.centroid Sample.format_f Sample.plot scenario_text)
      as [_ Hsome].
    destruct Hsome as (findings & _ & Hplot); [vm_compute; discriminate |].
    unfold Sample.plot in Hplot at 1. destruct Hplot as [Hreport _].
    rewrite Hreport. reflexivity.
  - destruct (X14_run_answers Sample.loads Sample.wkt Sample.distance2 Sample.length_of
                Sample.str_num Sample.is_simple Sample.is_valid Sample.explain_validity
                Sample.centroid Sample.format_f Sample.plot scenario_text)
      as [_ Hsome].
    destruct Hsome as (findings & _ & Hplot); [vm_compute; discriminate |].
    unfold Sample.plot in Hplot at 1. destruct Hplot as [_ Hlen].
    rewrite Hlen. reflexivity.
  - destruct (X14_run_answers Sample.loads Sample.wkt Sample.distance2 Sample.length_of
                Sample.str_num Sample.is_simple Sample.is_valid Sample.explain_validity
                Sample.centroid Sample.format_f failing_plot scenario_text)
      as [_ Hsome].
    destruct Hsome as (findings & _ & Hplot); [vm_compute; discriminate |].
    exact Hplot.
Defined.

Lemma X22_save_then_retrieve_witness :
  let data := (save_fix [] "Dangle" "ctx" "snap it" "# snap").1 in
  exists example,
    data = [example]
    /\ In example (retrieve_fix_examples data "Dangle").
Proof.
  intros data.
  pose proof (X22_save_then_retrieve [] "Dangle" "ctx" "snap it" "# snap") as H.
  unfold save_fix in H. cbv zeta in H.
  destruct H as (_ & (example & Hdata & _ & _ & Hin) & _).
  exists example. split; [exact Hdata |].
  subst data. unfold save_fix. cbv zeta. cbn [fst]. rewrite Hdata.
  rewrite Hdata in Hin. apply Hin. simpl. lia.
Defined.

(** * Further properties of the loading *)

Lemma split_from_not_nil sep cur s : Py.split_from sep cur s <> [].
Proof.
  revert cur. induction s as [|c s IH]; intros cur; simpl; [done |].
  destruct (Ascii.eqb c sep); [done | apply IH].
Qed.

Lemma last_piece_cons x l : l <> [] -> Py.last_piece (x :: l) = Py.last_piece l.
Proof. by destruct l. Qed.

(** The last piece of a split does not see what comes before a
    separator. *)
Lemma last_piece_after_sep sep cur a b :
  Py.last_piece (Py.split_from sep cur (a +:+ String sep b))
  = Py.last_piece (Py.split_from sep "" b).
Proof.
  revert cur. induction a as [|c a IH]; intros cur.
  - rewrite append_nil_l. simpl. rewrite Ascii.eqb_refl.
    apply last_piece_cons, split_from_not_nil.
  - rewrite append_cons. simpl. destruct (Ascii.eqb c sep); [| apply IH].
    rewrite last_piece_cons by apply split_from_not_nil. apply IH.
Qed.

Lemma endswith_app c (a b : string) :
  b <> "" -> Py.endswith c (a +:+ b) = Py.endswith c b.
Proof.
  intros Hb. induction a as [|x a IH]; [done |].
  rewrite append_cons. simpl.
  destruct (a +:+ b) eqn:Hab; [| exact IH].
  destruct a; [rewrite append_nil_l in Hab; congruence | by rewrite append_cons in Hab].
Qed.

Section Loading.

Variable loads : string -> result geometry.

Lemma records_no_more_than_slots (text : string) :
  length (read_lines_data loads text) <= length (parse_geometries loads text).
Proof.
  destruct (read_loop_agrees loads (Py.splitlines text) ("", []) (Reader "" 0 []) 0)
    as (_ & Hgeoms & Hgood); [by repeat split |].
  fold (parse_geometries loads text) in Hgeoms.
  fold (read_lines_data loads text) in Hgeoms, Hgood.
  assert (Hall : length (omap item_geom (read_lines_data loads text))
                 = length (read_lines_data loads text)).
  { clear Hgeoms. induction Hgood as [|item l (g & Hg & _) _ IH]; [done |].
    cbn [omap list_omap]. rewrite Hg. cbn [length]. f_equal. exact IH. }
  rewrite <- Hall, <- Hgeoms. apply omap_length_le.
Qed.

(** X26. A tag in front of a one-line statement, up to a semicolon (such
    as [SRID=4326;]), is discarded: on a fresh buffer, a line
    [tag;statement] whose statement ends with a closing parenthesis is
    read, by the loader of the engine and by the reader of the
    diagnostics, as the line [statement] is. Both lines are taken without
    surrounding blanks. *)
Theorem X26_tag_is_discarded (tag stmt : string) (geoms : list (option geometry))
    (rd : reader) (i : nat) :
  let line := tag +:+ ";" +:+ stmt in
  Py.strip line = line ->
  Py.strip stmt = stmt ->
  Py.endswith ")" stmt = true ->
  load_line loads ("", geoms) line = load_line loads ("", geoms) stmt
  /\ (rd_buf rd = "" -> read_line loads rd i line = read_line loads rd i stmt).
Proof.
  intros line Hline Hstmt Hclose.
  assert (Hne : stmt <> "") by (by intros ->).
  assert (Hends : Py.endswith ")" line = true).
  { subst line. rewrite <- append_assoc, endswith_app; done. }
  assert (Hlast : Py.last_piece (Py.split ";" ("" +:+ line +:+ " "))
                  = Py.last_piece (Py.split ";" ("" +:+ stmt +:+ " "))).
  { subst line. rewrite !append_nil_l. unfold Py.split.
    replace ((tag +:+ ";" +:+ stmt) +:+ " ") with (tag +:+ String ";" (stmt +:+ " "))
      by (by rewrite !append_assoc).
    apply last_piece_after_sep. }
  assert (Ht1 : Py.truthy line = true).
  { subst line. destruct tag; [done | done]. }
  assert (Ht2 : Py.truthy stmt = true) by (by destruct stmt).
  split.
  - unfold load_line. by rewrite Hline, Hstmt, Ht1, Ht2, Hends, Hclose, Hlast.
  - intros Hbuf. unfold read_line.
    by rewrite Hline, Hstmt, Ht1, Ht2, Hends, Hclose, Hbuf, Hlast.
Qed.

(** The lines that close a statement. *)
Definition closing_lines (raw_lines : list string) : list string :=
  List.filter (fun l => Py.endswith ")" (Py.strip l)) raw_lines.

Lemma load_line_count st line_str :
  length (load_line loads st line_str).2
  <= length st.2 + (if Py.endswith ")" (Py.strip line_str) then 1 else 0).
Proof.
  destruct st as [buf geoms]. unfold load_line.
  destruct (Py.truthy (Py.strip line_str)) eqn:Ht; cbn [negb snd]; [| lia].
  destruct (Py.endswith _ _); cbn [snd]; [| lia].
  destruct (loads _) as [geom|]; [destruct (negb (is_empty geom)) |];
    cbn [snd]; rewrite ?length_app; simpl; lia.
Qed.

Lemma load_loop_count raw_lines st :
  length (fold_left (load_line loads) raw_lines st).2
  <= length st.2 + length (closing_lines raw_lines).
Proof.
  revert st. induction raw_lines as [|l raw_lines IH]; intros st; simpl; [lia |].
  pose proof (IH (load_line loads st l)) as H1.
  pose proof (load_line_count st l) as H2.
  destruct (Py.endswith ")" (Py.strip l)); simpl; lia.
Qed.

(** X27. The loader makes at most one slot per line that ends, once
    stripped, with a closing parenthesis. A text without such a line
    (an empty text, blank lines, a statement left open) gives no slot:
    the load answers 0, and the diagnostics read no record. *)
Theorem X27_slots_and_closing_lines (text : string) (e : engine) :
  (load_wkt_content loads text e).1 <= length (closing_lines (Py.splitlines text))
  /\ length (read_lines_data loads text) <= length (closing_lines (Py.splitlines text))
  /\ (closing_lines (Py.splitlines text) = [] ->
      load_wkt_content loads text e = (0, Engine [] [] [])
      /\ read_lines_data loads text = []).
Proof.
  pose proof (load_loop_count (Py.splitlines text) ("", [])) as Hcount.
  fold (parse_geometries loads text) in Hcount. simpl in Hcount.
  pose proof (records_no_more_than_slots text) as Hlen.
  split; [exact Hcount |]. split; [lia |].
  intros Hnone. rewrite Hnone in Hcount. simpl in Hcount.
  split.
  - unfold load_wkt_content.
    destruct (parse_geometries loads text); [done | simpl in Hcount; lia].
  - destruct (read_lines_data loads text); [done | simpl in Hlen; lia].
Qed.

End Loading.

Lemma X26_tag_is_discarded_witness :
  load_line Sample.loads ("", []) "SRID=4326;LINESTRING(0 0, 10 0)"
  = load_line Sample.loads ("", []) "LINESTRING(0 0, 10 0)"
  /\ load_line Sample.loads ("", []) "LINESTRING(0 0, 10 0)" = ("", [Some line_a]).
Proof.
  split; [| reflexivity].
  apply (X26_tag_is_discarded Sample.loads "SRID=4326" "LINESTRING(0 0, 10 0)" []
           (Reader "" 0 []) 0); reflexivity.
Defined.

Lemma X27_slots_and_closing_lines_witness :
  let text := "   " +:+ newline +:+ "LINESTRING(0 0," +:+ newline +:+ " 10 0" in
  load_wkt_content Sample.loads text (Engine [Some line_a] [None] [])
  = (0, Engine [] [] []).
Proof.
  intros text.
  destruct (X27_slots_and_closing_lines Sample.loads text (Engine [Some line_a] [None] []))
    as (_ & _ & Hnone).
  apply Hnone. reflexivity.
Defined.
